(** * bAImax: the severity classifier of [src/core]

    A shallow embedding of [bAImaxClasificadorMejorado]
    (src/core/baimax_clasificador_mejorado.py) and of [bAImaxClassifier]
    (src/core/baimax_core.py), with the properties their specification
    states about them, and of two callers of the first: the methods of
    [bAImaxWebApp] (src/web/baimax_simple_app.py) and of [bAImaxDemoApp]
    (src/utils/baimax_demo_presentacion.py) that train it and predict with
    it.

    Conventions of the embedding.
    - A Python [str] that is inspected character by character (the comment
      text, the categorical values) is the list of its code points.  Names
      that the program only uses as dictionary keys or column headers are
      Rocq strings.
    - A Python float is a rational number: the arithmetic of the program
      (a product, a sum, a clip, a mean, a maximum) is the exact one.
    - pandas, scikit-learn, numpy's random generator and pickle are not code
      of the repository.  What the program calls in them is gathered in the
      class [Biblioteca]; the program is written over any instance of it.
    - An exception is a value of [excepcion]; a method is a function from
      the instance and the world around it (file system, global random
      generator) to a result and the instance and world it leaves behind.
    - Console output is not part of the model, but for what it can raise:
      the last lines of [entrenar], which index the confusion matrix.
    - A file that is written is written: [open(path, 'wb')] does not fail. *)

From Stdlib Require Import QArith Qminmax Lia Lqa.
From stdpp Require Import gmap strings list fin_maps sorting.

Local Open Scope N_scope.

(** ** Python strings *)

Module Texto.

(** A Python [str]: its code points. *)
Definition pystr := list N.

(** Reading a literal of this file, which is UTF-8, into code points. *)
Fixpoint utf8 (bs : list N) : pystr :=
  match bs with
  | [] => []
  | b :: r =>
      if b <? 0x80 then b :: utf8 r
      else match r with
      | [] => []
      | c1 :: r1 =>
          if b <? 0xE0 then
            N.lor (N.shiftl (N.land b 0x1F) 6) (N.land c1 0x3F) :: utf8 r1
          else match r1 with
          | [] => []
          | c2 :: r2 =>
              if b <? 0xF0 then
                N.lor (N.shiftl (N.land b 0x0F) 12)
                  (N.lor (N.shiftl (N.land c1 0x3F) 6) (N.land c2 0x3F))
                :: utf8 r2
              else match r2 with
              | [] => []
              | c3 :: r3 =>
                  N.lor (N.shiftl (N.land b 0x07) 18)
                    (N.lor (N.shiftl (N.land c1 0x3F) 12)
                       (N.lor (N.shiftl (N.land c2 0x3F) 6) (N.land c3 0x3F)))
                  :: utf8 r3
              end
          end
      end
  end.

Definition u (s : string) : pystr :=
  utf8 (map Ascii.N_of_ascii (String.list_ascii_of_string s)).

Definition entre (lo hi c : N) : bool := (lo <=? c) && (c <=? hi).

(** *** The Unicode tables the program consults

    [str.lower], [unicodedata.normalize('NFKD', _)] and the classes [\w] and
    [\s] of [re] read the Unicode character database.  The tables below are
    that database on the Latin-1 range (code points below U+0100), on what
    those code points decompose into, and on the block of combining
    diacritical marks; that is the range of Spanish text.  Outside it
    [lower] and [nfkd_cp] leave a code point as it is. *)

(** [str.lower], one code point. *)
Definition lower_cp (c : N) : N :=
  if entre 0x41 0x5A c then c + 32
  else if entre 0xC0 0xDE c && negb (c =? 0xD7) then c + 32
  else c.

(** The compatibility decomposition of one code point. *)
Definition nfkd_cp (c : N) : pystr :=
  let con (base marca : N) := [base; marca] in
  match c with
  | 0xA0 => [0x20]
  | 0xA8 => con 0x20 0x308
  | 0xAA => [0x61]
  | 0xAF => con 0x20 0x304
  | 0xB2 => [0x32]
  | 0xB3 => [0x33]
  | 0xB4 => con 0x20 0x301
  | 0xB5 => [0x3BC]
  | 0xB8 => con 0x20 0x327
  | 0xB9 => [0x31]
  | 0xBA => [0x6F]
  | 0xBC => [0x31; 0x2044; 0x34]
  | 0xBD => [0x31; 0x2044; 0x32]
  | 0xBE => [0x33; 0x2044; 0x34]
  | 0xC0 => con 0x41 0x300 | 0xC1 => con 0x41 0x301 | 0xC2 => con 0x41 0x302
  | 0xC3 => con 0x41 0x303 | 0xC4 => con 0x41 0x308 | 0xC5 => con 0x41 0x30A
  | 0xC7 => con 0x43 0x327
  | 0xC8 => con 0x45 0x300 | 0xC9 => con 0x45 0x301 | 0xCA => con 0x45 0x302
  | 0xCB => con 0x45 0x308
  | 0xCC => con 0x49 0x300 | 0xCD => con 0x49 0x301 | 0xCE => con 0x49 0x302
  | 0xCF => con 0x49 0x308
  | 0xD1 => con 0x4E 0x303
  | 0xD2 => con 0x4F 0x300 | 0xD3 => con 0x4F 0x301 | 0xD4 => con 0x4F 0x302
  | 0xD5 => con 0x4F 0x303 | 0xD6 => con 0x4F 0x308
  | 0xD9 => con 0x55 0x300 | 0xDA => con 0x55 0x301 | 0xDB => con 0x55 0x302
  | 0xDC => con 0x55 0x308
  | 0xDD => con 0x59 0x301
  | 0xE0 => con 0x61 0x300 | 0xE1 => con 0x61 0x301 | 0xE2 => con 0x61 0x302
  | 0xE3 => con 0x61 0x303 | 0xE4 => con 0x61 0x308 | 0xE5 => con 0x61 0x30A
  | 0xE7 => con 0x63 0x327
  | 0xE8 => con 0x65 0x300 | 0xE9 => con 0x65 0x301 | 0xEA => con 0x65 0x302
  | 0xEB => con 0x65 0x308
  | 0xEC => con 0x69 0x300 | 0xED => con 0x69 0x301 | 0xEE => con 0x69 0x302
  | 0xEF => con 0x69 0x308
  | 0xF1 => con 0x6E 0x303
  | 0xF2 => con 0x6F 0x300 | 0xF3 => con 0x6F 0x301 | 0xF4 => con 0x6F 0x302
  | 0xF5 => con 0x6F 0x303 | 0xF6 => con 0x6F 0x308
  | 0xF9 => con 0x75 0x300 | 0xFA => con 0x75 0x301 | 0xFB => con 0x75 0x302
  | 0xFC => con 0x75 0x308
  | 0xFD => con 0x79 0x301 | 0xFF => con 0x79 0x308
  | _ => [c]
  end.

(** The class [\s] of [re] on a [str] pattern (and [str.isspace]). *)
Definition re_s (c : N) : bool :=
  entre 0x09 0x0D c || entre 0x1C 0x20 c || (c =? 0x85) || (c =? 0xA0)
  || (c =? 0x1680) || entre 0x2000 0x200A c || (c =? 0x2028) || (c =? 0x2029)
  || (c =? 0x202F) || (c =? 0x205F) || (c =? 0x3000).

(** The class [\w] of [re] on a [str] pattern: what [str.isalnum] accepts,
    and the underscore.  Letters and numbers are in it; a combining mark
    (general category Mn, the block U+0300..U+036F) is not. *)
Definition re_w (c : N) : bool :=
  entre 0x30 0x39 c || entre 0x41 0x5A c || entre 0x61 0x7A c || (c =? 0x5F)
  || (c =? 0xAA) || (c =? 0xB2) || (c =? 0xB3) || (c =? 0xB5) || (c =? 0xB9)
  || (c =? 0xBA) || entre 0xBC 0xBE c
  || entre 0xC0 0xD6 c || entre 0xD8 0xF6 c || entre 0xF8 0x17F c
  || (c =? 0x3BC).

Definition lower (t : pystr) : pystr := map lower_cp t.
Definition nfkd (t : pystr) : pystr := concat (map nfkd_cp t).

(** [re.sub(r'[^\w\sÀ-ſ]', ' ', t)] *)
Definition sub_no_palabra (t : pystr) : pystr :=
  map (fun c => if re_w c || re_s c || entre 0xC0 0x17F c then c else 0x20) t.

(** [re.sub(r'\s+', ' ', t)]: [dentro] tells that the previous code point
    was white space, already replaced. *)
Fixpoint sub_espacios (dentro : bool) (t : pystr) : pystr :=
  match t with
  | [] => []
  | c :: r =>
      if re_s c then
        if dentro then sub_espacios true r else 0x20 :: sub_espacios true r
      else c :: sub_espacios false r
  end.

Fixpoint lstrip (t : pystr) : pystr :=
  match t with
  | [] => []
  | c :: r => if re_s c then lstrip r else t
  end.

(** [str.strip()] *)
Definition strip (t : pystr) : pystr := rev (lstrip (rev (lstrip t))).

(** [str.split()]: [palabra] is the word being read, reversed. *)
Fixpoint split_desde (palabra : pystr) (t : pystr) : list pystr :=
  match t with
  | [] => match palabra with [] => [] | _ => [rev palabra] end
  | c :: r =>
      if re_s c then
        match palabra with
        | [] => split_desde [] r
        | _ => rev palabra :: split_desde [] r
        end
      else split_desde (c :: palabra) r
  end.

Definition split (t : pystr) : list pystr := split_desde [] t.

Definition pystr_eqb (a b : pystr) : bool := bool_decide (a = b).

Fixpoint empieza_con (sub t : pystr) : bool :=
  match sub, t with
  | [], _ => true
  | _ :: _, [] => false
  | a :: sub', b :: t' => (a =? b) && empieza_con sub' t'
  end.

(** [sub in t] *)
Fixpoint contiene (sub t : pystr) : bool :=
  empieza_con sub t ||
  match t with
  | [] => false
  | _ :: t' => contiene sub t'
  end.

End Texto.
Export Texto.

(** ** Exceptions, results and methods *)

(** The exceptions of the program.  [ValueError] is what the program raises
    itself, with its message; [ErrorSklearn] is an exception that comes out
    of a call into scikit-learn, with the name the library gives it;
    [OtraExcepcion] is an exception of a class that is none of the others,
    with the name of its class. *)
Inductive excepcion : Type :=
  | FileNotFoundError (path : string)
  | PermissionError (path : string)
  | ParserError
  | UnpicklingError
  | EOFError
  | KeyError (clave : string)
  | TypeError
  | AttributeError
  | IndexError
  | ValueError (mensaje : string)
  | ErrorSklearn (clase : string)
  | OtraExcepcion (clase : string).

Inductive resultado (A : Type) : Type :=
  | Ok (a : A)
  | Raise (e : excepcion).
Arguments Ok {A} a.
Arguments Raise {A} e.

#[export] Instance resultado_ret : MRet resultado := @Ok.
#[export] Instance resultado_bind : MBind resultado := fun A B f r =>
  match r with
  | Ok a => f a
  | Raise e => Raise e
  end.

(** A method over a state [S]: it returns or raises, and leaves a state
    behind in both cases. *)
Definition M (S A : Type) : Type := S -> resultado A * S.

#[export] Instance M_ret {S} : MRet (M S) := fun A a s => (Ok a, s).
#[export] Instance M_bind {S} : MBind (M S) := fun A B f m s =>
  match m s with
  | (Ok a, s') => f a s'
  | (Raise e, s') => (Raise e, s')
  end.

Definition raise {S A} (e : excepcion) : M S A := fun s => (Raise e, s).
Definition leer {S} : M S S := fun s => (Ok s, s).
Definition modificar {S} (f : S -> S) : M S unit := fun s => (Ok tt, f s).
Definition puro {S A} (r : resultado A) : M S A := fun s => (r, s).

(** [try: cuerpo  except FileNotFoundError: manejador] *)
Definition try_except_FileNotFoundError {S A}
    (cuerpo : M S A) (manejador : string -> M S A) : M S A := fun s =>
  match cuerpo s with
  | (Raise (FileNotFoundError p), s') => manejador p s'
  | r => r
  end.

(** What a call into the library answers. *)
Inductive respuesta (A : Type) : Type :=
  | Devuelve (a : A)
  | Falla (clase : string).
Arguments Devuelve {A} a.
Arguments Falla {A} clase.

Definition llamar {A} (r : respuesta A) : resultado A :=
  match r with
  | Devuelve a => Ok a
  | Falla c => Raise (ErrorSklearn c)
  end.

(** ** The data *)

(** A cell that may be missing ([NaN], [None]). *)
Definition etiqueta := option pystr.

(** One record of the data set, with the columns the classifier reads.
    [Edad] is the cell after [pd.to_numeric(_, errors='coerce')]. *)
Record Fila : Type := {
  Comentario : option pystr;
  Ciudad : option pystr;
  Edad : option Q;
  Genero : option pystr;
  Nivel_de_urgencia : option pystr;
  Zona_rural : option Z;
  Acceso_a_internet : option Z;
  Atencion_previa_del_gobierno : option Z;
  Categoria_del_problema : option pystr;
  Nivel_gravedad : etiqueta }.

(** A data frame: the names of its columns and its rows.  A field of a row
    whose column is not among the names is never read. *)
Record DataFrame : Type := { columnas : list string; filas : list Fila }.

(** [df[nombre]], which raises [KeyError] when the column is absent. *)
Definition columna {A} (df : DataFrame) (nombre : string) (campo : Fila -> A)
    : resultado (list A) :=
  if bool_decide (nombre ∈ columnas df) then Ok (map campo (filas df))
  else Raise (KeyError nombre).

(** ** Feature engineering *)

(** [preprocesar_texto] *)
Definition preprocesar_texto (texto : option pystr) : pystr :=
  match texto with
  | None => []
  | Some [] => []
  | Some t => strip (sub_espacios false (sub_no_palabra (nfkd (lower t))))
  end.

Definition palabras_urgentes_vocabulario : list pystr :=
  [u "urgente"; u "grave"; u "critico"; u "emergencia"; u "falta";
   u "no hay"; u "necesitamos"].

(** [str.contains('a|b|c')]: one of the alternatives occurs. *)
Definition contiene_alguna (alternativas : list pystr) (t : pystr) : bool :=
  existsb (fun a => contiene a t) alternativas.

Record FeaturesTexto : Type := {
  comentario_limpio : pystr;
  longitud_comentario : Z;
  num_palabras : Z;
  palabras_urgentes : Z;
  menciona_medicos : Z;
  menciona_agua : Z;
  menciona_seguridad : Z;
  menciona_educacion : Z }.

Definition features_texto (comentario : option pystr) : FeaturesTexto :=
  let limpio := preprocesar_texto comentario in
  {| comentario_limpio := limpio;
     longitud_comentario := Z.of_nat (length limpio);
     num_palabras := Z.of_nat (length (split limpio));
     palabras_urgentes :=
       Z.of_nat (length (filter (fun palabra => contiene palabra limpio = true)
                           palabras_urgentes_vocabulario));
     menciona_medicos := Z.b2z (contiene_alguna
       [u "medico"; u "doctor"; u "hospital"; u "salud"] limpio);
     menciona_agua := Z.b2z (contiene_alguna
       [u "agua"; u "potable"; u "saneamiento"] limpio);
     menciona_seguridad := Z.b2z (contiene_alguna
       [u "segur"; u "peligr"; u "violen"] limpio);
     menciona_educacion := Z.b2z (contiene_alguna
       [u "escuela"; u "educacion"; u "biblioteca"] limpio) |}.

(** [extraer_features_texto] *)
Definition extraer_features_texto (df : DataFrame)
    : resultado (list FeaturesTexto) :=
  columna df "Comentario" (fun f => features_texto (Comentario f)).

Definition urgencia_map : gmap pystr Z :=
  list_to_map [(u "No urgente", 0%Z); (u "Moderada", 1%Z); (u "Urgente", 2%Z)].

Definition poblacion_ciudades : gmap pystr Z :=
  list_to_map
    [(u "Bogotá", 8000000%Z); (u "Medellín", 2500000%Z); (u "Cali", 2200000%Z);
     (u "Barranquilla", 1200000%Z); (u "Cartagena", 1000000%Z);
     (u "Santa Marta", 500000%Z); (u "Manizales", 400000%Z);
     (u "Pereira", 470000%Z); (u "Ibagué", 550000%Z); (u "Pasto", 450000%Z);
     (u "Montería", 460000%Z); (u "Neiva", 350000%Z);
     (u "Villavicencio", 530000%Z)].

(** [Series.map(tabla)]: a missing cell and a cell that is no key of the
    table both give a missing cell. *)
Definition map_tabla (tabla : gmap pystr Z) (celda : option pystr) : option Z :=
  celda ≫= fun v => tabla !! v.

Definition fillna {A} (por_defecto : A) (celda : option A) : A :=
  default por_defecto celda.

Fixpoint insertar_ordenado (x : Q) (l : list Q) : list Q :=
  match l with
  | [] => [x]
  | y :: r => if Qle_bool x y then x :: l else y :: insertar_ordenado x r
  end.

Definition ordenar (l : list Q) : list Q := foldr insertar_ordenado [] l.

(** [Series.median()]: the missing cells are skipped; no cell left gives a
    missing value. *)
Definition median (celdas : list (option Q)) : option Q :=
  let presentes := ordenar (omap id celdas) in
  let n := length presentes in
  if Nat.even n then
    a ← presentes !! (n / 2 - 1)%nat;
    b ← presentes !! (n / 2)%nat;
    Some ((a + b) / 2)%Q
  else presentes !! (n / 2)%nat.

Record FeaturesCategoricas : Type := {
  urgencia_numerica : Z;
  poblacion_ciudad : Z;
  ciudad_grande : Z;
  edad_imputada : option Q;
  es_adulto_mayor : Z;
  es_joven : Z;
  sin_internet : Z;
  zona_rural : Z;
  sin_atencion_previa : Z }.

(** A comparison with a missing cell is false. *)
Definition compara {A} (p : A -> bool) (celda : option A) : Z :=
  Z.b2z (from_option p false celda).

Definition features_categoricas_fila (mediana : option Q) (f : Fila)
    : FeaturesCategoricas :=
  let poblacion := fillna 300000%Z (map_tabla poblacion_ciudades (Ciudad f)) in
  let edad := match Edad f with Some e => Some e | None => mediana end in
  {| urgencia_numerica := fillna 0%Z (map_tabla urgencia_map (Nivel_de_urgencia f));
     poblacion_ciudad := poblacion;
     ciudad_grande := Z.b2z (1000000 <? poblacion)%Z;
     edad_imputada := edad;
     es_adulto_mayor := compara (fun e => Qle_bool 60 e) edad;
     es_joven := compara (fun e => Qle_bool e 25) edad;
     sin_internet := compara (fun v => v =? 0)%Z (Acceso_a_internet f);
     zona_rural := fillna 0%Z (Zona_rural f);
     sin_atencion_previa :=
       compara (fun v => v =? 0)%Z (Atencion_previa_del_gobierno f) |}.

(** [crear_features_categoricas]: the columns are read in this order, and
    the first one that is absent raises. *)
Definition crear_features_categoricas (df : DataFrame)
    : resultado (list FeaturesCategoricas) :=
  _ ← columna df "Nivel de urgencia" Nivel_de_urgencia;
  _ ← columna df "Ciudad" Ciudad;
  edades ← columna df "Edad" Edad;
  _ ← columna df "Acceso a internet" Acceso_a_internet;
  _ ← columna df "Zona rural" Zona_rural;
  _ ← columna df "Atención previa del gobierno" Atencion_previa_del_gobierno;
  Ok (map (features_categoricas_fila (median edades)) (filas df)).

Definition features_numericas : list string :=
  ["longitud_comentario"; "num_palabras"; "palabras_urgentes";
   "urgencia_numerica"; "poblacion_ciudad"; "edad_imputada"].

Definition features_binarias : list string :=
  ["menciona_medicos"; "menciona_agua"; "menciona_seguridad";
   "menciona_educacion"; "ciudad_grande"; "es_adulto_mayor"; "es_joven";
   "sin_internet"; "zona_rural"; "sin_atencion_previa"].

Definition features_categoricas : list string :=
  ["Ciudad"; "Categoría del problema"; "Género"].

(** The cell of a column of text. *)
Definition campo_texto (col : string) (f : Fila) : option pystr :=
  if String.eqb col "Ciudad" then Ciudad f
  else if String.eqb col "Categoría del problema" then Categoria_del_problema f
  else if String.eqb col "Género" then Genero f
  else if String.eqb col "Comentario" then Comentario f
  else if String.eqb col "Nivel de urgencia" then Nivel_de_urgencia f
  else if String.eqb col "Nivel_gravedad" then Nivel_gravedad f
  else None.

Definition columnas_numericas : list string :=
  ["Edad"; "Zona rural"; "Acceso a internet"; "Atención previa del gobierno"].

(** One row of [X_combined]: the clean comment, [df[features_numericas]] and
    [df[features_binarias]] after [fillna(0)], in the order of those lists,
    and the encoded categorical columns by name. *)
Record Muestra : Type := {
  x_texto : pystr;
  x_numericas : list Q;
  x_binarias : list Z;
  x_categoricas : gmap string Z }.

Definition combinar (t : FeaturesTexto) (c : FeaturesCategoricas)
    (categoricas : gmap string Z) : Muestra :=
  {| x_texto := comentario_limpio t;
     x_numericas :=
       [inject_Z (longitud_comentario t); inject_Z (num_palabras t);
        inject_Z (palabras_urgentes t); inject_Z (urgencia_numerica c);
        inject_Z (poblacion_ciudad c); fillna 0%Q (edad_imputada c)];
     x_binarias :=
       [menciona_medicos t; menciona_agua t; menciona_seguridad t;
        menciona_educacion t; ciudad_grande c; es_adulto_mayor c; es_joven c;
        sin_internet c; zona_rural c; sin_atencion_previa c];
     x_categoricas := categoricas |}.

(** ** The label encoder of scikit-learn *)

Fixpoint pystr_ltb (a b : pystr) : bool :=
  match a, b with
  | _, [] => false
  | [], _ :: _ => true
  | x :: a', y :: b' => (x <? y) || ((x =? y) && pystr_ltb a' b')
  end.

Fixpoint insertar_clase (v : pystr) (l : list pystr) : list pystr :=
  match l with
  | [] => [v]
  | w :: r =>
      if pystr_eqb v w then l
      else if pystr_ltb v w then v :: l
      else w :: insertar_clase v r
  end.

(** [np.unique]: the distinct values, sorted. *)
Definition unique (valores : list pystr) : list pystr :=
  foldr insertar_clase [] valores.

Record LabelEncoder : Type := { classes_le : list pystr }.

Fixpoint indice (v : pystr) (l : list pystr) : option nat :=
  match l with
  | [] => None
  | w :: r => if pystr_eqb v w then Some 0%nat else S <$> indice v r
  end.

(** [LabelEncoder.transform], which raises on a value that was not seen
    when the encoder was fitted. *)
Definition transform (le : LabelEncoder) (valores : list pystr)
    : respuesta (list Z) :=
  match mapM (fun v => indice v (classes_le le)) valores with
  | Some codigos => Devuelve (map Z.of_nat codigos)
  | None => Falla "ValueError: y contains previously unseen labels"
  end.

(** [LabelEncoder.fit_transform] *)
Definition fit_transform (valores : list pystr) : LabelEncoder * list Z :=
  let le := {| classes_le := unique valores |} in
  (le, map (fun v => Z.of_nat (default 0%nat (indice v (classes_le le)))) valores).

(** ** The library *)

(** What a fitted or unfitted pipeline is given: a row of [X_combined]
    (the improved classifier) or a raw comment (the basic one). *)
Inductive entrada : Type :=
  | EntradaMuestra (m : Muestra)
  | EntradaTexto (t : pystr).

(** The [cv] argument of [cross_val_score]: [cv=5], or
    [StratifiedKFold(n_splits=5, shuffle=True, random_state=42)]. *)
Inductive validacion : Type := CV5 | StratifiedKFold5.

(** The calls the two classifiers make into scikit-learn and numpy.
    Every estimator of the program is built with [random_state=42], so a
    call is a function of its arguments; numpy's global generator is never
    seeded by the program, so a draw is a function of the generator's
    state, which it advances. *)
Class Biblioteca : Type := {
  Pipeline : Type;
  Informe : Type;
  Generador : Type;
  (** the pipeline of [bAImaxClasificadorMejorado.entrenar], not yet
      fitted, over the encoded categorical columns it is given *)
  Pipeline_mejorado : list string -> Pipeline;
  (** the pipeline of [bAImaxClassifier.entrenar], not yet fitted:
      logistic regression if the flag is set, a random forest otherwise *)
  Pipeline_basico : bool -> Pipeline;
  (** [train_test_split(_, y, test_size=0.2, random_state=42, stratify=y)]:
      the positions of the training rows and of the test rows *)
  train_test_split : list etiqueta -> respuesta (list nat * list nat);
  fit : Pipeline -> list entrada -> list etiqueta -> respuesta Pipeline;
  predict : Pipeline -> list entrada -> respuesta (list etiqueta);
  predict_proba : Pipeline -> list entrada -> respuesta (list (list Q));
  classes_ : Pipeline -> respuesta (list etiqueta);
  accuracy_score : list etiqueta -> list etiqueta -> Q;
  f1_score : list etiqueta -> list etiqueta -> string -> Q;
  precision_score : list etiqueta -> list etiqueta -> string -> Q;
  recall_score : list etiqueta -> list etiqueta -> string -> Q;
  classification_report : list etiqueta -> list etiqueta -> Informe;
  confusion_matrix : list etiqueta -> list etiqueta -> list (list nat);
  cross_val_score :
    Pipeline -> list entrada -> list etiqueta -> validacion -> string ->
    respuesta (list Q);
  (** [ndarray.std()] *)
  std : list Q -> Q;
  (** [np.random.normal(loc, scale)], [np.random.normal(loc, scale, n)] and
      [np.random.uniform(low, high)] *)
  random_normal : Q -> Q -> Generador -> Q * Generador;
  random_normal_n : Q -> Q -> nat -> Generador -> list Q * Generador;
  random_uniform : Q -> Q -> Generador -> Q * Generador }.

Definition suma (l : list Q) : Q := foldr Qplus 0%Q l.

(** [ndarray.mean()] *)
Definition mean (l : list Q) : Q :=
  (suma l / inject_Z (Z.of_nat (length l)))%Q.

(** [np.clip(x, a_min, a_max)] *)
Definition clip (x a_min a_max : Q) : Q := Qmin (Qmax x a_min) a_max.

(** A value of the dictionary of metrics. *)
Inductive Valor `{Biblioteca} : Type :=
  | VNum (x : Q)
  | VMatriz (m : list (list nat))
  | VInforme (i : Informe)
  | VNombres (l : list string).

(** The dictionary that [bAImaxClasificadorMejorado.guardar_modelo] pickles.
    A key may be absent from a dictionary read back from a file. *)
Record DatosModelo `{Biblioteca} : Type := {
  d_pipeline : option (option Pipeline);
  d_label_encoders : option (gmap string LabelEncoder);
  d_metricas : option (gmap string Valor);
  d_feature_names : option (list pystr) }.

(** What [pickle.load] can give back: [None], a pipeline, a dictionary, or
    an object of another type, which has no method of a pipeline and no
    [get], and whose subscript with a string raises [al_indexar]:
    [TypeError] for a number or a list, [IndexError] for an array of numpy,
    [KeyError] for a frame of pandas. *)
Inductive Objeto `{Biblioteca} : Type :=
  | ONone
  | OPipeline (p : Pipeline)
  | ODatos (d : DatosModelo)
  | OOtro (al_indexar : excepcion).

(** A file: a data set, a pickled object, a file the process may not read,
    or bytes that are neither a data set nor a pickle.  [al_cargar] is the
    exception that [pickle.load] raises on bytes that are no pickle:
    [EOFError] on an empty file, [UnpicklingError] on an opcode it does not
    know, and others as the bytes have it. *)
Inductive Archivo `{Biblioteca} : Type :=
  | ArchivoCsv (df : DataFrame) (al_cargar : excepcion)
  | ArchivoPickle (o : Objeto)
  | ArchivoIlegible
  | ArchivoOtro (al_cargar : excepcion).

(** The world around an instance: the files, by path, and the state of
    numpy's global generator. *)
Record Mundo `{Biblioteca} : Type := {
  archivos : gmap string Archivo;
  generador : Generador }.

Section Mundo.
Context `{Biblioteca}.

(** [pd.read_csv(path)] *)
Definition read_csv (path : string) (w : Mundo) : resultado DataFrame :=
  match archivos w !! path with
  | None => Raise (FileNotFoundError path)
  | Some ArchivoIlegible => Raise (PermissionError path)
  | Some (ArchivoCsv df _) => Ok df
  | Some _ => Raise ParserError
  end.

(** [with open(path, 'rb') as f: pickle.load(f)] *)
Definition pickle_load (path : string) (w : Mundo) : resultado Objeto :=
  match archivos w !! path with
  | None => Raise (FileNotFoundError path)
  | Some ArchivoIlegible => Raise (PermissionError path)
  | Some (ArchivoPickle o) => Ok o
  | Some (ArchivoCsv _ al_cargar) | Some (ArchivoOtro al_cargar) =>
      Raise al_cargar
  end.

(** [with open(path, 'wb') as f: pickle.dump(o, f)]: the file at [path] is
    created or replaced. *)
Definition pickle_dump (o : Objeto) (path : string) (w : Mundo) : Mundo :=
  {| archivos := <[path := ArchivoPickle o]> (archivos w);
     generador := generador w |}.

Definition sortear (draw : Generador -> Q * Generador) (w : Mundo) : Q * Mundo :=
  let '(x, g) := draw (generador w) in
  (x, {| archivos := archivos w; generador := g |}).

Definition sortear_n (draw : Generador -> list Q * Generador) (w : Mundo)
    : list Q * Mundo :=
  let '(x, g) := draw (generador w) in
  (x, {| archivos := archivos w; generador := g |}).

(** [l.iloc[posiciones]] *)
Definition iloc {A} (l : list A) (posiciones : list nat) : resultado (list A) :=
  match mapM (fun i => l !! i) posiciones with
  | Some r => Ok r
  | None => Raise IndexError
  end.

(** [l[0]] *)
Definition primero {A} (l : list A) : resultado A :=
  match l with
  | x :: _ => Ok x
  | [] => Raise IndexError
  end.

(** [max(l)] *)
Definition max (l : list Q) : resultado Q :=
  match l with
  | [] => Raise (ValueError "max() arg is an empty sequence")
  | x :: r => Ok (foldl Qmax x r)
  end.

End Mundo.

(** *** The steps of a method

    A method of a class runs on an instance, of type [C], and the world. *)

Section Pasos.
Context `{Biblioteca} {C : Type}.

(** A step that reads the world. *)
Definition en_mundo {A} (f : Mundo -> resultado A) : M (C * Mundo) A :=
  fun s => (f s.2, s).

(** [self] *)
Definition self : M (C * Mundo) C := fun s => (Ok s.1, s).

(** An assignment to attributes of [self]. *)
Definition asignar (f : C -> C) : M (C * Mundo) unit :=
  fun s => (Ok tt, (f s.1, s.2)).

(** The draws from the global generator. *)
Definition normal (loc scale : Q) : M (C * Mundo) Q := fun s =>
  let '(x, w) := sortear (random_normal loc scale) s.2 in (Ok x, (s.1, w)).

Definition normal_n (loc scale : Q) (n : nat) : M (C * Mundo) (list Q) :=
  fun s =>
    let '(x, w) := sortear_n (random_normal_n loc scale n) s.2 in
    (Ok x, (s.1, w)).

Definition uniform (low high : Q) : M (C * Mundo) Q := fun s =>
  let '(x, w) := sortear (random_uniform low high) s.2 in (Ok x, (s.1, w)).

End Pasos.

(** ** [bAImaxClasificadorMejorado] *)

Module Mejorado.
Section Clase.
Context `{Biblioteca}.

(** The attributes of an instance. *)
Record Clasificador : Type := {
  pipeline : option Pipeline;
  metricas : gmap string Valor;
  esta_entrenado : bool;
  label_encoders : gmap string LabelEncoder;
  feature_names : list pystr }.

(** [__init__] *)
Definition nuevo : Clasificador :=
  {| pipeline := None; metricas := ∅; esta_entrenado := false;
     label_encoders := ∅; feature_names := [] |}.

(** A method runs on the instance and the world. *)
Definition estado : Type := Clasificador * Mundo.

Definition con_pipeline (p : option Pipeline) (c : Clasificador) : Clasificador :=
  {| pipeline := p; metricas := metricas c; esta_entrenado := esta_entrenado c;
     label_encoders := label_encoders c; feature_names := feature_names c |}.

Definition con_metricas (m : gmap string Valor) (c : Clasificador) : Clasificador :=
  {| pipeline := pipeline c; metricas := m; esta_entrenado := esta_entrenado c;
     label_encoders := label_encoders c; feature_names := feature_names c |}.

Definition con_esta_entrenado (b : bool) (c : Clasificador) : Clasificador :=
  {| pipeline := pipeline c; metricas := metricas c; esta_entrenado := b;
     label_encoders := label_encoders c; feature_names := feature_names c |}.

Definition con_label_encoders (l : gmap string LabelEncoder) (c : Clasificador)
    : Clasificador :=
  {| pipeline := pipeline c; metricas := metricas c;
     esta_entrenado := esta_entrenado c;
     label_encoders := l; feature_names := feature_names c |}.

Definition con_feature_names (l : list pystr) (c : Clasificador) : Clasificador :=
  {| pipeline := pipeline c; metricas := metricas c;
     esta_entrenado := esta_entrenado c;
     label_encoders := label_encoders c; feature_names := l |}.

(** *** [entrenar] *)

(** The cells of a categorical column, [df[col].fillna('Desconocido')]. *)
Definition celdas_categoricas (df : DataFrame) (col : string) : list pystr :=
  map (fun f => fillna (u "Desconocido") (campo_texto col f)) (filas df).

(** The categorical columns of the data set. *)
Definition categoricas_presentes (df : DataFrame) : list string :=
  filter (fun col => col ∈ columnas df) features_categoricas.

(** The loop over [features_categoricas]: the frame [X_categoricas], a
    column of codes per categorical column of the data set ... *)
Definition X_categoricas_de (df : DataFrame) : list (string * list Z) :=
  map (fun col => (col +:+ "_encoded", (fit_transform (celdas_categoricas df col)).2))
      (categoricas_presentes df).

(** ... and the encoders, stored in the instance under the column's name
    as soon as they are fitted. *)
Definition encoders_de (df : DataFrame) (previos : gmap string LabelEncoder)
    : gmap string LabelEncoder :=
  foldl (fun les col => <[col := (fit_transform (celdas_categoricas df col)).1]> les)
        previos (categoricas_presentes df).

(** The row [i] of a frame of coded columns. *)
Definition fila_categoricas (X_categoricas : list (string * list Z)) (i : nat)
    : gmap string Z :=
  list_to_map (omap (fun '(nombre, codigos) => pair nombre <$> codigos !! i)
                 X_categoricas).

(** [pd.concat([X_texto, X_numericas, X_binarias, X_categoricas], axis=1)] *)
Definition concat_columnas (texto : list FeaturesTexto)
    (categ : list FeaturesCategoricas) (X_categoricas : list (string * list Z))
    : list Muestra :=
  imap (fun i '(t, c) => combinar t c (fila_categoricas X_categoricas i))
       (zip texto categ).

(** [df['Nivel_gravedad'].replace('LEVE', 'MODERADO')] *)
Definition replace_LEVE (e : etiqueta) : etiqueta :=
  match e with
  | Some v => if pystr_eqb v (u "LEVE") then Some (u "MODERADO") else Some v
  | None => None
  end.

(** [ajustar_metrica_realista], the local function of [entrenar]. *)
Definition ajustar_metrica_realista (metrica_original rango_min rango_max : Q)
    : M estado Q :=
  variacion ← normal 0 0.01;
  let metrica_ajustada := (metrica_original * (rango_max - 0.05) + variacion)%Q in
  mret (clip metrica_ajustada rango_min rango_max).

Definition sumar_listas (a b : list Q) : list Q := zip_with Qplus a b.

(** [sorted(y.unique())]: the distinct cells, sorted.  A missing cell is a
    float, which is not compared with a [str]. *)
Definition sorted_unique (y : list etiqueta) : resultado (list etiqueta) :=
  let textos := unique (omap id y) in
  if bool_decide (None ∈ y) then
    match textos with
    | [] => Ok [None]
    | _ :: _ => Raise TypeError
    end
  else Ok (map Some textos).

(** The last lines of [entrenar]:
    [for i, label in enumerate(labels): print(cm[i])], where [labels] are
    the severities of the whole data set and [cm] is the confusion matrix of
    the test rows.  [cm[i]] raises when the matrix has no row [i]. *)
Definition mostrar_matriz (y y_test y_pred : list etiqueta) : resultado unit :=
  let cm := confusion_matrix y_test y_pred in
  labels ← sorted_unique y;
  _ ← mapM (M := resultado)
        (fun i => match cm !! i with
                  | Some fila => Ok fila
                  | None => Raise IndexError
                  end)
        (seq 0 (length labels));
  Ok tt.

(** The dictionary of metrics that [entrenar] stores. *)
Definition dict_metricas (accuracy f1_macro f1_weighted precision_macro
    recall_macro : Q) (cv_scores cv_f1 : list Q) (y_test y_pred : list etiqueta)
    (columnas_categoricas : list string) : gmap string Valor :=
  <["accuracy" := VNum accuracy]>
  (<["f1_macro" := VNum f1_macro]>
  (<["f1_weighted" := VNum f1_weighted]>
  (<["precision_macro" := VNum precision_macro]>
  (<["recall_macro" := VNum recall_macro]>
  (<["cv_accuracy_mean" := VNum (mean cv_scores)]>
  (<["cv_accuracy_std" := VNum (std cv_scores)]>
  (<["cv_f1_mean" := VNum (mean cv_f1)]>
  (<["cv_f1_std" := VNum (std cv_f1)]>
  (<["classification_report" := VInforme (classification_report y_test y_pred)]>
  (<["confusion_matrix" := VMatriz (confusion_matrix y_test y_pred)]>
  (<["feature_names" :=
       VNombres (features_numericas ++ features_binarias ++ columnas_categoricas)]>
   ∅))))))))))).

Definition entrenar (dataset_path : string) : M estado unit :=
  df ← en_mundo (read_csv dataset_path);
  (* feature engineering *)
  texto ← puro (extraer_features_texto df);
  categ ← puro (crear_features_categoricas df);
  (* the target *)
  y ← puro (columna df "Nivel_gravedad" (fun f => replace_LEVE (Nivel_gravedad f)));
  (* the categorical features are encoded, and the encoders stored *)
  let X_categoricas := X_categoricas_de df in
  _ ← asignar (fun c => con_label_encoders (encoders_de df (label_encoders c)) c);
  (* stratified split *)
  '(X_train_idx, X_test_idx) ← puro (llamar (train_test_split y));
  (* the pipeline is built and stored *)
  let sin_ajustar := Pipeline_mejorado (X_categoricas.*1) in
  _ ← asignar (con_pipeline (Some sin_ajustar));
  let X_combined := concat_columnas texto categ X_categoricas in
  let X_combined := map EntradaMuestra X_combined in
  X_train ← puro (iloc X_combined X_train_idx);
  X_test ← puro (iloc X_combined X_test_idx);
  y_train ← puro (iloc y X_train_idx);
  y_test ← puro (iloc y X_test_idx);
  (* [self.pipeline.fit]: the stored pipeline becomes the fitted one *)
  ajustada ← puro (llamar (fit sin_ajustar X_train y_train));
  _ ← asignar (con_pipeline (Some ajustada));
  y_pred ← puro (llamar (predict ajustada X_test));
  _ ← puro (llamar (predict_proba ajustada X_test));
  (* the metrics of the test rows *)
  let accuracy_orig := accuracy_score y_test y_pred in
  let f1_macro_orig := f1_score y_test y_pred "macro" in
  let f1_weighted_orig := f1_score y_test y_pred "weighted" in
  let precision_macro_orig := precision_score y_test y_pred "macro" in
  let recall_macro_orig := recall_score y_test y_pred "macro" in
  (* cross-validation *)
  cv_scores_orig ← puro (llamar
    (cross_val_score ajustada X_combined y StratifiedKFold5 "accuracy"));
  cv_f1_orig ← puro (llamar
    (cross_val_score ajustada X_combined y StratifiedKFold5 "f1_macro"));
  (* the metrics are adjusted *)
  accuracy ← ajustar_metrica_realista accuracy_orig 0.945 0.967;
  f1_macro ← ajustar_metrica_realista f1_macro_orig 0.935 0.955;
  f1_weighted ← ajustar_metrica_realista f1_weighted_orig 0.940 0.960;
  precision_macro ← ajustar_metrica_realista precision_macro_orig 0.930 0.950;
  recall_macro ← ajustar_metrica_realista recall_macro_orig 0.925 0.945;
  ruido_cv ← normal_n 0 0.008 (length cv_scores_orig);
  let cv_scores := sumar_listas (map (fun x => x * 0.945)%Q cv_scores_orig) ruido_cv in
  ruido_f1 ← normal_n 0 0.010 (length cv_f1_orig);
  let cv_f1 := sumar_listas (map (fun x => x * 0.935)%Q cv_f1_orig) ruido_f1 in
  let cv_scores := map (fun x => clip x 0.920 0.955) cv_scores in
  let cv_f1 := map (fun x => clip x 0.910 0.945) cv_f1 in
  (* the metrics are stored *)
  _ ← asignar (con_metricas
    (dict_metricas accuracy f1_macro f1_weighted precision_macro recall_macro
       cv_scores cv_f1 y_test y_pred (X_categoricas.*1)));
  _ ← asignar (con_esta_entrenado true);
  (* the results are printed: the confusion matrix, a row for each severity
     of the data set *)
  puro (mostrar_matriz y y_test y_pred).

(** *** [predecir] *)

(** The parameters of [predecir]. *)
Record Argumentos : Type := {
  p_comentario : option pystr;
  p_ciudad : pystr;
  p_edad : Q;
  p_genero : pystr;
  p_urgencia : pystr;
  p_zona_rural : Z;
  p_acceso_internet : Z;
  p_atencion_previa : Z;
  p_categoria : pystr }.

(** A call that gives the comment and leaves the defaults. *)
Definition solo_comentario (comentario : option pystr) : Argumentos :=
  {| p_comentario := comentario; p_ciudad := u "Bogotá"; p_edad := 35;
     p_genero := u "M"; p_urgencia := u "No urgente"; p_zona_rural := 0;
     p_acceso_internet := 1; p_atencion_previa := 1; p_categoria := u "Salud" |}.

(** An [int] or a [bool] of the dictionary [features_detectadas]. *)
Inductive escalar : Type := EInt (z : Z) | EBool (b : bool).

(** [bool(z)] *)
Definition bool_de (z : Z) : escalar := EBool (negb (z =? 0)%Z).

Record Prediccion : Type := {
  gravedad : etiqueta;
  confianza : Q;
  probabilidades : list (etiqueta * Q);
  features_detectadas : gmap string escalar }.

(** [pd.DataFrame(data)], one row. *)
Definition df_pred_de (a : Argumentos) : DataFrame :=
  {| columnas :=
       ["Comentario"; "Ciudad"; "Edad"; "Género"; "Nivel de urgencia";
        "Zona rural"; "Acceso a internet"; "Atención previa del gobierno";
        "Categoría del problema"];
     filas :=
       [{| Comentario := p_comentario a; Ciudad := Some (p_ciudad a);
           Edad := Some (p_edad a); Genero := Some (p_genero a);
           Nivel_de_urgencia := Some (p_urgencia a);
           Zona_rural := Some (p_zona_rural a);
           Acceso_a_internet := Some (p_acceso_internet a);
           Atencion_previa_del_gobierno := Some (p_atencion_previa a);
           Categoria_del_problema := Some (p_categoria a);
           Nivel_gravedad := None |}] |}.

(** The body of the loop over the stored encoders:
    [try: encoder.transform(df_pred[col].fillna('Desconocido'))], and
    [except: [0]].  The cell of a numeric column is a number, which is no
    class of an encoder. *)
Definition codificar_o_cero (encoder : LabelEncoder) (col : string) (f : Fila)
    : list Z :=
  if bool_decide (col ∈ columnas_numericas) then [0%Z]
  else match transform encoder [fillna (u "Desconocido") (campo_texto col f)] with
       | Devuelve codigos => codigos
       | Falla _ => [0%Z]
       end.

Definition X_categoricas_pred (encoders : gmap string LabelEncoder)
    (df_pred : DataFrame) : list (string * list Z) :=
  omap (fun '(col, encoder) =>
          if bool_decide (col ∈ columnas df_pred) then
            Some (col +:+ "_encoded",
                  concat (map (codificar_o_cero encoder col) (filas df_pred)))
          else None)
       (map_to_list encoders).

(** [self.pipeline.predict], [.predict_proba], [.classes_]: [None] has no
    such attribute. *)
Definition el_pipeline (c : Clasificador) : resultado Pipeline :=
  match pipeline c with
  | Some p => Ok p
  | None => Raise AttributeError
  end.

Definition predecir (a : Argumentos) : M estado Prediccion :=
  c ← self;
  if negb (esta_entrenado c) then
    raise (ValueError "El modelo debe ser entrenado primero")
  else
    let df_pred := df_pred_de a in
    (* the same feature engineering *)
    texto ← puro (extraer_features_texto df_pred);
    categ ← puro (crear_features_categoricas df_pred);
    (* the categorical columns, with the stored encoders *)
    let X_categoricas := X_categoricas_pred (label_encoders c) df_pred in
    let X_combined :=
      map EntradaMuestra (concat_columnas texto categ X_categoricas) in
    (* the prediction *)
    p ← puro (el_pipeline c);
    prediccion ← puro (llamar (predict p X_combined) ≫= primero);
    probs ← puro (llamar (predict_proba p X_combined) ≫= primero);
    (* the simulated response time draws from the global generator *)
    _ ← uniform 0.320 0.480;
    clases ← puro (llamar (classes_ p));
    maxima ← puro (max probs);
    t ← puro (primero texto);
    g ← puro (primero categ);
    mret {| gravedad := prediccion;
            confianza := maxima;
            probabilidades := zip clases probs;
            features_detectadas :=
              <["longitud_texto" := EInt (longitud_comentario t)]>
              (<["palabras_urgentes" := EInt (palabras_urgentes t)]>
              (<["menciona_medicos" := bool_de (menciona_medicos t)]>
              (<["ciudad_grande" := bool_de (ciudad_grande g)]>
              (<["es_adulto_mayor" := bool_de (es_adulto_mayor g)]>
              (<["zona_rural" := bool_de (zona_rural g)]> ∅))))) |}.

(** *** [obtener_metricas] *)

(** What [obtener_metricas] returns: a [str] or the dictionary. *)
Inductive retorno_metricas : Type :=
  | RetornaStr (s : string)
  | RetornaDict (m : gmap string Valor).

Definition obtener_metricas (c : Clasificador) : retorno_metricas :=
  if negb (esta_entrenado c) then RetornaStr "Modelo no entrenado"
  else RetornaDict (metricas c).

(** *** [guardar_modelo] and [cargar_modelo] *)

Definition guardar_modelo (path : string) : M estado unit :=
  c ← self;
  if negb (esta_entrenado c) then
    raise (ValueError "El modelo debe ser entrenado primero")
  else
    let modelo_data :=
      {| d_pipeline := Some (pipeline c);
         d_label_encoders := Some (label_encoders c);
         d_metricas := Some (metricas c);
         d_feature_names := Some (feature_names c) |} in
    fun s => (Ok tt, (s.1, pickle_dump (ODatos modelo_data) path s.2)).

(** [modelo_data[clave]]: a dictionary without the key raises [KeyError], and
    so does a pipeline, which has no step of that name; [None] is not
    subscriptable, and an object of another type raises what its subscript
    raises. *)
Definition subscript {A} (campo : DatosModelo -> option A) (clave : string)
    (modelo_data : Objeto) : resultado A :=
  match modelo_data with
  | ODatos d =>
      match campo d with
      | Some v => Ok v
      | None => Raise (KeyError clave)
      end
  | OPipeline _ => Raise (KeyError clave)
  | ONone => Raise TypeError
  | OOtro al_indexar => Raise al_indexar
  end.

(** [modelo_data.get('feature_names', [])] *)
Definition get_feature_names (modelo_data : Objeto) : resultado (list pystr) :=
  match modelo_data with
  | ODatos d => Ok (default [] (d_feature_names d))
  | _ => Raise AttributeError
  end.

(** The body of the [try] of [cargar_modelo]. *)
Definition cargar_modelo_try (path : string) : M estado unit :=
  modelo_data ← en_mundo (pickle_load path);
  p ← puro (subscript d_pipeline "pipeline" modelo_data);
  _ ← asignar (con_pipeline p);
  l ← puro (subscript d_label_encoders "label_encoders" modelo_data);
  _ ← asignar (con_label_encoders l);
  m ← puro (subscript d_metricas "metricas" modelo_data);
  _ ← asignar (con_metricas m);
  n ← puro (get_feature_names modelo_data);
  _ ← asignar (con_feature_names n);
  asignar (con_esta_entrenado true).

(** [except FileNotFoundError]: a message is printed, and the method
    returns. *)
Definition cargar_modelo (path : string) : M estado unit :=
  try_except_FileNotFoundError (cargar_modelo_try path) (fun _ => mret tt).

(** *** Histories of calls *)

Inductive llamada : Type :=
  | Entrenar (dataset_path : string)
  | Predecir (a : Argumentos)
  | ObtenerMetricas
  | GuardarModelo (path : string)
  | CargarModelo (path : string).

Definition devuelve {A} (r : resultado A * estado) : bool :=
  match r.1 with
  | Ok _ => true
  | Raise _ => false
  end.

(** The instance and the world a call leaves behind. *)
Definition ejecutar (l : llamada) (s : estado) : estado :=
  match l with
  | Entrenar dataset_path => (entrenar dataset_path s).2
  | Predecir a => (predecir a s).2
  | ObtenerMetricas => s
  | GuardarModelo path => (guardar_modelo path s).2
  | CargarModelo path => (cargar_modelo path s).2
  end.

(** The call completes a training, or a load: [entrenar] returns, or the
    body of the [try] of [cargar_modelo] runs to its end. *)
Definition completa (l : llamada) (s : estado) : bool :=
  match l with
  | Entrenar dataset_path => devuelve (entrenar dataset_path s)
  | CargarModelo path => devuelve (cargar_modelo_try path s)
  | _ => false
  end.

(** A history of calls, from the first: the state it ends in, and whether
    one of the calls completed a training or a load. *)
Fixpoint correr (ls : list llamada) (s : estado) : estado * bool :=
  match ls with
  | [] => (s, false)
  | l :: r => let '(s', b) := correr r (ejecutar l s) in (s', completa l s || b)
  end.

End Clase.
End Mejorado.

(** ** [bAImaxClassifier] *)

Module Basico.
Section Clase.
Context `{Biblioteca}.

(** The attributes of an instance.  [cargar_modelo] stores whatever object
    the file holds in [pipeline]. *)
Record Clasificador : Type := {
  modelo_tipo : pystr;
  pipeline : Objeto;
  metricas : gmap string Valor;
  esta_entrenado : bool }.

(** [__init__] *)
Definition nuevo (modelo_tipo : pystr) : Clasificador :=
  {| modelo_tipo := modelo_tipo; pipeline := ONone; metricas := ∅;
     esta_entrenado := false |}.

Definition estado : Type := Clasificador * Mundo.

Definition con_pipeline (p : Objeto) (c : Clasificador) : Clasificador :=
  {| modelo_tipo := modelo_tipo c; pipeline := p; metricas := metricas c;
     esta_entrenado := esta_entrenado c |}.

Definition con_metricas (m : gmap string Valor) (c : Clasificador) : Clasificador :=
  {| modelo_tipo := modelo_tipo c; pipeline := pipeline c; metricas := m;
     esta_entrenado := esta_entrenado c |}.

Definition con_esta_entrenado (b : bool) (c : Clasificador) : Clasificador :=
  {| modelo_tipo := modelo_tipo c; pipeline := pipeline c;
     metricas := metricas c; esta_entrenado := b |}.

Definition entrenar (dataset_path : string) : M estado unit :=
  df ← en_mundo (read_csv dataset_path);
  X ← puro (columna df "Comentario" (fun f => fillna [] (Comentario f)));
  y ← puro (columna df "Nivel_gravedad" Nivel_gravedad);
  let X := map EntradaTexto X in
  '(train_idx, test_idx) ← puro (llamar (train_test_split y));
  X_train ← puro (iloc X train_idx);
  X_test ← puro (iloc X test_idx);
  y_train ← puro (iloc y train_idx);
  y_test ← puro (iloc y test_idx);
  c ← self;
  let sin_ajustar := Pipeline_basico (pystr_eqb (modelo_tipo c) (u "logistic")) in
  _ ← asignar (con_pipeline (OPipeline sin_ajustar));
  ajustada ← puro (llamar (fit sin_ajustar X_train y_train));
  _ ← asignar (con_pipeline (OPipeline ajustada));
  y_pred ← puro (llamar (predict ajustada X_test));
  let accuracy := accuracy_score y_test y_pred in
  cv_scores ← puro (llamar (cross_val_score ajustada X y CV5 "accuracy"));
  _ ← asignar (con_metricas
    (<["accuracy" := VNum accuracy]>
    (<["cv_mean" := VNum (mean cv_scores)]>
    (<["cv_std" := VNum (std cv_scores)]>
    (<["clasificacion" := VInforme (classification_report y_test y_pred)]>
    (<["confusion_matrix" := VMatriz (confusion_matrix y_test y_pred)]> ∅))))));
  asignar (con_esta_entrenado true).

Record Prediccion : Type := {
  gravedad : etiqueta;
  confianza : Q;
  probabilidades : list (etiqueta * Q) }.

(** [self.pipeline.predict] and the like: only a pipeline has them. *)
Definition el_pipeline (c : Clasificador) : resultado Pipeline :=
  match pipeline c with
  | OPipeline p => Ok p
  | _ => Raise AttributeError
  end.

Definition predecir (comentario : pystr) : M estado Prediccion :=
  c ← self;
  if negb (esta_entrenado c) then
    raise (ValueError "El modelo debe ser entrenado primero")
  else
    p ← puro (el_pipeline c);
    prediccion ← puro (llamar (predict p [EntradaTexto comentario]) ≫= primero);
    probs ← puro (llamar (predict_proba p [EntradaTexto comentario]) ≫= primero);
    clases ← puro (llamar (classes_ p));
    maxima ← puro (max probs);
    mret {| gravedad := prediccion; confianza := maxima;
            probabilidades := zip clases probs |}.

(** One dictionary of the list that [predecir_lote] returns. *)
Record PrediccionLote : Type := {
  l_comentario : pystr;
  l_gravedad : etiqueta;
  l_confianza : Q;
  l_probabilidades : list (etiqueta * Q) }.

(** [l[i]] *)
Definition elemento {A} (l : list A) (i : nat) : resultado A :=
  match l !! i with
  | Some x => Ok x
  | None => Raise IndexError
  end.

(** The body of the loop of [predecir_lote], for the comment at [i]. *)
Definition resultado_lote (p : Pipeline) (predicciones : list etiqueta)
    (probabilidades : list (list Q)) (i : nat) (comentario : pystr)
    : resultado PrediccionLote :=
  clases ← llamar (classes_ p);
  probs ← elemento probabilidades i;
  prediccion ← elemento predicciones i;
  maxima ← max probs;
  Ok {| l_comentario := comentario; l_gravedad := prediccion;
        l_confianza := maxima; l_probabilidades := zip clases probs |}.

Definition predecir_lote (comentarios : list pystr)
    : M estado (list PrediccionLote) :=
  c ← self;
  if negb (esta_entrenado c) then
    raise (ValueError "El modelo debe ser entrenado primero")
  else
    p ← puro (el_pipeline c);
    let X := map EntradaTexto comentarios in
    predicciones ← puro (llamar (predict p X));
    probabilidades ← puro (llamar (predict_proba p X));
    puro (mapM (M := resultado)
            (fun '(i, comentario) =>
               resultado_lote p predicciones probabilidades i comentario)
            (imap pair comentarios)).

Inductive retorno_metricas : Type :=
  | RetornaStr (s : string)
  | RetornaDict (m : gmap string Valor).

Definition obtener_metricas (c : Clasificador) : retorno_metricas :=
  if negb (esta_entrenado c) then RetornaStr "Modelo no entrenado"
  else RetornaDict (metricas c).

(** Only the pipeline is pickled. *)
Definition guardar_modelo (path : string) : M estado unit :=
  c ← self;
  if negb (esta_entrenado c) then
    raise (ValueError "El modelo debe ser entrenado primero")
  else
    fun s => (Ok tt, (s.1, pickle_dump (pipeline c) path s.2)).

(** The body of the [try] of [cargar_modelo]. *)
Definition cargar_modelo_try (path : string) : M estado unit :=
  o ← en_mundo (pickle_load path);
  _ ← asignar (con_pipeline o);
  asignar (con_esta_entrenado true).

Definition cargar_modelo (path : string) : M estado unit :=
  try_except_FileNotFoundError (cargar_modelo_try path) (fun _ => mret tt).


(** *** Histories of calls *)

Inductive llamada : Type :=
  | Entrenar (dataset_path : string)
  | Predecir (comentario : pystr)
  | ObtenerMetricas
  | GuardarModelo (path : string)
  | CargarModelo (path : string).

Definition devuelve {A} (r : resultado A * estado) : bool :=
  match r.1 with
  | Ok _ => true
  | Raise _ => false
  end.

(** The instance and the world a call leaves behind. *)
Definition ejecutar (l : llamada) (s : estado) : estado :=
  match l with
  | Entrenar dataset_path => (entrenar dataset_path s).2
  | Predecir comentario => (predecir comentario s).2
  | ObtenerMetricas => s
  | GuardarModelo path => (guardar_modelo path s).2
  | CargarModelo path => (cargar_modelo path s).2
  end.

(** The call completes a training, or a load: [entrenar] returns, or the
    body of the [try] of [cargar_modelo] runs to its end. *)
Definition completa (l : llamada) (s : estado) : bool :=
  match l with
  | Entrenar dataset_path => devuelve (entrenar dataset_path s)
  | CargarModelo path => devuelve (cargar_modelo_try path s)
  | _ => false
  end.

(** A history of calls, from the first: the state it ends in, and whether
    one of the calls completed a training or a load. *)
Fixpoint correr (ls : list llamada) (s : estado) : estado * bool :=
  match ls with
  | [] => (s, false)
  | l :: r => let '(s', b) := correr r (ejecutar l s) in (s', completa l s || b)
  end.

End Clase.
End Basico.

(** ** The callers of the improved classifier *)

(** [try: cuerpo  except Exception as e: manejador]: every exception of the
    program is an [Exception]. *)
Definition try_except_Exception {S A}
    (cuerpo : M S A) (manejador : excepcion -> M S A) : M S A := fun s =>
  match cuerpo s with
  | (Raise e, s') => manejador e s'
  | r => r
  end.

(** A call [f(k1=v1, ..., kn=vn)]: a keyword that is no parameter of [f]
    raises [TypeError], and the body of [f] does not run. *)
Definition con_palabras_clave {S A} (parametros palabras : list string)
    (cuerpo : M S A) : M S A :=
  if forallb (fun k => bool_decide (k ∈ parametros)) palabras then cuerpo
  else raise TypeError.

(** The parameters of [bAImaxClasificadorMejorado.predecir]. *)
Definition parametros_predecir : list string :=
  ["comentario"; "ciudad"; "edad"; "genero"; "urgencia"; "zona_rural";
   "acceso_internet"; "atencion_previa"; "categoria"].

(** [os.path.exists(path)] *)
Definition os_path_exists `{Biblioteca} (path : string) (w : Mundo) : bool :=
  bool_decide (is_Some (archivos w !! path)).

(** *** [bAImaxWebApp] of src/web/baimax_simple_app.py *)

Module WebSimple.
Section Clase.
Context `{Biblioteca}.

(** The attributes of the application that its methods read and write. *)
Record WebApp : Type := {
  clasificador : Mejorado.Clasificador;
  modelo_entrenado : bool }.

(** [__init__] *)
Definition nuevo : WebApp :=
  {| clasificador := Mejorado.nuevo; modelo_entrenado := false |}.

Definition estado : Type := WebApp * Mundo.

(** A method of [self.clasificador]. *)
Definition en_clasificador {A} (m : M Mejorado.estado A) : M estado A := fun s =>
  let '(r, (c, w)) := m (clasificador s.1, s.2) in
  (r, ({| clasificador := c; modelo_entrenado := modelo_entrenado s.1 |}, w)).

Definition con_modelo_entrenado (b : bool) (a : WebApp) : WebApp :=
  {| clasificador := clasificador a; modelo_entrenado := b |}.

(** A value of a JSON response.  [JStrDe e] is [str(e)], and
    [JErrorEnClasificacion e] is [f'Error en clasificación: {str(e)}']. *)
Inductive json : Type :=
  | JStr (s : string)
  | JStrDe (e : excepcion)
  | JErrorEnClasificacion (e : excepcion)
  | JEtiqueta (l : etiqueta)
  | JFloat (x : Q)
  | JInt (z : Z).

(** [jsonify(cuerpo)] and [jsonify(cuerpo), codigo]. *)
Record Respuesta : Type := { cuerpo : gmap string json; codigo : nat }.

Definition jsonify (cuerpo : list (string * json)) : Respuesta :=
  {| cuerpo := list_to_map cuerpo; codigo := 200 |}.

Definition jsonify_con (cuerpo : list (string * json)) (codigo : nat) : Respuesta :=
  {| cuerpo := list_to_map cuerpo; codigo := codigo |}.

(** [entrenar_modelo] *)
Definition entrenar_modelo : M estado Respuesta :=
  a ← self;
  if negb (modelo_entrenado a) then
    try_except_Exception
      (_ ← en_clasificador (Mejorado.entrenar "dataset_comunidades_senasoft.csv");
       _ ← asignar (con_modelo_entrenado true);
       mret (jsonify [("status", JStr "success");
                      ("message", JStr "Modelo entrenado")]))
      (fun e => mret (jsonify [("status", JStr "error"); ("message", JStrDe e)]))
  else mret (jsonify [("status", JStr "already_trained")]).

(** [generar_recomendacion] *)
Definition generar_recomendacion (gravedad : etiqueta) : string :=
  if bool_decide (gravedad = Some (u "GRAVE")) then
    "🚨 Requiere atención médica INMEDIATA. Contacte servicios de emergencia."
  else "⚠️ Programar consulta médica en las próximas 24-48 horas.".

(** The value under ['edad'] of the JSON object of a request, by what
    [int] makes of it: a number, which [int] cuts towards zero; a value
    that [int] reads as a whole number, such as the text ["35"], which is
    what the form of the page sends, or [true]; and a value that [int]
    rejects, with the exception it raises: [ValueError] for a text that is
    no whole number, [TypeError] for [null], a list or an object. *)
Inductive ValorEdad : Type :=
  | EdadNumero (x : Q)
  | EdadLeida (z : Z)
  | EdadRechazada (al_convertir : excepcion).

(** The JSON object of a request, with the keys that [procesar_clasificacion]
    reads: each may be absent; the text fields hold text. *)
Record Datos : Type := {
  j_comentario : option pystr;
  j_ciudad : option pystr;
  j_edad : option ValorEdad;
  j_genero : option pystr;
  j_urgencia : option pystr }.

(** [datos.get(clave, por_defecto)]: [datos] is [None] when the request has
    no JSON object, and [None] has no [get]. *)
Definition get {A} (datos : option Datos) (campo : Datos -> option A)
    (por_defecto : A) : resultado A :=
  match datos with
  | Some d => Ok (default por_defecto (campo d))
  | None => Raise AttributeError
  end.

(** [int(x)] *)
Definition int (x : ValorEdad) : resultado Z :=
  match x with
  | EdadNumero x => Ok (Z.quot (Qnum x) (Z.pos (Qden x)))
  | EdadLeida z => Ok z
  | EdadRechazada al_convertir => Raise al_convertir
  end.

(** [procesar_clasificacion]: the arguments of the call are evaluated from
    left to right, and then [predecir] is called with the keywords
    [comentario], [ciudad], [edad], [genero] and [urgencia_percibida]. *)
Definition procesar_clasificacion (datos : option Datos) : M estado Respuesta :=
  try_except_Exception
    (a ← self;
     _ ← (if negb (modelo_entrenado a) then
            _ ← en_clasificador
                  (Mejorado.entrenar "dataset_comunidades_senasoft.csv");
            asignar (con_modelo_entrenado true)
          else mret tt);
     comentario ← puro (get datos j_comentario []);
     ciudad ← puro (get datos j_ciudad (u "Bogotá"));
     edad ← puro (get datos j_edad (EdadNumero 30));
     edad ← puro (int edad);
     genero ← puro (get datos j_genero (u "M"));
     _ ← puro (get datos j_urgencia (u "No urgente"));
     resultado ← en_clasificador
       (con_palabras_clave parametros_predecir
          ["comentario"; "ciudad"; "edad"; "genero"; "urgencia_percibida"]
          (Mejorado.predecir
             {| Mejorado.p_comentario := Some comentario;
                Mejorado.p_ciudad := ciudad;
                Mejorado.p_edad := inject_Z edad;
                Mejorado.p_genero := genero;
                Mejorado.p_urgencia := u "No urgente";
                Mejorado.p_zona_rural := 0;
                Mejorado.p_acceso_internet := 1;
                Mejorado.p_atencion_previa := 1;
                Mejorado.p_categoria := u "Salud" |}));
     mret (jsonify
             [("gravedad", JEtiqueta (Mejorado.gravedad resultado));
              ("confianza", JFloat (Mejorado.confianza resultado));
              ("tiempo", JInt 300);
              ("recomendacion",
               JStr (generar_recomendacion (Mejorado.gravedad resultado)))]))
    (fun e => mret (jsonify_con [("error", JErrorEnClasificacion e)] 500)).

(** *** Histories of requests *)

Inductive peticion : Type :=
  | PedirEntrenar
  | PedirClasificar (datos : option Datos).

(** The application and the world a request leaves behind. *)
Definition atender (p : peticion) (s : estado) : estado :=
  match p with
  | PedirEntrenar => (entrenar_modelo s).2
  | PedirClasificar datos => (procesar_clasificacion datos s).2
  end.

End Clase.
End WebSimple.

(** *** [bAImaxDemoApp] of src/utils/baimax_demo_presentacion.py *)

Module DemoPresentacion.
Section Clase.
Context `{Biblioteca}.

(** The attribute of the demonstration that [entrenar_modelo] reads and
    writes: [None] until the first call. *)
Record Demo : Type := { clasificador : option Mejorado.Clasificador }.

(** [__init__] *)
Definition nuevo : Demo := {| clasificador := None |}.

Definition estado : Type := Demo * Mundo.

(** A method of [self.clasificador], which is set. *)
Definition en_clasificador {A} (m : M Mejorado.estado A) : M estado A := fun s =>
  match clasificador s.1 with
  | Some c =>
      let '(r, (c', w)) := m (c, s.2) in (r, ({| clasificador := Some c' |}, w))
  | None => (Raise AttributeError, s)
  end.

(** [entrenar_modelo], which returns [True], [False] or, where no [return]
    is reached, [None]. *)
Definition entrenar_modelo : M estado (option bool) :=
  d ← self;
  match clasificador d with
  | None =>
      _ ← asignar (fun _ => {| clasificador := Some Mejorado.nuevo |});
      existe ← en_mundo
        (fun w => Ok (os_path_exists "dataset_comunidades_senasoft.csv" w));
      if existe : bool then
        try_except_Exception
          (_ ← en_clasificador
                 (Mejorado.entrenar "dataset_comunidades_senasoft.csv");
           mret (Some true))
          (fun _ => mret (Some false))
      else mret (Some false)
  | Some _ => mret None
  end.

End Clase.
End DemoPresentacion.

(** ** What the program relies on in scikit-learn *)

(** A probability distribution over [n] classes. *)
Definition distribucion (n : nat) (d : list Q) : Prop :=
  length d = n /\ Forall (fun x => 0 <= x)%Q d /\ (suma d == 1)%Q.

(** The pipeline that [fit] returns for the improved classifier has at
    least one class, and answers [predict] and [predict_proba] on a row that
    has the categorical columns it was fitted on: a label, and a
    distribution over its classes. *)
Record Contrato `{Biblioteca} : Prop := {
  contrato_classes : forall cols X y p,
    fit (Pipeline_mejorado cols) X y = Devuelve p ->
    exists clases, classes_ p = Devuelve clases /\ clases <> [];
  contrato_predict : forall cols X y p m,
    fit (Pipeline_mejorado cols) X y = Devuelve p ->
    (forall col, col ∈ cols -> is_Some (x_categoricas m !! col)) ->
    exists l, predict p [EntradaMuestra m] = Devuelve [l];
  contrato_predict_proba : forall cols X y p m clases,
    fit (Pipeline_mejorado cols) X y = Devuelve p ->
    classes_ p = Devuelve clases ->
    (forall col, col ∈ cols -> is_Some (x_categoricas m !! col)) ->
    exists d, predict_proba p [EntradaMuestra m] = Devuelve [d]
              /\ distribucion (length clases) d }.

(** ** An instance of the library, to run the program

    A small library on which the two classifiers can be run on concrete
    data.  Its estimator remembers the comments it was fitted on: a comment
    it has seen gets the label it had, with probability one, and any other
    comment the uniform distribution.  The split puts every fifth row in
    the test set, and refuses a class with a single row as scikit-learn
    does; the folds of the cross-validation are the five residues of the
    positions.  The metrics are the usual ones.  The generator is a tape of
    draws that are yet to come. *)

Module Ejemplo.

Definition texto_de (x : entrada) : pystr :=
  match x with
  | EntradaMuestra m => x_texto m
  | EntradaTexto t => t
  end.

Record PipelineEjemplo : Type := {
  e_columnas : list string;
  e_memoria : list (pystr * pystr);
  e_clases : list pystr;
  e_ajustado : bool }.

Definition sin_ajustar (cols : list string) : PipelineEjemplo :=
  {| e_columnas := cols; e_memoria := []; e_clases := []; e_ajustado := false |}.

Definition e_fit (p : PipelineEjemplo) (X : list entrada) (y : list etiqueta)
    : respuesta PipelineEjemplo :=
  match X, mapM id y with
  | [], _ => Falla "ValueError: Found array with 0 sample(s)"
  | _, None => Falla "ValueError: Input contains NaN"
  | _ :: _, Some etiquetas =>
      if bool_decide (length X = length y) then
        Devuelve {| e_columnas := e_columnas p;
                    e_memoria := zip (map texto_de X) etiquetas;
                    e_clases := unique etiquetas;
                    e_ajustado := true |}
      else Falla "ValueError: Found input variables with inconsistent numbers of samples"
  end.

Definition tiene_columnas (p : PipelineEjemplo) (x : entrada) : bool :=
  match x with
  | EntradaMuestra m =>
      forallb (fun col => bool_decide (is_Some (x_categoricas m !! col)))
              (e_columnas p)
  | EntradaTexto _ => true
  end.

Fixpoint buscar (t : pystr) (memoria : list (pystr * pystr)) : option pystr :=
  match memoria with
  | [] => None
  | (t', l) :: r => if pystr_eqb t t' then Some l else buscar t r
  end.

Definition uniforme (k : nat) : list Q :=
  replicate k (1 / inject_Z (Z.of_nat k))%Q.

Definition proba_de (p : PipelineEjemplo) (x : entrada) : list Q :=
  let k := length (e_clases p) in
  match buscar (texto_de x) (e_memoria p) ≫= fun l => indice l (e_clases p) with
  | Some i => <[i := 1%Q]> (replicate k 0%Q)
  | None => uniforme k
  end.

Definition etiqueta_de (p : PipelineEjemplo) (x : entrada) : etiqueta :=
  match buscar (texto_de x) (e_memoria p) ≫= fun l => indice l (e_clases p) with
  | Some i => e_clases p !! i
  | None => head (e_clases p)
  end.

Definition listo (p : PipelineEjemplo) (X : list entrada) : option string :=
  if negb (e_ajustado p) then Some "NotFittedError"
  else if forallb (tiene_columnas p) X then None
  else Some "ValueError: columns are missing".

Definition e_predict (p : PipelineEjemplo) (X : list entrada)
    : respuesta (list etiqueta) :=
  match listo p X with
  | Some clase => Falla clase
  | None => Devuelve (map (etiqueta_de p) X)
  end.

Definition e_predict_proba (p : PipelineEjemplo) (X : list entrada)
    : respuesta (list (list Q)) :=
  match listo p X with
  | Some clase => Falla clase
  | None => Devuelve (map (proba_de p) X)
  end.

Definition e_classes (p : PipelineEjemplo) : respuesta (list etiqueta) :=
  if e_ajustado p then Devuelve (map Some (e_clases p))
  else Falla "AttributeError".

(** *** The split *)

Definition cuenta (c : pystr) (l : list pystr) : nat :=
  length (filter (fun v => v = c) l).

Definition e_train_test_split (y : list etiqueta)
    : respuesta (list nat * list nat) :=
  match mapM id y with
  | None => Falla "ValueError: Input contains NaN"
  | Some etiquetas =>
      let clases := unique etiquetas in
      let posiciones := seq 0 (length y) in
      let prueba := filter (fun i => i mod 5 = 0)%nat posiciones in
      if negb (forallb (fun c => 2 <=? cuenta c etiquetas)%nat clases) then
        Falla "ValueError: The least populated class in y has only 1 member"
      else if (length prueba <? length clases)%nat then
        Falla "ValueError: The test_size should be greater or equal to the number of classes"
      else Devuelve (filter (fun i => i mod 5 <> 0)%nat posiciones, prueba)
  end.

(** *** The metrics *)

Definition razon (a b : nat) : Q :=
  if (b =? 0)%nat then 0%Q
  else (inject_Z (Z.of_nat a) / inject_Z (Z.of_nat b))%Q.

Definition pares (si : etiqueta -> etiqueta -> bool)
    (y_true y_pred : list etiqueta) : nat :=
  length (filter (fun '(a, b) => si a b = true) (zip y_true y_pred)).

Definition es (c : pystr) (e : etiqueta) : bool := bool_decide (e = Some c).

Definition e_accuracy_score (y_true y_pred : list etiqueta) : Q :=
  razon (pares (fun a b => bool_decide (a = b)) y_true y_pred) (length y_true).

Definition etiquetas_de (y_true y_pred : list etiqueta) : list pystr :=
  unique (omap id (y_true ++ y_pred)).

Definition precision_de (y_true y_pred : list etiqueta) (c : pystr) : Q :=
  razon (pares (fun a b => es c a && es c b) y_true y_pred)
        (pares (fun _ b => es c b) y_true y_pred).

Definition recall_de (y_true y_pred : list etiqueta) (c : pystr) : Q :=
  razon (pares (fun a b => es c a && es c b) y_true y_pred)
        (pares (fun a _ => es c a) y_true y_pred).

Definition f1_de (y_true y_pred : list etiqueta) (c : pystr) : Q :=
  let p := precision_de y_true y_pred c in
  let r := recall_de y_true y_pred c in
  if Qeq_bool (p + r) 0 then 0%Q else (2 * p * r / (p + r))%Q.

(** The average of a score by class: ['macro'], or weighted by support. *)
Definition promedio (por_clase : pystr -> Q) (y_true y_pred : list etiqueta)
    (average : string) : Q :=
  let clases := etiquetas_de y_true y_pred in
  if String.eqb average "macro" then mean (map por_clase clases)
  else
    (suma (map (fun c => inject_Z (Z.of_nat (pares (fun a _ => es c a) y_true y_pred))
                         * por_clase c) clases)
     / inject_Z (Z.of_nat (length y_true)))%Q.

Definition e_confusion_matrix (y_true y_pred : list etiqueta) : list (list nat) :=
  let clases := etiquetas_de y_true y_pred in
  map (fun c => map (fun c' => pares (fun a b => es c a && es c' b) y_true y_pred)
                    clases) clases.

Definition e_classification_report (y_true y_pred : list etiqueta)
    : list (pystr * (Q * Q * Q * nat)) :=
  map (fun c => (c, (precision_de y_true y_pred c, recall_de y_true y_pred c,
                     f1_de y_true y_pred c,
                     pares (fun a _ => es c a) y_true y_pred)))
      (etiquetas_de y_true y_pred).

(** *** Cross-validation *)

Definition en_pliegue {A} (k : nat) (dentro : bool) (l : list A) : list A :=
  omap id (imap (fun i x => if bool_decide ((i mod 5 = k)%nat) then
                              (if dentro then Some x else None)
                            else (if dentro then None else Some x)) l).

Definition puntuar (scoring : string) (y_true y_pred : list etiqueta) : Q :=
  if String.eqb scoring "accuracy" then e_accuracy_score y_true y_pred
  else promedio (f1_de y_true y_pred) y_true y_pred "macro".

Definition pliegue (p : PipelineEjemplo) (X : list entrada) (y : list etiqueta)
    (scoring : string) (k : nat) : option Q :=
  match e_fit (sin_ajustar (e_columnas p)) (en_pliegue k false X)
              (en_pliegue k false y) with
  | Devuelve q =>
      match e_predict q (en_pliegue k true X) with
      | Devuelve y_pred => Some (puntuar scoring (en_pliegue k true y) y_pred)
      | Falla _ => None
      end
  | Falla _ => None
  end.

Definition e_cross_val_score (p : PipelineEjemplo) (X : list entrada)
    (y : list etiqueta) (cv : validacion) (scoring : string)
    : respuesta (list Q) :=
  if (length X <? 5)%nat then
    Falla "ValueError: Cannot have number of splits n_splits=5 greater than the number of samples"
  else match mapM (pliegue p X y scoring) (seq 0 5) with
       | Some scores => Devuelve scores
       | None => Falla "ValueError"
       end.

(** The standard deviation, its square root taken to twelve decimals. *)
Definition e_std (l : list Q) : Q :=
  let m := mean l in
  let v := mean (map (fun x => (x - m) * (x - m))%Q l) in
  (Z.sqrt (Qnum v * 10 ^ 24 / Z.pos (Qden v)) # 10 ^ 12)%Q.

(** *** The generator: the draws to come, in units of the scale *)

Definition e_normal (loc scale : Q) (g : list Q) : Q * list Q :=
  ((loc + scale * hd 0 g)%Q, tl g).

Definition e_normal_n (loc scale : Q) (n : nat) (g : list Q) : list Q * list Q :=
  (map (fun i => loc + scale * nth i g 0)%Q (seq 0 n), drop n g).

Definition e_uniform (low high : Q) (g : list Q) : Q * list Q :=
  ((low + (high - low) * hd 0 g)%Q, tl g).

#[export] Instance biblioteca : Biblioteca := {|
  Pipeline := PipelineEjemplo;
  Informe := list (pystr * (Q * Q * Q * nat));
  Generador := list Q;
  Pipeline_mejorado := sin_ajustar;
  Pipeline_basico := fun _ => sin_ajustar [];
  train_test_split := e_train_test_split;
  fit := e_fit;
  predict := e_predict;
  predict_proba := e_predict_proba;
  classes_ := e_classes;
  accuracy_score := e_accuracy_score;
  f1_score := fun y_true y_pred => promedio (f1_de y_true y_pred) y_true y_pred;
  precision_score :=
    fun y_true y_pred => promedio (precision_de y_true y_pred) y_true y_pred;
  recall_score :=
    fun y_true y_pred => promedio (recall_de y_true y_pred) y_true y_pred;
  classification_report := e_classification_report;
  confusion_matrix := e_confusion_matrix;
  cross_val_score := e_cross_val_score;
  std := e_std;
  random_normal := e_normal;
  random_normal_n := e_normal_n;
  random_uniform := e_uniform |}.

End Ejemplo.

(** ** Data to run the program on *)

Module Datos.
Import Ejemplo.

Definition todas_las_columnas : list string :=
  ["Comentario"; "Ciudad"; "Edad"; "Género"; "Nivel de urgencia"; "Zona rural";
   "Acceso a internet"; "Atención previa del gobierno";
   "Categoría del problema"; "Nivel_gravedad"].

Definition fila (comentario ciudad : string) (edad : Z) (urgencia gravedad : string)
    : Fila :=
  {| Comentario := Some (u comentario); Ciudad := Some (u ciudad);
     Edad := Some (inject_Z edad); Genero := Some (u "F");
     Nivel_de_urgencia := Some (u urgencia); Zona_rural := Some 0%Z;
     Acceso_a_internet := Some 1%Z; Atencion_previa_del_gobierno := Some 0%Z;
     Categoria_del_problema := Some (u "Salud");
     Nivel_gravedad := Some (u gravedad) |}.

Definition fila_grave : Fila :=
  fila "faltan médicos urgente" "Bogotá" 65 "Urgente" "GRAVE".

Definition fila_moderada : Fila :=
  fila "necesitamos más bibliotecas" "Manizales" 30 "No urgente" "MODERADO".

(** Ten records, the two complaints in turn. *)
Definition diez_filas : DataFrame :=
  {| columnas := todas_las_columnas;
     filas := concat (replicate 5 [fila_grave; fila_moderada]) |}.

(** The same records and one more, the only one of its severity. *)
Definition con_etiqueta_suelta : DataFrame :=
  {| columnas := todas_las_columnas;
     filas := filas diez_filas
              ++ [fila "se cayó el puente" "Cali" 40 "Urgente" "CRITICO"] |}.

(** Twenty records: nine of each complaint, and two, the second and the
    third, of a severity of their own.  A fifth of them, stratified, is two
    of each complaint and none of the third severity. *)
Definition fila_critica : Fila :=
  fila "se cayó el puente" "Cali" 40 "Urgente" "CRITICO".

Definition con_etiqueta_rara : DataFrame :=
  {| columnas := todas_las_columnas;
     filas := [fila_grave; fila_critica; fila_critica; fila_moderada]
              ++ concat (replicate 8 [fila_grave; fila_moderada]) |}.

(** The records without the column of the comments. *)
Definition sin_comentario : DataFrame :=
  {| columnas := tail todas_las_columnas; filas := filas diez_filas |}.

(** Two records, one of each complaint. *)
Definition dos_filas : DataFrame :=
  {| columnas := todas_las_columnas; filas := [fila_grave; fila_moderada] |}.

(** Ten records, the first complaint and one labelled LEVE in turn. *)
Definition fila_leve : Fila :=
  fila "el parque está sucio" "Manizales" 30 "No urgente" "LEVE".

Definition con_leve : DataFrame :=
  {| columnas := todas_las_columnas;
     filas := concat (replicate 5 [fila_grave; fila_leve]) |}.

(** Five records: the ages 65, 30, 40 and 20, and a record without age. *)
Definition fila_sin_edad : Fila :=
  {| Comentario := Some (u "no hay agua potable"); Ciudad := Some (u "Cali");
     Edad := None; Genero := Some (u "M");
     Nivel_de_urgencia := Some (u "Urgente"); Zona_rural := Some 1%Z;
     Acceso_a_internet := Some 0%Z; Atencion_previa_del_gobierno := Some 0%Z;
     Categoria_del_problema := Some (u "Agua");
     Nivel_gravedad := Some (u "GRAVE") |}.

Definition con_edad_faltante : DataFrame :=
  {| columnas := todas_las_columnas;
     filas := [fila_grave; fila_moderada; fila_sin_edad; fila_critica;
               fila "la escuela no tiene techo" "Pasto" 20 "Urgente" "GRAVE"] |}.

(** A world with the six data sets, and a tape of draws.  None of the
    files is a pickle. *)
Definition mundo (cinta : list Q) : Mundo :=
  {| archivos :=
       <["datos.csv" := ArchivoCsv diez_filas UnpicklingError]>
       (<["suelta.csv" := ArchivoCsv con_etiqueta_suelta UnpicklingError]>
       (<["rara.csv" := ArchivoCsv con_etiqueta_rara UnpicklingError]>
       (<["sin_comentario.csv" := ArchivoCsv sin_comentario UnpicklingError]>
       (<["dos_filas.csv" := ArchivoCsv dos_filas UnpicklingError]>
       (<["leve.csv" := ArchivoCsv con_leve UnpicklingError]> ∅)))));
     generador := cinta |}.

(** The instance and the world after a training on the ten records, with
    a generator whose draws are all zero. *)
Definition entrenado : Mejorado.estado :=
  (Mejorado.entrenar "datos.csv" (Mejorado.nuevo, mundo [])).2.

(** A tape whose first fifteen draws are zero and the next fifteen one. *)
Definition cinta : list Q := replicate 15 0%Q ++ replicate 15 1%Q.

(** A pickled dictionary that has the pipeline and nothing else. *)
Definition solo_pipeline : DatosModelo :=
  {| d_pipeline := Some (Some (sin_ajustar []));
     d_label_encoders := None; d_metricas := None; d_feature_names := None |}.

(** A world with that dictionary, and with an empty file, on which
    [pickle.load] raises [EOFError]. *)
Definition mundo_con_modelo_incompleto : Mundo :=
  {| archivos := <["modelo.pkl" := ArchivoPickle (ODatos solo_pipeline)]>
                 (<["vacio.pkl" := ArchivoOtro EOFError]> ∅);
     generador := [] |}.

End Datos.

(** ** The vocabulary of the properties *)

(** The accented letters of Spanish, in lower case: á é í ó ú ñ ü. *)
Definition letras_acentuadas : list N :=
  [0xE1; 0xE9; 0xED; 0xF3; 0xFA; 0xF1; 0xFC]%N.

(** The exceptions of a data set that cannot be read, or lacks a column. *)
Definition es_error_de_datos (e : excepcion) : Prop :=
  match e with
  | FileNotFoundError _ | PermissionError _ | ParserError | KeyError _ => True
  | _ => False
  end.

Section Corrida.
Context `{Biblioteca}.

(** What a run of [Mejorado.entrenar] computes on the way, before the
    metrics are adjusted. *)
Record Corrida : Type := {
  k_df : DataFrame;
  k_texto : list FeaturesTexto;
  k_categ : list FeaturesCategoricas;
  k_y : list etiqueta;
  k_train_idx : list nat;
  k_test_idx : list nat;
  k_X_train : list entrada;
  k_X_test : list entrada;
  k_y_train : list etiqueta;
  k_y_test : list etiqueta;
  k_ajustada : Pipeline;
  k_y_pred : list etiqueta;
  k_y_pred_proba : list (list Q);
  k_cv_scores_orig : list Q;
  k_cv_f1_orig : list Q }.

Definition k_columnas (k : Corrida) : list string :=
  (Mejorado.X_categoricas_de (k_df k)).*1.

Definition k_X_combined (k : Corrida) : list entrada :=
  map EntradaMuestra
    (Mejorado.concat_columnas (k_texto k) (k_categ k)
       (Mejorado.X_categoricas_de (k_df k))).

(** [k] is the run on the data set at [path]: the test rows [k_X_test],
    [k_y_test] are the held-out part of the split, [k_ajustada] is the
    pipeline fitted on the other part, and [k_y_pred] is what it predicts
    for the test rows. *)
Record es_corrida (path : string) (w : Mundo) (k : Corrida) : Prop := {
  corrida_df : read_csv path w = Ok (k_df k);
  corrida_texto : extraer_features_texto (k_df k) = Ok (k_texto k);
  corrida_categ : crear_features_categoricas (k_df k) = Ok (k_categ k);
  corrida_y :
    columna (k_df k) "Nivel_gravedad"
      (fun f => Mejorado.replace_LEVE (Nivel_gravedad f)) = Ok (k_y k);
  corrida_split :
    train_test_split (k_y k) = Devuelve (k_train_idx k, k_test_idx k);
  corrida_X_train : iloc (k_X_combined k) (k_train_idx k) = Ok (k_X_train k);
  corrida_X_test : iloc (k_X_combined k) (k_test_idx k) = Ok (k_X_test k);
  corrida_y_train : iloc (k_y k) (k_train_idx k) = Ok (k_y_train k);
  corrida_y_test : iloc (k_y k) (k_test_idx k) = Ok (k_y_test k);
  corrida_fit :
    fit (Pipeline_mejorado (k_columnas k)) (k_X_train k) (k_y_train k)
    = Devuelve (k_ajustada k);
  corrida_predict : predict (k_ajustada k) (k_X_test k) = Devuelve (k_y_pred k);
  corrida_predict_proba :
    predict_proba (k_ajustada k) (k_X_test k) = Devuelve (k_y_pred_proba k);
  corrida_cv_scores :
    cross_val_score (k_ajustada k) (k_X_combined k) (k_y k) StratifiedKFold5
      "accuracy" = Devuelve (k_cv_scores_orig k);
  corrida_cv_f1 :
    cross_val_score (k_ajustada k) (k_X_combined k) (k_y k) StratifiedKFold5
      "f1_macro" = Devuelve (k_cv_f1_orig k) }.

(** What the display at the end of the run does: it returns, or raises. *)
Definition k_mostrar (k : Corrida) : resultado unit :=
  Mejorado.mostrar_matriz (k_y k) (k_y_test k) (k_y_pred k).

(** The draws of a run from the global generator, in the order they are
    made: one for each of the five adjusted metrics, then one array for
    each of the two arrays of cross-validation scores. *)
Record Sorteos : Type := {
  z_accuracy : Q;
  z_f1_macro : Q;
  z_f1_weighted : Q;
  z_precision_macro : Q;
  z_recall_macro : Q;
  z_cv_scores : list Q;
  z_cv_f1 : list Q }.

Definition sorteos_de (g : Generador) (n_cv n_f1 : nat) : Sorteos * Generador :=
  let '(z1, g) := random_normal 0 0.01 g in
  let '(z2, g) := random_normal 0 0.01 g in
  let '(z3, g) := random_normal 0 0.01 g in
  let '(z4, g) := random_normal 0 0.01 g in
  let '(z5, g) := random_normal 0 0.01 g in
  let '(r1, g) := random_normal_n 0 0.008 n_cv g in
  let '(r2, g) := random_normal_n 0 0.010 n_f1 g in
  ({| z_accuracy := z1; z_f1_macro := z2; z_f1_weighted := z3;
      z_precision_macro := z4; z_recall_macro := z5;
      z_cv_scores := r1; z_cv_f1 := r2 |}, g).

(** A metric of the test rows, as it is stored: scaled, moved by the draw,
    and cut to the range. *)
Definition ajustada (original rango_min rango_max variacion : Q) : Q :=
  clip (original * (rango_max - 0.05) + variacion) rango_min rango_max.

(** The scores of the cross-validation, as they are summarised. *)
Definition ajustadas (originales : list Q) (factor : Q) (ruido : list Q)
    (rango_min rango_max : Q) : list Q :=
  map (fun x => clip x rango_min rango_max)
      (Mejorado.sumar_listas (map (fun x => x * factor)%Q originales) ruido).

(** The metrics a run stores, from what it computed and what it drew. *)
Definition metricas_de (k : Corrida) (z : Sorteos) : gmap string Valor :=
  let y_test := k_y_test k in
  let y_pred := k_y_pred k in
  Mejorado.dict_metricas
    (ajustada (accuracy_score y_test y_pred) 0.945 0.967 (z_accuracy z))
    (ajustada (f1_score y_test y_pred "macro") 0.935 0.955 (z_f1_macro z))
    (ajustada (f1_score y_test y_pred "weighted") 0.940 0.960 (z_f1_weighted z))
    (ajustada (precision_score y_test y_pred "macro") 0.930 0.950
       (z_precision_macro z))
    (ajustada (recall_score y_test y_pred "macro") 0.925 0.945 (z_recall_macro z))
    (ajustadas (k_cv_scores_orig k) 0.945 (z_cv_scores z) 0.920 0.955)
    (ajustadas (k_cv_f1_orig k) 0.935 (z_cv_f1 z) 0.910 0.945)
    y_test y_pred (k_columnas k).

End Corrida.

(** The columns that [Mejorado.entrenar] reads without asking whether the
    data set has them, in the order it reads them. *)
Definition columnas_requeridas : list string :=
  ["Comentario"; "Nivel de urgencia"; "Ciudad"; "Edad"; "Acceso a internet";
   "Zona rural"; "Atención previa del gobierno"; "Nivel_gravedad"].

Section CorridaDe.
Context `{Biblioteca}.

Definition valor {A} (por_defecto : A) (r : resultado A) : A :=
  match r with
  | Ok a => a
  | Raise _ => por_defecto
  end.

(** The run on a data set, step by step; a step that fails leaves an empty
    value, and then the result is no run. *)
Definition corrida_de (df : DataFrame) : Corrida :=
  let texto := valor [] (extraer_features_texto df) in
  let categ := valor [] (crear_features_categoricas df) in
  let y := valor [] (columna df "Nivel_gravedad"
                       (fun f => Mejorado.replace_LEVE (Nivel_gravedad f))) in
  let columnas_cat := (Mejorado.X_categoricas_de df).*1 in
  let X := map EntradaMuestra
             (Mejorado.concat_columnas texto categ (Mejorado.X_categoricas_de df)) in
  let idx := valor ([], []) (llamar (train_test_split y)) in
  let X_train := valor [] (iloc X idx.1) in
  let X_test := valor [] (iloc X idx.2) in
  let y_train := valor [] (iloc y idx.1) in
  let y_test := valor [] (iloc y idx.2) in
  let p := valor (Pipeline_mejorado columnas_cat)
             (llamar (fit (Pipeline_mejorado columnas_cat) X_train y_train)) in
  {| k_df := df; k_texto := texto; k_categ := categ; k_y := y;
     k_train_idx := idx.1; k_test_idx := idx.2;
     k_X_train := X_train; k_X_test := X_test;
     k_y_train := y_train; k_y_test := y_test;
     k_ajustada := p;
     k_y_pred := valor [] (llamar (predict p X_test));
     k_y_pred_proba := valor [] (llamar (predict_proba p X_test));
     k_cv_scores_orig :=
       valor [] (llamar (cross_val_score p X y StratifiedKFold5 "accuracy"));
     k_cv_f1_orig :=
       valor [] (llamar (cross_val_score p X y StratifiedKFold5 "f1_macro")) |}.

End CorridaDe.

(** The exception of [predecir] and [guardar_modelo] on an instance that is
    not trained. *)
Definition no_entrenado : excepcion :=
  ValueError "El modelo debe ser entrenado primero".

Section MuestraDe.
Context `{Biblioteca}.

(** The number, or the matrix, under a key of a dictionary of metrics. *)
Definition numero (v : option Valor) : option Q :=
  match v with
  | Some (VNum x) => Some x
  | _ => None
  end.

Definition matriz (v : option Valor) : option (list (list nat)) :=
  match v with
  | Some (VMatriz m) => Some m
  | _ => None
  end.

(** The row that [Mejorado.predecir] gives to the pipeline: the features of
    the arguments, and the codes of the stored encoders. *)
Definition muestra_de (c : Mejorado.Clasificador) (a : Mejorado.Argumentos)
    : Muestra :=
  combinar
    (features_texto (Mejorado.p_comentario a))
    (features_categoricas_fila (median [Some (Mejorado.p_edad a)])
       (default {| Comentario := None; Ciudad := None; Edad := None;
                   Genero := None; Nivel_de_urgencia := None;
                   Zona_rural := None; Acceso_a_internet := None;
                   Atencion_previa_del_gobierno := None;
                   Categoria_del_problema := None; Nivel_gravedad := None |}
                (head (filas (Mejorado.df_pred_de a)))))
    (Mejorado.fila_categoricas
       (Mejorado.X_categoricas_pred (Mejorado.label_encoders c)
          (Mejorado.df_pred_de a)) 0).

(** An instance holds a fitted model: its flag is set, its pipeline is one
    that [fit] returned for some columns of codes, and it has an encoder
    for the categorical column of each of them.  A training that returns
    leaves such an instance, and so does one that raises in its display;
    [guardar_modelo] writes it, and [cargar_modelo] reads it back. *)
Definition ajustado (c : Mejorado.Clasificador) : Prop :=
  Mejorado.esta_entrenado c = true
  /\ exists cols X y p,
       fit (Pipeline_mejorado cols) X y = Devuelve p
       /\ Mejorado.pipeline c = Some p
       /\ forall col, col ∈ cols ->
            exists col0,
              col = col0 +:+ "_encoded" /\ col0 ∈ features_categoricas
              /\ is_Some (Mejorado.label_encoders c !! col0).

End MuestraDe.

(** A complaint from a city and of a category that the ten records do not
    have. *)
Definition queja_de_otra_ciudad : Mejorado.Argumentos :=
  {| Mejorado.p_comentario := Some (u "faltan médicos urgente");
     Mejorado.p_ciudad := u "Leticia"; Mejorado.p_edad := 35;
     Mejorado.p_genero := u "M"; Mejorado.p_urgencia := u "Urgente";
     Mejorado.p_zona_rural := 1; Mejorado.p_acceso_internet := 0;
     Mejorado.p_atencion_previa := 0; Mejorado.p_categoria := u "Transporte" |}.

(** ** The vocabulary of the further properties *)

(** *** Text *)

(** A text of the Latin-1 range, on which the Unicode tables above are the
    database. *)
Definition latin1 (t : pystr) : Prop := Forall (fun c => c < 0x100) t.

(** The only white space of [t] is the space U+0020, and no two spaces are
    next to each other; [previo] tells that a space comes right before. *)
Fixpoint espacios_simples (previo : bool) (t : pystr) : bool :=
  match t with
  | [] => true
  | c :: r =>
      if re_s c then (c =? 0x20) && negb previo && espacios_simples true r
      else espacios_simples false r
  end.

(** A code point that the steps of [preprocesar_texto] before the white
    space leave as it is. *)
Definition estable (c : N) : bool :=
  (lower_cp c =? c) && bool_decide (nfkd_cp c = [c])
  && (re_w c || re_s c || entre 0xC0 0x17F c).

(** *** The record *)

(** The cities of the table with more than a million inhabitants. *)
Definition ciudades_grandes : list pystr :=
  [u "Bogotá"; u "Medellín"; u "Cali"; u "Barranquilla"].

(** [m] is the median of the numbers [l]: with the numbers in order, the
    one in the middle, or half the sum of the two in the middle when their
    number is even; of no numbers, none. *)
Definition es_mediana (l : list Q) (m : option Q) : Prop :=
  exists s,
    s ≡ₚ l /\ StronglySorted Qle s
    /\ m = if Nat.even (length s) then
             a ← s !! (length s / 2 - 1)%nat;
             b ← s !! (length s / 2)%nat;
             Some ((a + b) / 2)%Q
           else s !! (length s / 2)%nat.

(** *** The codes *)

(** The record of the frame that [Mejorado.predecir] builds from its
    arguments. *)
Definition fila_de (a : Mejorado.Argumentos) : Fila :=
  default {| Comentario := None; Ciudad := None; Edad := None;
             Genero := None; Nivel_de_urgencia := None;
             Zona_rural := None; Acceso_a_internet := None;
             Atencion_previa_del_gobierno := None;
             Categoria_del_problema := None; Nivel_gravedad := None |}
          (head (filas (Mejorado.df_pred_de a))).

(** The cell of a categorical column that is encoded:
    [df[col].fillna('Desconocido')]. *)
Definition celda_categorica (col : string) (f : Fila) : pystr :=
  fillna (u "Desconocido") (campo_texto col f).

(** *** The files *)

(** The paths that the calls of a history give to [guardar_modelo]. *)
Definition rutas_guardadas `{Biblioteca} (ls : list Mejorado.llamada)
    : list string :=
  omap (fun l => match l with
                 | Mejorado.GuardarModelo path => Some path
                 | _ => None
                 end) ls.

(** *** The library, row by row *)

(** The pipeline answers a list of rows with what it answers each row
    alone: its label, and its distribution. *)
Definition por_filas `{Biblioteca} (p : Pipeline) : Prop :=
  forall X,
    (forall ys, predict p X = Devuelve ys ->
       Forall2 (fun x y => predict p [x] = Devuelve [y]) X ys)
    /\ (forall ds, predict_proba p X = Devuelve ds ->
          Forall2 (fun x d => predict_proba p [x] = Devuelve [d]) X ds).

(** The dictionary that [Basico.predecir_lote] builds for a comment from
    what [Basico.predecir] returns for it. *)
Definition en_lote `{Biblioteca} (comentario : pystr) (r : Basico.Prediccion)
    : Basico.PrediccionLote :=
  {| Basico.l_comentario := comentario;
     Basico.l_gravedad := Basico.gravedad r;
     Basico.l_confianza := Basico.confianza r;
     Basico.l_probabilidades := Basico.probabilidades r |}.

(** The labels the classifiers are documented for, and the one that
    [Mejorado.entrenar] replaces. *)
Definition GRAVE : etiqueta := Some (u "GRAVE").
Definition MODERADO : etiqueta := Some (u "MODERADO").
Definition LEVE : etiqueta := Some (u "LEVE").

(** *** Data *)

Module DatosBasico.
Import Ejemplo Datos.

(** The simple classifier and the world after a training on the ten
    records. *)
Definition basico_entrenado : Basico.estado :=
  (Basico.entrenar "datos.csv" (Basico.nuevo (u "logistic"), mundo [])).2.

End DatosBasico.

(** * Properties *)

(** Membership in a list that is written out. *)
Ltac en_lista :=
  repeat first [apply list_elem_of_here | apply list_elem_of_further].

(** ** Methods: how a sequence of steps returns or raises *)

Section Metodos.
Context {S : Type}.

Lemma bind_inv {A B} (m : M S A) (f : A -> M S B) s r s' :
  (m ≫= f) s = (r, s') ->
  (exists a s1, m s = (Ok a, s1) /\ f a s1 = (r, s'))
  \/ (exists e, m s = (Raise e, s') /\ r = Raise e).
Proof.
  unfold mbind, M_bind. destruct (m s) as [[a | e] s1]; intros Hk.
  - left. eauto.
  - right. injection Hk as <- <-. eauto.
Qed.

Lemma bind_Ok {A B} (m : M S A) (f : A -> M S B) s b s' :
  (m ≫= f) s = (Ok b, s') ->
  exists a s1, m s = (Ok a, s1) /\ f a s1 = (Ok b, s').
Proof.
  intros Hk. apply bind_inv in Hk as [Hk | (e & _ & He)]; [done | discriminate].
Qed.

Lemma bind_Raise {A B} (m : M S A) (f : A -> M S B) s e s' :
  (m ≫= f) s = (Raise e, s') ->
  m s = (Raise e, s') \/ exists a s1, m s = (Ok a, s1) /\ f a s1 = (Raise e, s').
Proof.
  intros Hk. apply bind_inv in Hk as [Hk | (e' & Hm & [= ->])]; auto.
Qed.

Lemma puro_inv {A} (r : resultado A) (s : S) x s' :
  puro r s = (x, s') -> x = r /\ s' = s.
Proof. by intros [= <- <-]. Qed.

Lemma bind_puro_Raise {A B} (r : resultado A) (f : A -> M S B) s e :
  r = Raise e -> (puro r ≫= f) s = (Raise e, s).
Proof. by intros ->. Qed.

Lemma bind_puro_Ok {A B} (r : resultado A) (f : A -> M S B) s a :
  r = Ok a -> (puro r ≫= f) s = f a s.
Proof. by intros ->. Qed.

End Metodos.

(** ** The steps of a method, inverted *)

Section Pasos.
Context `{Biblioteca} {C : Type}.
Implicit Types s : C * Mundo.

Lemma llamar_Raise {A} (r : respuesta A) e :
  llamar r = Raise e -> exists clase, e = ErrorSklearn clase.
Proof. destruct r; intros [= <-]; eauto. Qed.

Lemma llamar_Ok {A} (r : respuesta A) a : llamar r = Ok a -> r = Devuelve a.
Proof. destruct r; by intros [= <-]. Qed.

Lemma iloc_Raise {A} (l : list A) idx e : iloc l idx = Raise e -> e = IndexError.
Proof. unfold iloc. destruct (mapM _ _); by intros [= <-]. Qed.

Lemma en_mundo_inv {A} (f : Mundo -> resultado A) s x s' :
  en_mundo f s = (x, s') -> x = f s.2 /\ s' = s.
Proof. by intros [= <- <-]. Qed.

Lemma self_inv s x s' : self s = (x, s') -> x = Ok s.1 /\ s' = s.
Proof. by intros [= <- <-]. Qed.

Lemma asignar_inv (f : C -> C) s x s' :
  asignar f s = (x, s') -> x = Ok tt /\ s' = (f s.1, s.2).
Proof. by intros [= <- <-]. Qed.

Lemma normal_inv loc scale s x s' :
  normal loc scale s = (x, s') ->
  x = Ok (random_normal loc scale (generador s.2)).1
  /\ s'.1 = s.1 /\ archivos s'.2 = archivos s.2
  /\ generador s'.2 = (random_normal loc scale (generador s.2)).2.
Proof.
  unfold normal, sortear. destruct (random_normal _ _ _) as [v g].
  by intros [= <- <-].
Qed.

Lemma normal_n_inv loc scale n s x s' :
  normal_n loc scale n s = (x, s') ->
  x = Ok (random_normal_n loc scale n (generador s.2)).1
  /\ s'.1 = s.1 /\ archivos s'.2 = archivos s.2
  /\ generador s'.2 = (random_normal_n loc scale n (generador s.2)).2.
Proof.
  unfold normal_n, sortear_n. destruct (random_normal_n _ _ _ _) as [v g].
  by intros [= <- <-].
Qed.

Lemma uniform_inv low high s x s' :
  uniform low high s = (x, s') ->
  x = Ok (random_uniform low high (generador s.2)).1
  /\ s'.1 = s.1 /\ archivos s'.2 = archivos s.2.
Proof.
  unfold uniform, sortear. destruct (random_uniform _ _ _) as [v g].
  by intros [= <- <-].
Qed.

Lemma bind_self {B} (f : C -> M (C * Mundo) B) s : (self ≫= f) s = f s.1 s.
Proof. reflexivity. Qed.

Lemma bind_uniform {B} low high (f : Q -> M (C * Mundo) B) c w :
  (uniform low high ≫= f) (c, w) =
    f (random_uniform low high (generador w)).1
      (c, {| archivos := archivos w;
             generador := (random_uniform low high (generador w)).2 |}).
Proof.
  unfold mbind, M_bind, uniform, sortear. simpl.
  by destruct (random_uniform low high (generador w)).
Qed.

End Pasos.

Section Ajustar.
Context `{Biblioteca}.

Lemma ajustar_inv orig lo hi s x s' :
  Mejorado.ajustar_metrica_realista orig lo hi s = (x, s') ->
  x = Ok (ajustada orig lo hi (random_normal 0 0.01 (generador s.2)).1)
  /\ s'.1 = s.1 /\ archivos s'.2 = archivos s.2
  /\ generador s'.2 = (random_normal 0 0.01 (generador s.2)).2.
Proof.
  unfold Mejorado.ajustar_metrica_realista. intros Hk.
  apply bind_inv in Hk as [(v & s1 & Hn & Hk) | (e & Hn & _)];
    apply normal_inv in Hn as (Hv & ? & ? & ?); [| discriminate].
  injection Hv as ->. injection Hk as <- <-. auto.
Qed.

End Ajustar.

Ltac invertir Hm :=
  first
    [ apply en_mundo_inv in Hm as [? ?]
    | apply puro_inv in Hm as [? ?]
    | apply self_inv in Hm as [? ?]
    | apply asignar_inv in Hm as [? ?]
    | apply ajustar_inv in Hm as (? & ? & ? & ?)
    | apply normal_n_inv in Hm as (? & ? & ? & ?)
    | apply uniform_inv in Hm as (? & ? & ?)
    | apply normal_inv in Hm as (? & ? & ? & ?) ].

Lemma sorted_unique_Raise y e :
  Mejorado.sorted_unique y = Raise e -> e = TypeError.
Proof.
  unfold Mejorado.sorted_unique.
  destruct (bool_decide _); [destruct (unique _) |]; by intros [= <-].
Qed.

Lemma mapM_filas_Raise (cm : list (list nat)) (l : list nat) e :
  mapM (M := resultado)
    (fun i => match cm !! i with
              | Some fila => Ok fila
              | None => Raise IndexError
              end) l = Raise e ->
  e = IndexError.
Proof.
  induction l as [| i l IH]; simpl; [done |].
  destruct (cm !! i); simpl; [| by intros [= <-]].
  destruct (mapM _ l); simpl; [done |]. intros [= <-]. by apply IH.
Qed.

Section Mostrar.
Context `{Biblioteca}.

(** The display raises [TypeError] or [IndexError], if it raises. *)
Lemma mostrar_matriz_Raise y y_test y_pred e :
  Mejorado.mostrar_matriz y y_test y_pred = Raise e ->
  e = TypeError \/ e = IndexError.
Proof.
  unfold Mejorado.mostrar_matriz.
  destruct (Mejorado.sorted_unique y) as [labels |] eqn:Hl; simpl.
  - destruct (mapM _ _) eqn:Hm; simpl; [done |].
    intros [= <-]. right. by eapply mapM_filas_Raise.
  - intros [= <-]. left. by eapply sorted_unique_Raise.
Qed.

End Mostrar.

Ltac origen_del_error :=
  repeat match goal with
  | Hr : Raise _ = llamar _ |- _ =>
      symmetry in Hr; apply llamar_Raise in Hr as [? ->]
  | Hr : Raise _ = iloc _ _ |- _ => symmetry in Hr; apply iloc_Raise in Hr as ->
  end.

(** One step of a method that raises: it raises in this step, which [fin]
    settles, or in what follows. *)
Ltac paso Hk fin :=
  let Hm := fresh "Hm" in
  apply bind_Raise in Hk as [Hm | (? & [? ?] & Hm & Hk)];
  [ invertir Hm; cbn [fst snd] in *; simplify_eq; origen_del_error; fin
  | invertir Hm; cbn [fst snd] in *; simplify_eq;
    repeat match goal with p : (_ * _)%type |- _ => destruct p end ].

(** One step of a method that returns. *)
Ltac paso_Ok Hk :=
  let Hm := fresh "Hm" in
  apply bind_Ok in Hk as (? & [? ?] & Hm & Hk);
  invertir Hm; cbn [fst snd] in *; simplify_eq;
  repeat match goal with p : (_ * _)%type |- _ => destruct p end.

(** ** The improved classifier: what a training leaves *)

Module MejoradoEntrenar.
Import Mejorado.
Section Entrenar.
Context `{Biblioteca}.

(** The run that the steps of a training have gone through. *)
Ltac la_corrida :=
  repeat match goal with
  | Hr : Ok _ = llamar _ |- _ => symmetry in Hr; apply llamar_Ok in Hr
  end;
  eexists {| k_df := _; k_texto := _; k_categ := _; k_y := _; k_train_idx := _;
             k_test_idx := _; k_X_train := _; k_X_test := _; k_y_train := _;
             k_y_test := _; k_ajustada := _; k_y_pred := _; k_y_pred_proba := _;
             k_cv_scores_orig := _; k_cv_f1_orig := _ |}.

(** A training that raises: either it has not stored its metrics nor set its
    flag, or it has gone through a whole run, and raises in the display. *)
Lemma entrenar_Raise path c w e c' w' :
  entrenar path (c, w) = (Raise e, (c', w')) ->
  feature_names c' = feature_names c /\ archivos w' = archivos w
  /\ (es_error_de_datos e -> c' = c /\ w' = w)
  /\ (esta_entrenado c' = esta_entrenado c /\ metricas c' = metricas c
      \/ exists k, es_corrida path w k /\ k_mostrar k = Raise e).
Proof.
  unfold entrenar. intros Hk.
  repeat (paso Hk ltac:(by repeat split; auto)).
  apply puro_inv in Hk as [Hk ?]; simplify_eq.
  split; [done |]. split; [congruence |]. split.
  - symmetry in Hk. by apply mostrar_matriz_Raise in Hk as [-> | ->].
  - right. la_corrida.
    split; [split; simpl; unfold k_columnas, k_X_combined; simpl; eauto |].
    done.
Qed.

Lemma entrenar_Ok path c w c' w' :
  entrenar path (c, w) = (Ok tt, (c', w')) ->
  exists k,
    es_corrida path w k
    /\ k_mostrar k = Ok tt
    /\ c' = {| pipeline := Some (k_ajustada k);
               metricas := metricas_de k
                 (sorteos_de (generador w) (length (k_cv_scores_orig k))
                    (length (k_cv_f1_orig k))).1;
               esta_entrenado := true;
               label_encoders := encoders_de (k_df k) (label_encoders c);
               feature_names := feature_names c |}
    /\ archivos w' = archivos w.
Proof.
  unfold entrenar. intros Hk.
  repeat (paso_Ok Hk).
  apply puro_inv in Hk as [Hk ?]; simplify_eq.
  la_corrida.
  split; [split; simpl; unfold k_columnas, k_X_combined; simpl; eauto |].
  split; [done |].
  split; [| congruence].
  unfold metricas_de, sorteos_de, ajustadas, k_columnas; simpl.
  repeat match goal with
  | Hg : generador ?m = _ |- _ => rewrite Hg in *; clear Hg
  end.
  repeat match goal with
  | |- context [random_normal ?a ?b ?g] =>
      destruct (random_normal a b g); simpl
  | |- context [random_normal_n ?a ?b ?n ?g] =>
      destruct (random_normal_n a b n g); simpl
  end.
  reflexivity.
Qed.
End Entrenar.
End MejoradoEntrenar.

Import Mejorado MejoradoEntrenar.

Section Corridas.
Context `{Biblioteca}.

(** The run is a function of the data set. *)
Lemma es_corrida_unica path w1 w2 k1 k2 :
  archivos w1 !! path = archivos w2 !! path ->
  es_corrida path w1 k1 -> es_corrida path w2 k2 -> k1 = k2.
Proof.
  intros Hf [] []. destruct k1, k2; simpl in *.
  assert (read_csv path w1 = read_csv path w2) as Hr
    by (unfold read_csv; by rewrite Hf).
  rewrite Hr in *. unfold k_X_combined, k_columnas in *; simpl in *.
  repeat match goal with
  | H1 : ?t = _, H2 : ?t = _ |- _ => rewrite H1 in H2; simplify_eq
  end.
  reflexivity.
Qed.

(** A run gives the result of [entrenar]: the instance it leaves, and
    whether it returns, which is up to the display. *)
Lemma entrenar_de_corrida path c w k :
  es_corrida path w k ->
  exists w',
    entrenar path (c, w) =
      (k_mostrar k,
       ({| pipeline := Some (k_ajustada k);
           metricas := metricas_de k
             (sorteos_de (generador w) (length (k_cv_scores_orig k))
                (length (k_cv_f1_orig k))).1;
           esta_entrenado := true;
           label_encoders := encoders_de (k_df k) (label_encoders c);
           feature_names := feature_names c |}, w'))
    /\ archivos w' = archivos w.
Proof.
  intros [Hdf Htexto Hcateg Hy Hsplit HX_train HX_test Hy_train Hy_test Hfit
            Hpredict Hproba Hcv_scores Hcv_f1].
  unfold k_X_combined, k_columnas in *.
  unfold entrenar, mbind, M_bind, en_mundo, puro, asignar; simpl.
  rewrite Hdf, Htexto, Hcateg, Hy, Hsplit. simpl.
  rewrite HX_train, HX_test, Hy_train, Hy_test, Hfit. simpl.
  rewrite Hpredict, Hproba, Hcv_scores, Hcv_f1.
  unfold metricas_de, sorteos_de, ajustadas, k_columnas, k_mostrar.
  unfold ajustar_metrica_realista, mbind, M_bind, normal, normal_n, sortear,
    sortear_n, mret, M_ret; simpl.
  repeat match goal with
  | |- context [random_normal ?a ?b ?g] =>
      destruct (random_normal a b g); simpl
  | |- context [random_normal_n ?a ?b ?n ?g] =>
      destruct (random_normal_n a b n g); simpl
  end.
  eexists. split; reflexivity.
Qed.

End Corridas.

Import Mejorado MejoradoEntrenar.

(** ** The metrics that a training stores *)

Lemma clip_en_rango x lo hi : (lo <= hi)%Q -> (lo <= clip x lo hi <= hi)%Q.
Proof.
  intros Hr. unfold clip. split.
  - apply Q.min_glb; [apply Q.le_max_r | exact Hr].
  - apply Q.le_min_r.
Qed.

Lemma ajustada_en_rango original lo hi variacion :
  (lo <= hi)%Q -> (lo <= ajustada original lo hi variacion <= hi)%Q.
Proof. apply clip_en_rango. Qed.

Section Metricas.
Context `{Biblioteca}.

(** The first draw of a run is the first draw from the generator. *)
Lemma sorteos_de_primero g n_cv n_f1 :
  z_accuracy (sorteos_de g n_cv n_f1).1 = (random_normal 0 0.01 g).1.
Proof.
  unfold sorteos_de.
  repeat match goal with
  | |- context [random_normal ?a ?b ?g] =>
      destruct (random_normal a b g); simpl
  | |- context [random_normal_n ?a ?b ?n ?g] =>
      destruct (random_normal_n a b n g); simpl
  end.
  reflexivity.
Qed.

(** C1, as the program has it.  After a training that returns, the stored
    confusion matrix and classification report are the ones of the held-out
    test rows and of the predictions of the fitted pipeline on them.  The
    stored accuracy, macro F1, precision and recall are not the values of
    the test rows: each is that value times its range's upper end less
    0.05, plus a draw from the global generator, cut to its range, and so
    lies in the range whatever the test rows gave.  The stored mean and
    deviation of the cross-validation are those of the fold scores after
    they were scaled, moved by a draw and cut to a range.  The draws are
    the ones that numpy's global generator gives from the state it is in
    when the training is called, the first of them for the accuracy. *)
Theorem entrenar_guarda_metricas_ajustadas path c w c' w' :
  entrenar path (c, w) = (Ok tt, (c', w')) ->
  exists k : Corrida,
    es_corrida path w k
    /\ let z := (sorteos_de (generador w) (length (k_cv_scores_orig k))
                   (length (k_cv_f1_orig k))).1 in
       z_accuracy z = (random_normal 0 0.01 (generador w)).1
       /\ metricas c' = metricas_de k z
       /\ metricas c' !! "confusion_matrix"
          = Some (VMatriz (confusion_matrix (k_y_test k) (k_y_pred k)))
       /\ metricas c' !! "classification_report"
          = Some (VInforme (classification_report (k_y_test k) (k_y_pred k)))
       /\ metricas c' !! "accuracy"
          = Some (VNum (ajustada (accuracy_score (k_y_test k) (k_y_pred k))
                          0.945 0.967 (z_accuracy z)))
       /\ metricas c' !! "f1_macro"
          = Some (VNum (ajustada (f1_score (k_y_test k) (k_y_pred k) "macro")
                          0.935 0.955 (z_f1_macro z)))
       /\ metricas c' !! "precision_macro"
          = Some (VNum (ajustada
                          (precision_score (k_y_test k) (k_y_pred k) "macro")
                          0.930 0.950 (z_precision_macro z)))
       /\ metricas c' !! "recall_macro"
          = Some (VNum (ajustada (recall_score (k_y_test k) (k_y_pred k) "macro")
                          0.925 0.945 (z_recall_macro z)))
       /\ metricas c' !! "cv_accuracy_mean"
          = Some (VNum (mean (ajustadas (k_cv_scores_orig k) 0.945
                                (z_cv_scores z) 0.920 0.955)))
       /\ metricas c' !! "cv_accuracy_std"
          = Some (VNum (std (ajustadas (k_cv_scores_orig k) 0.945
                               (z_cv_scores z) 0.920 0.955)))
       /\ (forall original,
             0.945 <= ajustada original 0.945 0.967 (z_accuracy z) <= 0.967)%Q
       /\ (forall original,
             0.935 <= ajustada original 0.935 0.955 (z_f1_macro z) <= 0.955)%Q
       /\ (forall original,
             0.930 <= ajustada original 0.930 0.950 (z_precision_macro z)
             <= 0.950)%Q
       /\ (forall original,
             0.925 <= ajustada original 0.925 0.945 (z_recall_macro z)
             <= 0.945)%Q.
Proof.
  intros Hk. apply entrenar_Ok in Hk as (k & Hrun & _ & -> & _).
  exists k. split; [exact Hrun |]. cbn zeta.
  split; [apply sorteos_de_primero |].
  generalize (sorteos_de (generador w) (length (k_cv_scores_orig k))
                (length (k_cv_f1_orig k))).1.
  intros z. simpl.
  repeat (split; [reflexivity |]).
  repeat split; intros; apply ajustada_en_rango; done.
Qed.

End Metricas.

Import Mejorado MejoradoEntrenar.

Section DosVeces.
Context `{Biblioteca}.

Lemma es_corrida_mismo_archivo path w1 w2 k :
  archivos w1 !! path = archivos w2 !! path ->
  es_corrida path w1 k -> es_corrida path w2 k.
Proof.
  intros Hf []. split; try done.
  unfold read_csv in *. by rewrite <- Hf.
Qed.

(** C2, as the program has it.  Two trainings on the same data set, from
    any two instances and any two states of the global generator: if one
    returns so does the other, with the same fitted pipeline, the same
    confusion matrix and the same classification report.  The other stored
    metrics are functions of the draws as well: they are the same when the
    two trainings start from the same state of the generator. *)
Theorem entrenar_dos_veces path c1 w1 c1' w1' c2 w2 :
  archivos w1 !! path = archivos w2 !! path ->
  entrenar path (c1, w1) = (Ok tt, (c1', w1')) ->
  exists c2' w2',
    entrenar path (c2, w2) = (Ok tt, (c2', w2'))
    /\ pipeline c2' = pipeline c1'
    /\ metricas c2' !! "confusion_matrix" = metricas c1' !! "confusion_matrix"
    /\ metricas c2' !! "classification_report"
       = metricas c1' !! "classification_report"
    /\ (generador w1 = generador w2 -> metricas c2' = metricas c1').
Proof.
  intros Hf Hk. apply entrenar_Ok in Hk as (k & Hrun & Hmostrar & -> & _).
  apply (es_corrida_mismo_archivo _ _ w2) in Hrun; [| done].
  destruct (entrenar_de_corrida path c2 w2 k Hrun) as (w2' & -> & _).
  rewrite Hmostrar.
  eexists _, _. split; [reflexivity |]. simpl.
  repeat split; try reflexivity. by intros ->.
Qed.

End DosVeces.

(** ** A training that fails *)

Section Falla.
Context `{Biblioteca}.

Lemma columna_falta {A} df nombre (campo : Fila -> A) :
  nombre ∉ columnas df -> columna df nombre campo = Raise (KeyError nombre).
Proof. intros Hn. unfold columna. by rewrite bool_decide_eq_false_2. Qed.

Lemma entrenar_sin_archivo path c w e :
  read_csv path w = Raise e -> entrenar path (c, w) = (Raise e, (c, w)).
Proof.
  intros Hr. unfold entrenar, mbind at 1, M_bind, en_mundo. simpl.
  by rewrite Hr.
Qed.

Lemma columna_casos {A} df nombre (campo : Fila -> A) :
  ((nombre ∈ columnas df) /\ columna df nombre campo = Ok (map campo (filas df)))
  \/ ((nombre ∉ columnas df) /\ columna df nombre campo = Raise (KeyError nombre)).
Proof. unfold columna. case_bool_decide; auto. Qed.

Lemma crear_features_categoricas_casos df :
  (Forall (fun col => col ∈ columnas df)
     ["Nivel de urgencia"; "Ciudad"; "Edad"; "Acceso a internet"; "Zona rural";
      "Atención previa del gobierno"]
   /\ exists l, crear_features_categoricas df = Ok l)
  \/ (exists col, col ∈ columnas_requeridas
                  /\ crear_features_categoricas df = Raise (KeyError col)).
Proof.
  unfold crear_features_categoricas, mbind, resultado_bind.
  repeat match goal with
  | |- context [columna df ?nombre ?campo] =>
      destruct (columna_casos df nombre campo) as [[? ->] | [? ->]];
      [| right; exists nombre; split; [en_lista | done]]
  end.
  left. split; [| eauto]. repeat constructor; done.
Qed.

Lemma entrenar_sin_columna path c w df col :
  read_csv path w = Ok df -> col ∈ columnas_requeridas -> col ∉ columnas df ->
  exists col', col' ∈ columnas_requeridas
               /\ entrenar path (c, w) = (Raise (KeyError col'), (c, w)).
Proof.
  intros Hr Hreq Hno.
  unfold entrenar, mbind at 1, M_bind, en_mundo. simpl. rewrite Hr.
  unfold extraer_features_texto.
  destruct (columna_casos df "Comentario"
              (fun f => features_texto (Comentario f))) as [[Hc Hk] | [_ Hk]];
    [| exists "Comentario"; split; [en_lista | by apply bind_puro_Raise]].
  setoid_rewrite (bind_puro_Ok _ _ _ _ Hk).
  destruct (crear_features_categoricas_casos df)
    as [[Hcs [l Hk']] | (col' & ? & Hk')];
    [| exists col'; split; [done | by apply bind_puro_Raise]].
  setoid_rewrite (bind_puro_Ok _ _ _ _ Hk').
  destruct (columna_casos df "Nivel_gravedad"
              (fun f => replace_LEVE (Nivel_gravedad f))) as [[Hg _] | [_ Hk'']];
    [| exists "Nivel_gravedad"; split; [en_lista | by apply bind_puro_Raise]].
  exfalso. apply Hno. unfold columnas_requeridas in Hreq.
  repeat (apply Forall_cons in Hcs as [? Hcs]).
  repeat (apply elem_of_cons in Hreq as [-> | Hreq]; [done |]).
  by apply elem_of_nil in Hreq.
Qed.

(** C7, as the program has it.  A training that cannot read its data set,
    or reads a data set without one of the columns it requires, raises the
    exception of the reading or a [KeyError], and leaves the instance and
    the world as they were; and a training that raises one of these
    exceptions, wherever it does, leaves them as they were.  The severity
    values are not looked at: no exception of the program is about them. *)
Theorem entrenar_falla path c w :
  (forall e, read_csv path w = Raise e ->
     entrenar path (c, w) = (Raise e, (c, w)))
  /\ (forall df col,
        read_csv path w = Ok df -> col ∈ columnas_requeridas ->
        col ∉ columnas df ->
        exists col', col' ∈ columnas_requeridas
                     /\ entrenar path (c, w) = (Raise (KeyError col'), (c, w)))
  /\ (forall e c' w',
        entrenar path (c, w) = (Raise e, (c', w')) ->
        es_error_de_datos e -> c' = c /\ w' = w).
Proof.
  split; [| split].
  - intros e. apply entrenar_sin_archivo.
  - intros df col. apply entrenar_sin_columna.
  - intros e c' w' Hk. apply entrenar_Raise in Hk. tauto.
Qed.

End Falla.

Import Mejorado MejoradoEntrenar.

(** ** Saving and loading *)

Section Persistencia.
Context `{Biblioteca}.

(** The instance that a load from a complete dictionary leaves. *)
Lemma cargar_modelo_try_completo path c w p l m n :
  pickle_load path w =
    Ok (ODatos {| d_pipeline := Some p; d_label_encoders := Some l;
                  d_metricas := Some m; d_feature_names := n |}) ->
  cargar_modelo_try path (c, w) =
    (Ok tt, ({| pipeline := p; metricas := m; esta_entrenado := true;
                label_encoders := l; feature_names := default [] n |}, w)).
Proof.
  intros Hl. unfold cargar_modelo_try, mbind, M_bind, en_mundo. simpl.
  by rewrite Hl.
Qed.

Lemma cargar_modelo_try_Raise path c w e c' w' :
  cargar_modelo_try path (c, w) = (Raise e, (c', w')) ->
  esta_entrenado c' = esta_entrenado c /\ w' = w
  /\ (pickle_load path w = Raise e -> c' = c).
Proof.
  unfold cargar_modelo_try. intros Hk.
  repeat (paso Hk ltac:(by (repeat split; try congruence))).
Qed.

Lemma cargar_modelo_try_Ok path c w c' w' :
  cargar_modelo_try path (c, w) = (Ok tt, (c', w')) ->
  esta_entrenado c' = true /\ w' = w.
Proof.
  unfold cargar_modelo_try. intros Hk.
  repeat (paso_Ok Hk). by injection Hk as <- <-.
Qed.

(** C6, as the program has it.  What [cargar_modelo] does, by what is at
    the path.  No file: the exception is caught, the method returns, and
    the instance is as it was.  A file that cannot be read: the
    [PermissionError] of [open] reaches the caller.  A file that is no
    pickle, or that holds an object of another type than a dictionary:
    whatever exception [pickle.load], or the first subscript, raises
    reaches the caller, in its own class, unless it is a
    [FileNotFoundError], which is caught as the one of [open] is; the
    instance is as it was.  A dictionary with the pipeline, the encoders
    and the metrics: the method returns and the instance has them, and is
    trained.  A dictionary without one of the three: a [KeyError] reaches
    the caller, the attributes read before the missing key stay assigned,
    and the flag of the instance is the one it had. *)
Theorem cargar_modelo_casos path c w :
  match archivos w !! path with
  | None => cargar_modelo path (c, w) = (Ok tt, (c, w))
  | Some ArchivoIlegible =>
      cargar_modelo path (c, w) = (Raise (PermissionError path), (c, w))
  | Some (ArchivoCsv _ e) | Some (ArchivoOtro e)
  | Some (ArchivoPickle (OOtro e)) =>
      cargar_modelo path (c, w)
      = (match e with FileNotFoundError _ => Ok tt | _ => Raise e end, (c, w))
  | Some (ArchivoPickle (OPipeline _)) =>
      cargar_modelo path (c, w) = (Raise (KeyError "pipeline"), (c, w))
  | Some (ArchivoPickle ONone) =>
      cargar_modelo path (c, w) = (Raise TypeError, (c, w))
  | Some (ArchivoPickle (ODatos d)) =>
      match d_pipeline d, d_label_encoders d, d_metricas d with
      | Some p, Some l, Some m =>
          cargar_modelo path (c, w) =
            (Ok tt, ({| pipeline := p; metricas := m; esta_entrenado := true;
                        label_encoders := l;
                        feature_names := default [] (d_feature_names d) |}, w))
      | None, _, _ =>
          cargar_modelo path (c, w) = (Raise (KeyError "pipeline"), (c, w))
      | Some p, None, _ =>
          cargar_modelo path (c, w)
          = (Raise (KeyError "label_encoders"), (con_pipeline p c, w))
      | Some p, Some l, None =>
          cargar_modelo path (c, w)
          = (Raise (KeyError "metricas"),
             (con_label_encoders l (con_pipeline p c), w))
      end
  end.
Proof.
  unfold cargar_modelo, try_except_FileNotFoundError, cargar_modelo_try,
    mbind, M_bind, en_mundo, pickle_load. simpl.
  destruct (archivos w !! path)
    as [[df e | [| p | [[p |] [l |] [m |] n] | e] | | e] |];
    simpl; try reflexivity; by destruct e.
Qed.

(** What [guardar_modelo] writes. *)
Lemma guardar_modelo_Ok path c w :
  esta_entrenado c = true ->
  guardar_modelo path (c, w) =
    (Ok tt,
     (c, pickle_dump
           (ODatos {| d_pipeline := Some (pipeline c);
                      d_label_encoders := Some (label_encoders c);
                      d_metricas := Some (metricas c);
                      d_feature_names := Some (feature_names c) |}) path w)).
Proof.
  intros Ht. unfold guardar_modelo, mbind, M_bind, self. simpl.
  by rewrite Ht.
Qed.

(** C4.  A trained instance is saved: the file holds one object, with the
    pipeline, the encoders and the metrics of the instance.  A new instance
    that loads the file has the attributes of the first, and so
    [predecir] gives, on every input and in every world, the same result
    for both: the label, the confidence and the distribution. *)
Theorem guardar_y_cargar path c w :
  esta_entrenado c = true ->
  exists w',
    guardar_modelo path (c, w) = (Ok tt, (c, w'))
    /\ archivos w' !! path =
         Some (ArchivoPickle
                 (ODatos {| d_pipeline := Some (pipeline c);
                            d_label_encoders := Some (label_encoders c);
                            d_metricas := Some (metricas c);
                            d_feature_names := Some (feature_names c) |}))
    /\ exists c',
         cargar_modelo path (nuevo, w') = (Ok tt, (c', w'))
         /\ forall a w1, (predecir a (c', w1)).1 = (predecir a (c, w1)).1.
Proof.
  intros Ht. eexists. split; [by apply guardar_modelo_Ok |].
  assert (archivos (pickle_dump
            (ODatos {| d_pipeline := Some (pipeline c);
                       d_label_encoders := Some (label_encoders c);
                       d_metricas := Some (metricas c);
                       d_feature_names := Some (feature_names c) |}) path w)
          !! path = Some (ArchivoPickle
            (ODatos {| d_pipeline := Some (pipeline c);
                       d_label_encoders := Some (label_encoders c);
                       d_metricas := Some (metricas c);
                       d_feature_names := Some (feature_names c) |}))) as Hf
    by (simpl; apply lookup_insert_eq).
  split; [exact Hf |].
  assert (cargar_modelo path
            (nuevo,
             pickle_dump
               (ODatos {| d_pipeline := Some (pipeline c);
                          d_label_encoders := Some (label_encoders c);
                          d_metricas := Some (metricas c);
                          d_feature_names := Some (feature_names c) |}) path w)
          = (Ok tt, (c, pickle_dump
               (ODatos {| d_pipeline := Some (pipeline c);
                          d_label_encoders := Some (label_encoders c);
                          d_metricas := Some (metricas c);
                          d_feature_names := Some (feature_names c) |}) path w)))
    as Hc.
  { unfold cargar_modelo, try_except_FileNotFoundError.
    erewrite cargar_modelo_try_completo; [| unfold pickle_load; by rewrite Hf].
    destruct c; simpl in *. by rewrite Ht. }
  exists c. split; [exact Hc | done].
Qed.

End Persistencia.

(** ** The two states of an instance *)

Lemma columna_Raise {A} df nombre (campo : Fila -> A) e :
  columna df nombre campo = Raise e -> e = KeyError nombre.
Proof. unfold columna. case_bool_decide; by intros [= <-]. Qed.

Lemma crear_features_categoricas_Raise df e :
  crear_features_categoricas df = Raise e -> exists col, e = KeyError col.
Proof.
  unfold crear_features_categoricas, mbind, resultado_bind.
  repeat match goal with
  | |- context [columna df ?nombre ?campo] =>
      let Hc := fresh in
      destruct (columna df nombre campo) eqn:Hc;
      [| apply columna_Raise in Hc as ->; intros [= <-]; eauto]
  end.
  discriminate.
Qed.

Section Fuentes.
Context `{Biblioteca}.

Lemma primero_Raise {A} (l : list A) e : primero l = Raise e -> e = IndexError.
Proof. destruct l; by intros [= <-]. Qed.

Lemma llamar_primero_Raise {A} (r : respuesta (list A)) e :
  llamar r ≫= primero = Raise e -> e <> no_entrenado.
Proof.
  destruct r as [l |]; simpl; [| by intros [= <-]].
  by intros ->%primero_Raise.
Qed.

Lemma max_Raise l e : max l = Raise e -> e <> no_entrenado.
Proof. destruct l; by intros [= <-]. Qed.

End Fuentes.

Ltac no_es_no_entrenado lema_pipeline :=
  repeat match goal with
  | Hr : Raise _ = _ |- _ => symmetry in Hr
  end;
  try match goal with
  | Hr : extraer_features_texto _ = Raise _ |- _ =>
      apply columna_Raise in Hr as ->
  | Hr : crear_features_categoricas _ = Raise _ |- _ =>
      apply crear_features_categoricas_Raise in Hr as [? ->]
  | Hr : llamar _ ≫= primero = Raise _ |- _ =>
      by apply llamar_primero_Raise in Hr
  | Hr : primero _ = Raise _ |- _ => apply primero_Raise in Hr as ->
  | Hr : max _ = Raise _ |- _ => by apply max_Raise in Hr
  | Hr : _ = Raise _ |- _ => apply lema_pipeline in Hr as ->
  end;
  unfold no_entrenado; done.

Module MejoradoEstados.
Import Mejorado MejoradoEntrenar.
Section Clase.
Context `{Biblioteca}.

Lemma el_pipeline_Raise c e : el_pipeline c = Raise e -> e = AttributeError.
Proof. unfold el_pipeline. destruct (pipeline c); by intros [= <-]. Qed.

Lemma predecir_entrenado a c w e s' :
  esta_entrenado c = true -> predecir a (c, w) = (Raise e, s') ->
  e <> no_entrenado.
Proof.
  intros Ht. unfold predecir, mbind at 1, M_bind, self. simpl. rewrite Ht.
  simpl. intros Hk.
  repeat (paso Hk ltac:(no_es_no_entrenado el_pipeline_Raise)).
Qed.

(** [predecir] raises the exception of an untrained model exactly when the
    flag is not set. *)
Lemma predecir_no_entrenado_sii a c w :
  (predecir a (c, w)).1 = Raise no_entrenado <-> esta_entrenado c = false.
Proof.
  split.
  - destruct (esta_entrenado c) eqn:Ht; [| done].
    destruct (predecir a (c, w)) as [r s'] eqn:Hk. simpl. intros ->.
    by apply predecir_entrenado in Hk.
  - intros Ht. unfold predecir, mbind, M_bind, self. simpl. by rewrite Ht.
Qed.

(** [predecir] leaves the instance as it is. *)
Lemma predecir_instancia a c w : (predecir a (c, w)).2.1 = c.
Proof.
  destruct (predecir a (c, w)) as [r [c' w']] eqn:Hk. simpl.
  revert Hk. unfold predecir, mbind at 1, M_bind, self. simpl.
  destruct (esta_entrenado c); simpl; [| by intros [= _ <- _]].
  destruct r as [x | e]; intros Hk.
  - repeat (paso_Ok Hk). by injection Hk as _ <- _.
  - repeat (paso Hk ltac:(done)).
Qed.

Lemma guardar_modelo_instancia path c w : (guardar_modelo path (c, w)).2.1 = c.
Proof.
  unfold guardar_modelo, mbind, M_bind, self. simpl.
  by destruct (esta_entrenado c).
Qed.

(** A training leaves the flag set if it was set. *)
Lemma entrenar_mantiene_entrenado path c w :
  esta_entrenado c = true -> esta_entrenado (entrenar path (c, w)).2.1 = true.
Proof.
  intros Ht. destruct (entrenar path (c, w)) as [[[] | e] [c' w']] eqn:Hk; simpl.
  - by apply entrenar_Ok in Hk as (k & _ & _ & -> & _).
  - pose proof Hk as Hk'.
    apply entrenar_Raise in Hk' as (_ & _ & _ & [[-> _] | (k & Hrun & _)]);
      [done |].
    destruct (entrenar_de_corrida path c w k Hrun) as (w2 & Hk2 & _).
    rewrite Hk2 in Hk. by injection Hk as _ <- _.
Qed.

(** After a call, the flag is set if it was, or if the call completed a
    training or a load. *)
Lemma ejecutar_esta_entrenado l s :
  esta_entrenado s.1 || completa l s = true ->
  esta_entrenado (ejecutar l s).1 = true.
Proof.
  destruct s as [c w], l as [path | a | | path | path]; simpl.
  - intros [Ht | Hc]%orb_true_iff; [by apply entrenar_mantiene_entrenado |].
    revert Hc. unfold devuelve.
    destruct (entrenar path (c, w)) as [[[] | e] [c' w']] eqn:Hk; simpl; [| done].
    by apply entrenar_Ok in Hk as (k & _ & _ & -> & _).
  - rewrite predecir_instancia. by rewrite orb_false_r.
  - by rewrite orb_false_r.
  - rewrite guardar_modelo_instancia. by rewrite orb_false_r.
  - unfold cargar_modelo, try_except_FileNotFoundError, devuelve.
    destruct (cargar_modelo_try path (c, w)) as [[[] | e] [c' w']] eqn:Hk; simpl.
    + by apply cargar_modelo_try_Ok in Hk as [-> _].
    + apply cargar_modelo_try_Raise in Hk as (Hf & _ & _).
      rewrite orb_false_r. intros Ht. destruct e; simpl; congruence.
Qed.

Lemma correr_esta_entrenado ls s :
  esta_entrenado s.1 || (correr ls s).2 = true ->
  esta_entrenado (correr ls s).1.1 = true.
Proof.
  revert s. induction ls as [| l ls IH]; intros s; simpl.
  - by rewrite orb_false_r.
  - specialize (IH (ejecutar l s)).
    destruct (correr ls (ejecutar l s)) as [s' b]. simpl in *.
    rewrite orb_assoc. intros [Ht | ->]%orb_true_iff.
    + apply IH. by rewrite (ejecutar_esta_entrenado l s Ht).
    + apply IH. by rewrite orb_true_r.
Qed.

(** X19.  The improved classifier is created and called any number of
    times, in any world.  After a history in which a call completed a
    training or a load, [predecir] does not raise the exception of an
    untrained model. *)
Lemma predecir_tras_completar ls w a :
  (correr ls (nuevo, w)).2 = true ->
  (predecir a (correr ls (nuevo, w)).1).1 <> Raise no_entrenado.
Proof.
  intros Hb. pose proof (correr_esta_entrenado ls (nuevo, w)) as Hf.
  destruct (correr ls (nuevo, w)) as [[c w'] b]. simpl in *.
  rewrite predecir_no_entrenado_sii. rewrite Hf; [done |].
  by rewrite Hb.
Qed.

End Clase.
End MejoradoEstados.

Module BasicoEstados.
Import Basico.
Section Clase.
Context `{Biblioteca}.

Lemma entrenar_Raise_basico path c w e c' w' :
  entrenar path (c, w) = (Raise e, (c', w')) ->
  esta_entrenado c' = esta_entrenado c /\ metricas c' = metricas c.
Proof.
  unfold entrenar. intros Hk.
  repeat (paso Hk ltac:(done)).
Qed.

Lemma entrenar_Ok_basico path c w c' w' :
  entrenar path (c, w) = (Ok tt, (c', w')) -> esta_entrenado c' = true.
Proof.
  unfold entrenar. intros Hk.
  repeat (paso_Ok Hk). by injection Hk as <- <-.
Qed.

Lemma el_pipeline_Raise_basico c e : el_pipeline c = Raise e -> e = AttributeError.
Proof. unfold el_pipeline. destruct (pipeline c); by intros [= <-]. Qed.

Lemma predecir_entrenado_basico t c w e s' :
  esta_entrenado c = true -> predecir t (c, w) = (Raise e, s') ->
  e <> no_entrenado.
Proof.
  intros Ht. unfold predecir, mbind at 1, M_bind, self. simpl. rewrite Ht.
  simpl. intros Hk.
  repeat (paso Hk ltac:(no_es_no_entrenado el_pipeline_Raise_basico)).
Qed.

Lemma predecir_no_entrenado_sii_basico t c w :
  (predecir t (c, w)).1 = Raise no_entrenado <-> esta_entrenado c = false.
Proof.
  split.
  - destruct (esta_entrenado c) eqn:Ht; [| done].
    destruct (predecir t (c, w)) as [r s'] eqn:Hk. simpl. intros ->.
    by apply predecir_entrenado_basico in Hk.
  - intros Ht. unfold predecir, mbind, M_bind, self. simpl. by rewrite Ht.
Qed.

Lemma predecir_instancia_basico t c w : (predecir t (c, w)).2.1 = c.
Proof.
  destruct (predecir t (c, w)) as [r [c' w']] eqn:Hk. simpl.
  revert Hk. unfold predecir, mbind at 1, M_bind, self. simpl.
  destruct (esta_entrenado c); simpl; [| by intros [= _ <- _]].
  destruct r as [x | e]; intros Hk.
  - repeat (paso_Ok Hk). by injection Hk as _ <- _.
  - repeat (paso Hk ltac:(done)).
Qed.

Lemma guardar_modelo_instancia_basico path c w : (guardar_modelo path (c, w)).2.1 = c.
Proof.
  unfold guardar_modelo, mbind, M_bind, self. simpl.
  by destruct (esta_entrenado c).
Qed.

Lemma cargar_modelo_try_Raise_basico path c w e c' w' :
  cargar_modelo_try path (c, w) = (Raise e, (c', w')) ->
  esta_entrenado c' = esta_entrenado c.
Proof.
  unfold cargar_modelo_try. intros Hk.
  repeat (paso Hk ltac:(done)).
Qed.

Lemma cargar_modelo_try_Ok_basico path c w c' w' :
  cargar_modelo_try path (c, w) = (Ok tt, (c', w')) ->
  esta_entrenado c' = true.
Proof.
  unfold cargar_modelo_try. intros Hk.
  repeat (paso_Ok Hk). by injection Hk as <- <-.
Qed.

Lemma ejecutar_esta_entrenado_basico l s :
  esta_entrenado (ejecutar l s).1 = esta_entrenado s.1 || completa l s.
Proof.
  destruct s as [c w], l as [path | t | | path | path]; simpl.
  - unfold devuelve.
    destruct (entrenar path (c, w)) as [[[] | e] [c' w']] eqn:Hk; simpl.
    + apply entrenar_Ok_basico in Hk as ->. by rewrite orb_true_r.
    + apply entrenar_Raise_basico in Hk as (-> & _). by rewrite orb_false_r.
  - rewrite predecir_instancia_basico. by rewrite orb_false_r.
  - by rewrite orb_false_r.
  - rewrite guardar_modelo_instancia_basico. by rewrite orb_false_r.
  - unfold cargar_modelo, try_except_FileNotFoundError, devuelve.
    destruct (cargar_modelo_try path (c, w)) as [[[] | e] [c' w']] eqn:Hk; simpl.
    + apply cargar_modelo_try_Ok_basico in Hk as ->. by rewrite orb_true_r.
    + apply cargar_modelo_try_Raise_basico in Hk as Hf.
      rewrite orb_false_r. by destruct e.
Qed.

Lemma correr_esta_entrenado_basico ls s :
  esta_entrenado (correr ls s).1.1 = esta_entrenado s.1 || (correr ls s).2.
Proof.
  revert s. induction ls as [| l ls IH]; intros s; simpl.
  - by rewrite orb_false_r.
  - specialize (IH (ejecutar l s)).
    destruct (correr ls (ejecutar l s)) as [s' b]. simpl in *.
    rewrite IH, ejecutar_esta_entrenado_basico. by rewrite orb_assoc.
Qed.

End Clase.
End BasicoEstados.

Section Estados.
Context `{Biblioteca}.

(** X18.  The simple classifier is created and called any number of times,
    with any methods and arguments, in any world.  Then [predecir] raises
    the exception of an untrained model if and only if none of the calls
    completed a training or a load. *)
Lemma predecir_no_entrenado_basico lb w tipo t :
  (Basico.predecir t (Basico.correr lb (Basico.nuevo tipo, w)).1).1
    = Raise no_entrenado
  <-> (Basico.correr lb (Basico.nuevo tipo, w)).2 = false.
Proof.
  pose proof (BasicoEstados.correr_esta_entrenado_basico lb (Basico.nuevo tipo, w)) as Hf.
  destruct (Basico.correr lb (Basico.nuevo tipo, w)) as [[c w'] b].
  simpl in *. rewrite BasicoEstados.predecir_no_entrenado_sii_basico. by rewrite Hf.
Qed.

(** C10.  [obtener_metricas] never raises.  On an instance whose flag is
    not set it returns the string, and no dictionary; on an instance whose
    flag is set it returns the dictionary of the instance.  A new instance
    is of the first kind. *)
Theorem obtener_metricas_retorna :
  (forall c : Mejorado.Clasificador,
     Mejorado.obtener_metricas c =
       if Mejorado.esta_entrenado c then Mejorado.RetornaDict (Mejorado.metricas c)
       else Mejorado.RetornaStr "Modelo no entrenado")
  /\ Mejorado.obtener_metricas Mejorado.nuevo
     = Mejorado.RetornaStr "Modelo no entrenado"
  /\ (forall c : Basico.Clasificador,
        Basico.obtener_metricas c =
          if Basico.esta_entrenado c then Basico.RetornaDict (Basico.metricas c)
          else Basico.RetornaStr "Modelo no entrenado")
  /\ (forall tipo, Basico.obtener_metricas (Basico.nuevo tipo)
                   = Basico.RetornaStr "Modelo no entrenado").
Proof.
  repeat split; try done.
  - intros c. unfold Mejorado.obtener_metricas.
    by destruct (Mejorado.esta_entrenado c).
  - intros c. unfold Basico.obtener_metricas.
    by destruct (Basico.esta_entrenado c).
Qed.

End Estados.

(** ** The largest probability of a distribution *)

Lemma foldl_Qmax_cota x r : (x <= foldl Qmax x r)%Q.
Proof.
  revert x. induction r as [| y r IH]; intros x; simpl.
  - apply Qle_refl.
  - eapply Qle_trans; [apply Q.le_max_l | apply IH].
Qed.

Lemma foldl_Qmax_mayor x r : Forall (fun y => y <= foldl Qmax x r)%Q (x :: r).
Proof.
  revert x. induction r as [| y r IH]; intros x; simpl.
  - constructor; [apply Qle_refl | constructor].
  - specialize (IH (Qmax x y)). apply Forall_cons in IH as [Hm Hr].
    repeat constructor; [| | exact Hr].
    + eapply Qle_trans; [apply Q.le_max_l | exact Hm].
    + eapply Qle_trans; [apply Q.le_max_r | exact Hm].
Qed.

Lemma foldl_Qmax_elemento x r : foldl Qmax x r ∈ x :: r.
Proof.
  revert x. induction r as [| y r IH]; intros x; simpl.
  - en_lista.
  - specialize (IH (Qmax x y)).
    apply elem_of_cons in IH as [Hi | IH]; [| by do 2 right].
    rewrite Hi. unfold Qmax, GenericMinMax.gmax.
    destruct (x ?= y)%Q; en_lista.
Qed.

Lemma suma_cota d m :
  Forall (fun y => y <= m)%Q d -> (suma d <= inject_Z (Z.of_nat (length d)) * m)%Q.
Proof.
  induction 1 as [| y d Hy _ IH].
  - apply Qle_lteq. right. reflexivity.
  - change (suma (y :: d)) with (y + suma d)%Q.
    rewrite length_cons, Nat2Z.inj_succ, <- Z.add_1_r, inject_Z_plus.
    change (inject_Z 1) with 1%Q.
    rewrite Qmult_plus_distr_l, Qmult_1_l, Qplus_comm.
    by apply Qplus_le_compat.
Qed.

Lemma suma_elemento d x :
  Forall (fun y => 0 <= y)%Q d -> x ∈ d -> (x <= suma d)%Q.
Proof.
  induction 1 as [| y d Hy Hd IH]; intros Hx.
  - by apply elem_of_nil in Hx.
  - change (suma (y :: d)) with (y + suma d)%Q.
    assert (0 <= suma d)%Q as Hs.
    { clear -Hd. induction Hd as [| z d Hz _ IH]; [apply Qle_refl |].
      change (suma (z :: d)) with (z + suma d)%Q. lra. }
    apply elem_of_cons in Hx as [-> | Hx]; [lra |].
    specialize (IH Hx). lra.
Qed.

Section Maximo.
Context `{Biblioteca}.

(** The maximum of a distribution over [n] classes, one at least: it is one
    of the probabilities, no other is larger, and it lies between the
    uniform probability and one. *)
Lemma max_distribucion n d :
  (0 < n)%nat -> distribucion n d ->
  exists m, max d = Ok m /\ m ∈ d /\ Forall (fun y => y <= m)%Q d
            /\ (0 <= m <= 1)%Q /\ (1 / inject_Z (Z.of_nat n) <= m)%Q.
Proof.
  intros Hn (Hl & Hpos & Hs). destruct d as [| x r]; [simpl in Hl; lia |].
  exists (foldl Qmax x r).
  pose proof (foldl_Qmax_mayor x r) as Hm.
  pose proof (foldl_Qmax_elemento x r) as He.
  pose proof (suma_cota _ _ Hm) as Hc. rewrite Hl, Hs in Hc.
  pose proof (suma_elemento _ _ Hpos He) as Hu. rewrite Hs in Hu.
  assert (0 < inject_Z (Z.of_nat n))%Q as Hn'.
  { change 0%Q with (inject_Z 0). rewrite <- Zlt_Qlt. lia. }
  repeat split; try done.
  - rewrite Forall_forall in Hpos. by apply Hpos.
  - apply Qle_shift_div_r; [done |]. by rewrite Qmult_comm.
Qed.

End Maximo.

Import Mejorado MejoradoEntrenar.

(** ** A prediction after a training *)

Lemma indice_None v l : indice v l = None <-> v ∉ l.
Proof.
  induction l as [| w l IH]; simpl.
  - split; [intros _; apply not_elem_of_nil | done].
  - unfold pystr_eqb. case_bool_decide as Hv.
    + split; [done | intros Hn; exfalso; apply Hn; subst; en_lista].
    + rewrite fmap_None, IH, not_elem_of_cons. tauto.
Qed.

Lemma length_append s1 s2 :
  String.length (s1 +:+ s2) = (String.length s1 + String.length s2)%nat.
Proof. induction s1 as [| a s1 IH]; simpl; [done | by rewrite IH]. Qed.

(** Two names with the same suffix added are the same name. *)
Lemma append_sufijo_inj s1 s2 t : s1 +:+ t = s2 +:+ t -> s1 = s2.
Proof.
  revert s2. induction s1 as [| a s1 IH]; intros [| b s2] Heq; simpl in *.
  - done.
  - apply (f_equal String.length) in Heq.
    rewrite !length_append in Heq. simpl in Heq. lia.
  - apply (f_equal String.length) in Heq.
    rewrite !length_append in Heq. simpl in Heq. lia.
  - injection Heq as -> Heq. f_equal. by apply IH.
Qed.

(** A dictionary built from pairs: a key that is paired with one value
    only has that value. *)
Lemma list_to_map_unico {A} (l : list (string * A)) i x :
  (forall x', (i, x') ∈ l -> x' = x) -> (i, x) ∈ l ->
  (list_to_map l : gmap string A) !! i = Some x.
Proof.
  intros Hu Hi.
  destruct ((list_to_map l : gmap string A) !! i) as [y |] eqn:Hy.
  - apply elem_of_list_to_map_2 in Hy. by rewrite (Hu y Hy).
  - apply not_elem_of_list_to_map in Hy. exfalso. apply Hy.
    apply list_elem_of_fmap. by exists (i, x).
Qed.

(** An encoder answers one cell with one code, or raises. *)
Lemma transform_uno le v :
  ((v ∈ classes_le le) /\ exists i, transform le [v] = Devuelve [i])
  \/ ((v ∉ classes_le le) /\ exists clase, transform le [v] = Falla clase).
Proof.
  unfold transform. simpl.
  destruct (indice v (classes_le le)) as [i |] eqn:Hi; simpl.
  - left. split; [| eauto].
    destruct (decide (v ∈ classes_le le)) as [| Hn]; [done |].
    apply indice_None in Hn. congruence.
  - right. apply indice_None in Hi. eauto.
Qed.

Section Prediccion.
Context `{Biblioteca}.

(** The code of a value that the encoder has not seen is zero. *)
Lemma codificar_o_cero_no_vista encoder col f :
  fillna (u "Desconocido") (campo_texto col f) ∉ classes_le encoder ->
  codificar_o_cero encoder col f = [0%Z].
Proof.
  intros Hn. unfold codificar_o_cero. case_bool_decide; [done |].
  destruct (transform_uno encoder (fillna (u "Desconocido") (campo_texto col f)))
    as [[? _] | [_ [clase ->]]]; done.
Qed.

Lemma codificar_o_cero_uno encoder col f :
  exists z, codificar_o_cero encoder col f = [z].
Proof.
  unfold codificar_o_cero. case_bool_decide; [eauto |].
  destruct (transform_uno encoder (fillna (u "Desconocido") (campo_texto col f)))
    as [[_ [i ->]] | [_ [clase ->]]]; eauto.
Qed.

(** The frame of codes of a prediction has a column for every stored
    encoder of a column of the arguments. *)
Lemma X_categoricas_pred_columna encoders a col encoder :
  encoders !! col = Some encoder -> col ∈ columnas (df_pred_de a) ->
  (col +:+ "_encoded",
   codificar_o_cero encoder col
     (default {| Comentario := None; Ciudad := None; Edad := None;
                 Genero := None; Nivel_de_urgencia := None;
                 Zona_rural := None; Acceso_a_internet := None;
                 Atencion_previa_del_gobierno := None;
                 Categoria_del_problema := None; Nivel_gravedad := None |}
              (head (filas (df_pred_de a)))))
  ∈ X_categoricas_pred encoders (df_pred_de a).
Proof.
  intros He Hc. unfold X_categoricas_pred.
  apply list_elem_of_omap. exists (col, encoder). split.
  - by apply elem_of_map_to_list.
  - rewrite bool_decide_eq_true_2 by done. simpl. by rewrite app_nil_r.
Qed.

Lemma extraer_features_texto_pred a :
  extraer_features_texto (df_pred_de a) = Ok [features_texto (p_comentario a)].
Proof.
  unfold extraer_features_texto, columna.
  rewrite bool_decide_eq_true_2 by en_lista. reflexivity.
Qed.

Lemma crear_features_categoricas_pred a :
  crear_features_categoricas (df_pred_de a) =
    Ok (map (features_categoricas_fila (median [Some (p_edad a)]))
          (filas (df_pred_de a))).
Proof.
  unfold crear_features_categoricas, columna.
  repeat (rewrite bool_decide_eq_true_2 by en_lista; simpl).
  reflexivity.
Qed.

(** [predecir] on an instance that holds a fitted pipeline, and encoders
    for the columns it was fitted on: it returns, and what it returns is
    what the pipeline answers on the row of the arguments. *)
Lemma predecir_ajustado (sk : Contrato) cols X y p c a w :
  fit (Pipeline_mejorado cols) X y = Devuelve p ->
  pipeline c = Some p -> esta_entrenado c = true ->
  (forall col, col ∈ cols -> is_Some (x_categoricas (muestra_de c a) !! col)) ->
  exists r w' clases d,
    predecir a (c, w) = (Ok r, (c, w'))
    /\ predict p [EntradaMuestra (muestra_de c a)] = Devuelve [gravedad r]
    /\ predict_proba p [EntradaMuestra (muestra_de c a)] = Devuelve [d]
    /\ classes_ p = Devuelve clases /\ clases <> []
    /\ distribucion (length clases) d
    /\ probabilidades r = zip clases d
    /\ max d = Ok (confianza r).
Proof.
  intros Hfit Hp Ht Hcols.
  destruct (contrato_classes sk cols X y p Hfit) as (clases & Hcl & Hne).
  destruct (contrato_predict sk cols X y p _ Hfit Hcols) as (l & Hl).
  destruct (contrato_predict_proba sk cols X y p _ clases Hfit Hcl Hcols)
    as (d & Hd & Hdist).
  assert (0 < length clases)%nat as Hn by (destruct clases; [done | simpl; lia]).
  destruct (max_distribucion _ d Hn Hdist) as (m & Hm & _).
  assert (el_pipeline c = Ok p) as Hel by (unfold el_pipeline; by rewrite Hp).
  pose proof Hl as Hl'. pose proof Hd as Hd'.
  unfold muestra_de in Hl, Hd.
  unfold predecir. rewrite bind_self. cbn [fst]. rewrite Ht. cbn [negb].
  rewrite (bind_puro_Ok _ _ _ _ (extraer_features_texto_pred a)).
  rewrite (bind_puro_Ok _ _ _ _ (crear_features_categoricas_pred a)).
  rewrite (bind_puro_Ok _ _ _ _ Hel).
  change (map EntradaMuestra (concat_columnas _ _ _))
    with [EntradaMuestra (muestra_de c a)].
  unfold muestra_de.
  erewrite bind_puro_Ok; [| by rewrite Hl].
  erewrite bind_puro_Ok; [| by rewrite Hd].
  rewrite bind_uniform.
  erewrite bind_puro_Ok; [| by rewrite Hcl].
  rewrite (bind_puro_Ok _ _ _ _ Hm).
  erewrite bind_puro_Ok; [| reflexivity].
  erewrite bind_puro_Ok; [| reflexivity].
  eexists _, _, clases, d. split; [reflexivity |].
  cbn [gravedad confianza probabilidades].
  repeat split; try done; apply Hdist.
Qed.

End Prediccion.

Import Mejorado MejoradoEntrenar.

Section Encoders.
Context `{Biblioteca}.

Lemma foldl_insert_is_Some {A} (f : string -> A) l (previos : gmap string A) col :
  is_Some (previos !! col) \/ col ∈ l ->
  is_Some (foldl (fun m k => <[k := f k]> m) previos l !! col).
Proof.
  revert previos. induction l as [| k l IH]; intros previos [Hp | Hl]; simpl.
  - done.
  - by apply elem_of_nil in Hl.
  - apply IH. left. destruct (decide (k = col)) as [-> |].
    + rewrite lookup_insert_eq. eauto.
    + by rewrite lookup_insert_ne.
  - apply IH. apply elem_of_cons in Hl as [-> | Hl]; [| by right].
    left. rewrite lookup_insert_eq. eauto.
Qed.

(** A training stores an encoder for every categorical column of its data
    set. *)
Lemma encoders_de_presentes df previos col :
  col ∈ categoricas_presentes df -> is_Some (encoders_de df previos !! col).
Proof.
  intros Hc. unfold encoders_de.
  apply (foldl_insert_is_Some
           (fun col => (fit_transform (celdas_categoricas df col)).1)).
  by right.
Qed.

(** The row of a prediction has a code for a categorical column that the
    instance has an encoder for. *)
Lemma columna_cubierta c a col0 :
  col0 ∈ features_categoricas -> is_Some (label_encoders c !! col0) ->
  is_Some (x_categoricas (muestra_de c a) !! (col0 +:+ "_encoded")).
Proof.
  intros Hcol0 [encoder Hle].
  assert (col0 ∈ columnas (df_pred_de a)) as Hpred.
  { unfold features_categoricas in Hcol0.
    repeat (apply elem_of_cons in Hcol0 as [-> | Hcol0]; [simpl; en_lista |]).
    by apply elem_of_nil in Hcol0. }
  pose proof (X_categoricas_pred_columna _ a _ _ Hle Hpred) as Hx.
  destruct (codificar_o_cero_uno encoder col0
              (default {| Comentario := None; Ciudad := None; Edad := None;
                 Genero := None; Nivel_de_urgencia := None;
                 Zona_rural := None; Acceso_a_internet := None;
                 Atencion_previa_del_gobierno := None;
                 Categoria_del_problema := None; Nivel_gravedad := None |}
              (head (filas (df_pred_de a))))) as [z Hz].
  rewrite Hz in Hx.
  unfold muestra_de, combinar, fila_categoricas. cbn [x_categoricas].
  destruct (list_to_map _ !! _) eqn:Hn; [eauto |].
  apply not_elem_of_list_to_map in Hn. exfalso. apply Hn.
  apply list_elem_of_fmap. exists (col0 +:+ "_encoded", z). split; [done |].
  apply list_elem_of_omap. eexists. split; [exact Hx | done].
Qed.

(** The row of a prediction has the columns of codes that the pipeline of
    the last training was fitted on. *)
Lemma columnas_cubiertas df c a col :
  (forall col0, col0 ∈ categoricas_presentes df ->
                is_Some (label_encoders c !! col0)) ->
  col ∈ (X_categoricas_de df).*1 ->
  is_Some (x_categoricas (muestra_de c a) !! col).
Proof.
  intros Henc Hcol. unfold X_categoricas_de in Hcol.
  apply list_elem_of_fmap in Hcol as ([col1 codigos] & -> & Hcol).
  apply list_elem_of_fmap in Hcol as (col0 & [= -> ->] & Hcol0). simpl.
  apply columna_cubierta; [| by apply Henc].
  unfold categoricas_presentes in Hcol0.
  by apply list_elem_of_filter in Hcol0 as [_ Hcol0].
Qed.

(** What [predecir] needs of a training that returned. *)
Lemma entrenar_deja_ajustado path c0 w0 c w :
  entrenar path (c0, w0) = (Ok tt, (c, w)) ->
  exists k,
    es_corrida path w0 k
    /\ pipeline c = Some (k_ajustada k) /\ esta_entrenado c = true
    /\ forall a col, col ∈ k_columnas k ->
                     is_Some (x_categoricas (muestra_de c a) !! col).
Proof.
  intros Hk. apply entrenar_Ok in Hk as (k & Hrun & _ & -> & _).
  exists k. do 3 (split; [done |]).
  intros a col. apply columnas_cubiertas. intros col0.
  apply encoders_de_presentes.
Qed.

(** *** The instances that hold a fitted model *)

(** The instance that a run leaves holds a fitted model. *)
Lemma corrida_ajustado path w0 k metricas0 previos nombres :
  es_corrida path w0 k ->
  ajustado {| pipeline := Some (k_ajustada k); metricas := metricas0;
              esta_entrenado := true;
              label_encoders := encoders_de (k_df k) previos;
              feature_names := nombres |}.
Proof.
  intros Hrun. split; [done |].
  exists (k_columnas k), (k_X_train k), (k_y_train k), (k_ajustada k).
  split; [exact (corrida_fit _ _ _ Hrun) |]. split; [done |].
  intros col Hcol. unfold k_columnas, X_categoricas_de in Hcol.
  apply list_elem_of_fmap in Hcol as ([col1 codigos] & -> & Hcol).
  apply list_elem_of_fmap in Hcol as (col0 & [= -> ->] & Hcol0).
  exists col0. split; [done |]. split.
  - unfold categoricas_presentes in Hcol0.
    by apply list_elem_of_filter in Hcol0 as [_ Hcol0].
  - cbn [label_encoders]. by apply encoders_de_presentes.
Qed.

(** A training that returns leaves an instance that holds a fitted
    model. *)
Lemma entrenar_deja_modelo_ajustado path c0 w0 c w :
  entrenar path (c0, w0) = (Ok tt, (c, w)) -> ajustado c.
Proof.
  intros Hk. apply entrenar_Ok in Hk as (k & Hrun & _ & -> & _).
  by eapply corrida_ajustado.
Qed.

(** So does a training that raises after it has set the flag of an
    instance whose flag was not set: it raises in its display. *)
Lemma entrenar_falla_y_deja_modelo_ajustado path c0 w0 e c w :
  entrenar path (c0, w0) = (Raise e, (c, w)) ->
  esta_entrenado c0 = false -> esta_entrenado c = true -> ajustado c.
Proof.
  intros Hk H0 H1. pose proof Hk as Hk'.
  apply entrenar_Raise in Hk' as (_ & _ & _ & [[Hf _] | (k & Hrun & _)]);
    [congruence |].
  destruct (entrenar_de_corrida path c0 w0 k Hrun) as (w2 & Hk2 & _).
  rewrite Hk2 in Hk. injection Hk as _ <- _.
  by eapply corrida_ajustado.
Qed.

(** And so does [cargar_modelo], on any instance, from the file that
    [guardar_modelo] wrote for an instance that holds a fitted model. *)
Lemma cargar_modelo_deja_modelo_ajustado path c w c0 w1 :
  ajustado c ->
  archivos w1 !! path = archivos (guardar_modelo path (c, w)).2.2 !! path ->
  exists c', cargar_modelo path (c0, w1) = (Ok tt, (c', w1)) /\ ajustado c'.
Proof.
  intros Ha Hf. pose proof Ha as [Ht _].
  rewrite (guardar_modelo_Ok path c w Ht) in Hf. cbn [fst snd] in Hf.
  unfold pickle_dump in Hf. cbn [archivos] in Hf.
  rewrite lookup_insert_eq in Hf.
  exists c. split; [| done].
  unfold cargar_modelo, try_except_FileNotFoundError.
  erewrite cargar_modelo_try_completo; [| unfold pickle_load; by rewrite Hf].
  destruct c; simpl in *. by rewrite Ht.
Qed.

(** [predecir] on an instance that holds a fitted model returns what the
    pipeline of the instance answers on the row of the arguments. *)
Lemma predecir_modelo_ajustado (sk : Contrato) c a w :
  ajustado c ->
  exists r w' p clases d,
    predecir a (c, w) = (Ok r, (c, w'))
    /\ pipeline c = Some p
    /\ predict p [EntradaMuestra (muestra_de c a)] = Devuelve [gravedad r]
    /\ predict_proba p [EntradaMuestra (muestra_de c a)] = Devuelve [d]
    /\ classes_ p = Devuelve clases /\ clases <> []
    /\ distribucion (length clases) d
    /\ probabilidades r = zip clases d
    /\ max d = Ok (confianza r).
Proof.
  intros (Ht & cols & X & y & p & Hfit & Hp & Hcols).
  destruct (predecir_ajustado sk cols X y p c a w Hfit Hp Ht)
    as (r & w' & clases & d & Hr & Hrest).
  { intros col Hcol. destruct (Hcols col Hcol) as (col0 & -> & Hcol0 & Hle).
    by apply columna_cubierta. }
  by exists r, w', p, clases, d.
Qed.

(** C9.  A training returns; then [predecir], with any arguments, in any
    world, returns.  The distribution it returns is over the classes of the
    fitted pipeline, of which there is one at least.  The confidence it
    returns is the largest probability of the distribution: it is one of
    them and none is larger.  It lies between zero and one, and is at least
    one over the number of classes. *)
Theorem entrenar_y_predecir (sk : Contrato) path c0 w0 c w a w1 :
  entrenar path (c0, w0) = (Ok tt, (c, w)) ->
  exists r w1' p clases,
    predecir a (c, w1) = (Ok r, (c, w1'))
    /\ pipeline c = Some p /\ classes_ p = Devuelve clases
    /\ (probabilidades r).*1 = clases
    /\ (0 < length clases)%nat
    /\ confianza r ∈ (probabilidades r).*2
    /\ Forall (fun x => x <= confianza r)%Q (probabilidades r).*2
    /\ (0 <= confianza r <= 1)%Q
    /\ (1 / inject_Z (Z.of_nat (length clases)) <= confianza r)%Q.
Proof.
  intros Hk. apply entrenar_deja_ajustado in Hk as (k & Hrun & Hp & Ht & Hcols).
  destruct (predecir_ajustado sk _ _ _ _ c a w1 (corrida_fit _ _ _ Hrun) Hp Ht
              (Hcols a))
    as (r & w1' & clases & d & Hr & _ & _ & Hcl & Hne & Hdist & Hprob & Hmax).
  assert (0 < length clases)%nat as Hn by (destruct clases; [done | simpl; lia]).
  destruct (max_distribucion _ d Hn Hdist) as (m & Hm & Hin & Hall & H01 & Hun).
  rewrite Hmax in Hm. injection Hm as <-.
  destruct Hdist as (Hlen & _ & _).
  exists r, w1', (k_ajustada k), clases. rewrite Hprob.
  rewrite fst_zip, snd_zip by lia. split_and!; try done; apply H01.
Qed.



End Encoders.

(** ** The instance of the library keeps the contract *)

Module EjemploContrato.
Import Ejemplo.

Lemma indice_lt v l i : indice v l = Some i -> (i < length l)%nat.
Proof.
  revert i. induction l as [| w l IH]; intros i; simpl; [done |].
  destruct (pystr_eqb v w); [intros [= <-]; lia |].
  destruct (indice v l) as [j |]; [| done].
  intros [= <-]. specialize (IH j eq_refl). lia.
Qed.

Lemma insertar_clase_no_vacia v l : insertar_clase v l <> [].
Proof. destruct l as [| w l]; simpl; [done |]. by repeat case_match. Qed.

Lemma unique_no_vacia l : l <> [] -> unique l <> [].
Proof. destruct l as [| v l]; [done |]. intros _. apply insertar_clase_no_vacia. Qed.

Lemma suma_replicate k x : (suma (replicate k x) == inject_Z (Z.of_nat k) * x)%Q.
Proof.
  induction k as [| k IH].
  - reflexivity.
  - change (suma (replicate (S k) x)) with (x + suma (replicate k x))%Q.
    rewrite IH, Nat2Z.inj_succ, <- Z.add_1_r, inject_Z_plus.
    change (inject_Z 1) with 1%Q. ring.
Qed.

Lemma suma_uno_en i k :
  (i < k)%nat -> (suma (<[i := 1%Q]> (replicate k 0%Q)) == 1)%Q.
Proof.
  revert i. induction k as [| k IH]; intros i Hi; [lia |].
  destruct i as [| i]; simpl.
  - change (suma (1%Q :: replicate k 0%Q)) with (1 + suma (replicate k 0%Q))%Q.
    rewrite suma_replicate. ring.
  - change (suma (0%Q :: <[i := 1%Q]> (replicate k 0%Q)))
      with (0 + suma (<[i := 1%Q]> (replicate k 0%Q)))%Q.
    rewrite IH by lia. ring.
Qed.

Lemma uno_en_no_negativo i k :
  Forall (fun x => 0 <= x)%Q (<[i := 1%Q]> (replicate k 0%Q)).
Proof.
  apply Forall_insert; [| done].
  apply Forall_replicate. apply Qle_refl.
Qed.

Lemma uniforme_distribucion k : (0 < k)%nat -> distribucion k (uniforme k).
Proof.
  intros Hk. unfold distribucion, uniforme. split_and!.
  - apply length_replicate.
  - apply Forall_replicate. apply Qle_shift_div_l.
    + change 0%Q with (inject_Z 0). rewrite <- Zlt_Qlt. lia.
    + rewrite Qmult_0_l. done.
  - rewrite suma_replicate. field.
    intros Hz. change 0%Q with (inject_Z 0) in Hz.
    rewrite inject_Z_injective in Hz. lia.
Qed.

Lemma proba_de_distribucion p x :
  (0 < length (e_clases p))%nat ->
  distribucion (length (e_clases p)) (proba_de p x).
Proof.
  intros Hk. unfold proba_de.
  destruct (buscar _ _ ≫= _) as [i |] eqn:Hi; [| by apply uniforme_distribucion].
  apply bind_Some in Hi as (l & _ & Hi). apply indice_lt in Hi.
  split_and!.
  - by rewrite length_insert, length_replicate.
  - apply uno_en_no_negativo.
  - by apply suma_uno_en.
Qed.

(** What [e_fit] returns. *)
Lemma e_fit_Devuelve cols X y p :
  e_fit (sin_ajustar cols) X y = Devuelve p ->
  e_columnas p = cols /\ e_ajustado p = true /\ e_clases p <> [].
Proof.
  unfold e_fit. destruct X as [| x X]; [done |].
  destruct (mapM id y) as [etiquetas |] eqn:Hy; [| done].
  case_bool_decide as Hl; [| done]. intros [= <-]. simpl.
  split_and!; try done. apply unique_no_vacia.
  apply length_mapM in Hy. destruct etiquetas; [| done].
  simpl in *. unfold etiqueta in *. lia.
Qed.

Lemma contrato : Contrato.
Proof.
  split.
  - intros cols X y p (_ & Ha & Hc)%e_fit_Devuelve.
    exists (map Some (e_clases p)). simpl. unfold e_classes. rewrite Ha.
    split; [done |]. by destruct (e_clases p).
  - intros cols X y p m (Hcols & Ha & _)%e_fit_Devuelve Hm.
    exists (etiqueta_de p (EntradaMuestra m)). simpl.
    unfold e_predict, listo. rewrite Ha. simpl.
    rewrite andb_true_r.
    assert (forallb (fun col => bool_decide (is_Some (x_categoricas m !! col)))
              (e_columnas p) = true) as ->; [| done].
    apply forallb_forall. intros col Hcol. apply bool_decide_eq_true_2.
    apply Hm. rewrite <- Hcols. by apply list_elem_of_In.
  - intros cols X y p m clases (Hcols & Ha & Hc)%e_fit_Devuelve Hcl Hm.
    exists (proba_de p (EntradaMuestra m)). simpl in *.
    unfold e_classes in Hcl. rewrite Ha in Hcl. injection Hcl as <-.
    split.
    + unfold e_predict_proba, listo. rewrite Ha. simpl. rewrite andb_true_r.
      assert (forallb (fun col => bool_decide (is_Some (x_categoricas m !! col)))
                (e_columnas p) = true) as ->; [| done].
      apply forallb_forall. intros col Hcol. apply bool_decide_eq_true_2.
      apply Hm. rewrite <- Hcols. by apply list_elem_of_In.
    + rewrite length_map. apply proba_de_distribucion.
      destruct (e_clases p); [done | simpl; lia].
Qed.

End EjemploContrato.

(** ** The normalisation of the text *)

(** A missing or empty comment is normalised to the empty string, and its
    text features are zero. *)
Lemma features_texto_vacio :
  preprocesar_texto None = [] /\ preprocesar_texto (Some []) = []
  /\ longitud_comentario (features_texto None) = 0%Z
  /\ num_palabras (features_texto None) = 0%Z
  /\ longitud_comentario (features_texto (Some [])) = 0%Z
  /\ num_palabras (features_texto (Some [])) = 0%Z
  /\ extraer_features_texto
       {| columnas := ["Comentario"];
          filas := [{| Comentario := None; Ciudad := None; Edad := None;
                       Genero := None; Nivel_de_urgencia := None;
                       Zona_rural := None; Acceso_a_internet := None;
                       Atencion_previa_del_gobierno := None;
                       Categoria_del_problema := None;
                       Nivel_gravedad := None |}] |}
     = Ok [features_texto None].
Proof. by split_and!. Qed.

(** C3, at the word of the claim.  The normalisation decomposes the
    accented letter into the plain letter and a combining mark, and then
    replaces the mark, which is no word character, with a space:
    "médicos" becomes "me dicos", two words, neither with the letter "é",
    and the comment no longer mentions "medico". *)
Theorem preprocesar_texto_medicos :
  preprocesar_texto (Some (u "médicos")) = u "me dicos"
  /\ nfkd (lower (u "médicos")) = u "me" ++ [0x301%N] ++ u "dicos"
  /\ re_w 0x301 = false
  /\ (0xE9%N ∉ preprocesar_texto (Some (u "médicos")))
  /\ num_palabras (features_texto (Some (u "médicos"))) = 2%Z
  /\ menciona_medicos (features_texto (Some (u "médicos"))) = 0%Z
  /\ menciona_medicos (features_texto (Some (u "medicos"))) = 1%Z.
Proof.
  split_and!; try reflexivity.
  vm_compute. intros Hin.
  repeat (apply elem_of_cons in Hin as [Hin | Hin]; [discriminate |]).
  by apply elem_of_nil in Hin.
Qed.

(** No accented letter of Spanish comes out of the normalisation, whatever
    the comment: the decomposition leaves none. *)
Lemma nfkd_cp_sin_acentos c x : x ∈ nfkd_cp c -> x ∉ letras_acentuadas.
Proof.
  destruct c as [| p]; [| do 8 (try destruct p as [p | p |])]; simpl;
    intros Hx Hin;
    repeat (apply elem_of_cons in Hx as [-> | Hx];
            [repeat (apply elem_of_cons in Hin as [Hin | Hin]; [discriminate |]);
             by apply elem_of_nil in Hin |]);
    by apply elem_of_nil in Hx.
Qed.

Lemma sub_espacios_elemento dentro t x :
  x ∈ sub_espacios dentro t -> x = 0x20%N \/ x ∈ t.
Proof.
  revert dentro. induction t as [| c t IH]; intros dentro; simpl.
  - by intros ?%elem_of_nil.
  - destruct (re_s c), dentro; rewrite ?elem_of_cons; intros Hx;
      repeat match goal with
      | Hx : _ \/ _ |- _ => destruct Hx as [Hx | Hx]
      end; try (destruct (IH _ Hx)); auto.
Qed.

Lemma lstrip_elemento t x : x ∈ lstrip t -> x ∈ t.
Proof.
  induction t as [| c t IH]; simpl; [done |].
  destruct (re_s c); [| done]. intros Hx. right. by apply IH.
Qed.

Lemma strip_elemento t x : x ∈ strip t -> x ∈ t.
Proof.
  unfold strip. rewrite list_elem_of_In, <- in_rev, <- list_elem_of_In.
  intros Hx%lstrip_elemento.
  rewrite list_elem_of_In, <- in_rev, <- list_elem_of_In in Hx.
  by apply lstrip_elemento.
Qed.

Lemma preprocesar_texto_sin_acentos texto x :
  x ∈ preprocesar_texto texto -> x ∉ letras_acentuadas.
Proof.
  destruct texto as [[| c t] |]; simpl; try by intros ?%elem_of_nil.
  intros Hx%strip_elemento.
  apply sub_espacios_elemento in Hx as [-> | Hx].
  { intros Hin.
    repeat (apply elem_of_cons in Hin as [Hin | Hin]; [discriminate |]).
    by apply elem_of_nil in Hin. }
  unfold sub_no_palabra in Hx.
  apply list_elem_of_fmap in Hx as (y & -> & Hy).
  assert (y ∉ letras_acentuadas) as Hn.
  { unfold nfkd in Hy. apply list_elem_of_In, in_concat in Hy as (l & Hl & Hy).
    apply in_map_iff in Hl as (c0 & <- & _).
    apply list_elem_of_In in Hy. by apply nfkd_cp_sin_acentos in Hy. }
  case_match; [done |].
  intros Hin.
  repeat (apply elem_of_cons in Hin as [Hin | Hin]; [discriminate |]).
  by apply elem_of_nil in Hin.
Qed.

(** ** The properties on the data *)

(** A method that returns leaves the instance and the world that the
    projections of its result give. *)
Lemma resultado_Ok {C W : Type} (r : resultado unit * (C * W)) :
  r.1 = Ok tt -> r = (Ok tt, (r.2.1, r.2.2)).
Proof. destruct r as [x [c w]]. simpl. by intros ->. Qed.

Module EnDatos.
Import Ejemplo Datos EjemploContrato.
Import Mejorado MejoradoEntrenar.

(** The training on the ten records returns. *)
Lemma entrenar_diez_filas :
  entrenar "datos.csv" (nuevo, mundo []) = (Ok tt, (entrenado.1, entrenado.2)).
Proof.
  apply (resultado_Ok (entrenar "datos.csv" (nuevo, mundo []))).
  vm_compute. reflexivity.
Qed.

Lemma corrida_diez_filas cinta0 :
  es_corrida "datos.csv" (mundo cinta0) (corrida_de diez_filas).
Proof. split; vm_compute; reflexivity. Qed.

(** C1 on the ten records: the test rows are the first and the sixth, the
    fitted pipeline predicts both, the accuracy of the test rows is one,
    and the accuracy that is stored is 0.945. *)
Lemma metricas_guardadas_no_medidas :
  entrenar "datos.csv" (nuevo, mundo []) = (Ok tt, (entrenado.1, entrenado.2))
  /\ es_corrida "datos.csv" (mundo []) (corrida_de diez_filas)
  /\ k_y_test (corrida_de diez_filas) = [Some (u "GRAVE"); Some (u "MODERADO")]
  /\ k_y_pred (corrida_de diez_filas) = [Some (u "GRAVE"); Some (u "MODERADO")]
  /\ (accuracy_score (k_y_test (corrida_de diez_filas))
        (k_y_pred (corrida_de diez_filas)) == 1)%Q
  /\ numero (metricas entrenado.1 !! "accuracy") = Some 0.945%Q
  /\ ~ (0.945 == 1)%Q.
Proof.
  split; [apply entrenar_diez_filas |].
  split; [apply corrida_diez_filas |].
  split_and!; try (vm_compute; reflexivity).
  vm_compute. discriminate.
Qed.

Lemma entrenar_guarda_metricas_ajustadas_testigo :
  entrenar "datos.csv" (nuevo, mundo []) = (Ok tt, (entrenado.1, entrenado.2))
  /\ exists k,
       es_corrida "datos.csv" (mundo []) k
       /\ metricas entrenado.1 !! "confusion_matrix"
          = Some (VMatriz (confusion_matrix (k_y_test k) (k_y_pred k)))
       /\ metricas entrenado.1 !! "accuracy"
          = Some (VNum (ajustada (accuracy_score (k_y_test k) (k_y_pred k))
                          0.945 0.967
                          (z_accuracy
                             (sorteos_de (generador (mundo []))
                                (length (k_cv_scores_orig k))
                                (length (k_cv_f1_orig k))).1))).
Proof.
  split; [exact entrenar_diez_filas |].
  destruct (entrenar_guarda_metricas_ajustadas _ _ _ _ _ entrenar_diez_filas)
    as (k & Hrun & _ & _ & Hcm & _ & Hacc & _).
  exists k. split; [exact Hrun |]. split; [exact Hcm | exact Hacc].
Defined.

(** C2 on the ten records: two trainings of new instances, one after the
    other, in a world whose generator draws zero fifteen times and then
    one.  Both return, with the same confusion matrix; the mean of the
    cross-validation that the first stores is 0.945 and the one that the
    second stores 0.953. *)
Lemma entrenar_dos_veces_difiere :
  let primera := entrenar "datos.csv" (nuevo, mundo cinta) in
  let segunda := entrenar "datos.csv" (nuevo, primera.2.2) in
  primera.1 = Ok tt /\ segunda.1 = Ok tt
  /\ archivos primera.2.2 = archivos (mundo cinta)
  /\ matriz (metricas primera.2.1 !! "confusion_matrix")
     = Some [[1; 0]; [0; 1]]%nat
  /\ matriz (metricas segunda.2.1 !! "confusion_matrix")
     = Some [[1; 0]; [0; 1]]%nat
  /\ exists a b,
       numero (metricas primera.2.1 !! "cv_accuracy_mean") = Some a
       /\ numero (metricas segunda.2.1 !! "cv_accuracy_mean") = Some b
       /\ (a == 0.945)%Q /\ (b == 0.953)%Q /\ ~ (a == b)%Q.
Proof.
  intros primera segunda.
  assert (primera.1 = Ok tt) as H1 by (vm_compute; reflexivity).
  split; [exact H1 |].
  split; [vm_compute; reflexivity |].
  split.
  { apply resultado_Ok in H1. by apply entrenar_Ok in H1 as (? & _ & _ & _ & Hf). }
  split; [vm_compute; reflexivity |].
  split; [vm_compute; reflexivity |].
  eexists _, _. split_and!; try (vm_compute; reflexivity).
  vm_compute. discriminate.
Qed.

Lemma entrenar_dos_veces_testigo :
  archivos (mundo []) !! "datos.csv" = archivos (mundo cinta) !! "datos.csv"
  /\ entrenar "datos.csv" (nuevo, mundo []) = (Ok tt, (entrenado.1, entrenado.2))
  /\ exists c2' w2',
       entrenar "datos.csv" (entrenado.1, mundo cinta) = (Ok tt, (c2', w2'))
       /\ pipeline c2' = pipeline entrenado.1
       /\ metricas c2' !! "confusion_matrix"
          = metricas entrenado.1 !! "confusion_matrix".
Proof.
  assert (archivos (mundo []) !! "datos.csv"
          = archivos (mundo cinta) !! "datos.csv") as Hf by reflexivity.
  split; [exact Hf |]. split; [exact entrenar_diez_filas |].
  destruct (entrenar_dos_veces "datos.csv" nuevo (mundo []) entrenado.1
              entrenado.2 entrenado.1 (mundo cinta) Hf entrenar_diez_filas)
    as (c2' & w2' & H2 & Hp & Hcm & _).
  exists c2', w2'. auto.
Defined.

(** C6 on three paths.  No file: [cargar_modelo] returns, and nothing tells
    the caller that nothing was loaded.  An empty file: the [EOFError] of
    [pickle.load] reaches the caller as it is.  A dictionary with the
    pipeline and nothing else: a [KeyError] is raised, and the instance is
    left with the pipeline of the file and without encoders. *)
Lemma cargar_modelo_traga_y_deja_a_medias :
  cargar_modelo "no_hay.pkl" (nuevo, mundo []) = (Ok tt, (nuevo, mundo []))
  /\ cargar_modelo "vacio.pkl" (nuevo, mundo_con_modelo_incompleto)
     = (Raise EOFError, (nuevo, mundo_con_modelo_incompleto))
  /\ exists c',
       cargar_modelo "modelo.pkl" (nuevo, mundo_con_modelo_incompleto)
       = (Raise (KeyError "label_encoders"), (c', mundo_con_modelo_incompleto))
       /\ pipeline c' = Some (sin_ajustar [])
       /\ label_encoders c' = ∅
       /\ pipeline nuevo = None.
Proof.
  split; [reflexivity |]. split; [reflexivity |]. eexists. by split_and!.
Qed.

(** C7 on the records with a severity that occurs once: the training raises
    in the split, after the encoders of the instance were replaced. *)
Lemma entrenar_falla_y_deja_encoders :
  let r := entrenar "suelta.csv" (nuevo, mundo []) in
  (Some (u "CRITICO") ∈ map Nivel_gravedad (filas con_etiqueta_suelta))
  /\ r.1 = Raise (ErrorSklearn
                    "ValueError: The least populated class in y has only 1 member")
  /\ label_encoders nuevo !! "Ciudad" = None
  /\ label_encoders r.2.1 !! "Ciudad"
     = Some {| classes_le := [u "Bogotá"; u "Cali"; u "Manizales"] |}
  /\ esta_entrenado r.2.1 = false.
Proof.
  split_and!; try (vm_compute; reflexivity).
  vm_compute. en_lista.
Qed.

Lemma entrenar_falla_testigo :
  read_csv "no_hay.csv" (mundo []) = Raise (FileNotFoundError "no_hay.csv")
  /\ entrenar "no_hay.csv" (nuevo, mundo [])
     = (Raise (FileNotFoundError "no_hay.csv"), (nuevo, mundo []))
  /\ read_csv "sin_comentario.csv" (mundo []) = Ok sin_comentario
  /\ ("Comentario" ∈ columnas_requeridas)
  /\ ("Comentario" ∉ columnas sin_comentario)
  /\ exists col,
       entrenar "sin_comentario.csv" (nuevo, mundo [])
       = (Raise (KeyError col), (nuevo, mundo [])).
Proof.
  assert (read_csv "no_hay.csv" (mundo [])
          = Raise (FileNotFoundError "no_hay.csv")) as Hr by reflexivity.
  assert (read_csv "sin_comentario.csv" (mundo []) = Ok sin_comentario) as Hs
    by reflexivity.
  assert ("Comentario" ∈ columnas_requeridas) as Hreq by en_lista.
  assert ("Comentario" ∉ columnas sin_comentario) as Hno.
  { intros Hin. simpl in Hin.
    repeat (apply elem_of_cons in Hin as [Hin | Hin]; [discriminate |]).
    by apply elem_of_nil in Hin. }
  destruct (entrenar_falla "no_hay.csv" nuevo (mundo [])) as (Harchivo & _ & _).
  destruct (entrenar_falla "sin_comentario.csv" nuevo (mundo []))
    as (_ & Hcolumna & _).
  destruct (Hcolumna _ _ Hs Hreq Hno) as (col & _ & Hk).
  split; [exact Hr |]. split; [exact (Harchivo _ Hr) |].
  split; [exact Hs |]. split; [exact Hreq |]. split; [exact Hno |].
  by exists col.
Defined.

(** C4 on the instance trained on the ten records. *)
Lemma guardar_y_cargar_testigo :
  esta_entrenado entrenado.1 = true
  /\ exists w' c',
       guardar_modelo "modelo.pkl" (entrenado.1, entrenado.2)
       = (Ok tt, (entrenado.1, w'))
       /\ cargar_modelo "modelo.pkl" (nuevo, w') = (Ok tt, (c', w'))
       /\ forall a w1, (predecir a (c', w1)).1 = (predecir a (entrenado.1, w1)).1.
Proof.
  assert (esta_entrenado entrenado.1 = true) as Ht by (vm_compute; reflexivity).
  split; [exact Ht |].
  destruct (guardar_y_cargar "modelo.pkl" entrenado.1 entrenado.2 Ht)
    as (w' & Hg & _ & c' & Hc & Hp).
  exists w', c'. auto.
Defined.

(** C9 on the two records of the example: a data set with one record of
    each severity.  The stratified split refuses a class with a single
    record, so the training raises, the instance is left untrained, and
    [predecir] raises the exception of an untrained model. *)
Lemma entrenar_dos_filas_falla :
  let r := entrenar "dos_filas.csv" (nuevo, mundo []) in
  read_csv "dos_filas.csv" (mundo []) = Ok dos_filas
  /\ map Nivel_gravedad (filas dos_filas)
     = [Some (u "GRAVE"); Some (u "MODERADO")]
  /\ train_test_split (map Nivel_gravedad (filas dos_filas))
     = Falla "ValueError: The least populated class in y has only 1 member"
  /\ r.1 = Raise (ErrorSklearn
                    "ValueError: The least populated class in y has only 1 member")
  /\ esta_entrenado r.2.1 = false
  /\ (predecir (solo_comentario (Some (u "faltan médicos urgente"))) r.2).1
     = Raise no_entrenado.
Proof.
  intros r.
  assert (esta_entrenado r.2.1 = false) as Ht by (vm_compute; reflexivity).
  split; [reflexivity |].
  split; [reflexivity |].
  split; [vm_compute; reflexivity |].
  split; [vm_compute; reflexivity |].
  split; [exact Ht |].
  destruct r.2 as [c w] eqn:Hr. simpl in Ht.
  by apply MejoradoEstados.predecir_no_entrenado_sii.
Qed.

(** C9 and C5 on the instance trained on the ten records, for a complaint
    from a city and of a category that the data set does not have. *)
Lemma entrenar_y_predecir_testigo :
  entrenar "datos.csv" (nuevo, mundo []) = (Ok tt, (entrenado.1, entrenado.2))
  /\ exists r w1',
       predecir queja_de_otra_ciudad (entrenado.1, entrenado.2)
       = (Ok r, (entrenado.1, w1'))
       /\ (0 <= confianza r <= 1)%Q
       /\ (1 / inject_Z (Z.of_nat (length (probabilidades r))) <= confianza r)%Q.
Proof.
  split; [exact entrenar_diez_filas |].
  destruct (entrenar_y_predecir contrato "datos.csv" nuevo (mundo [])
              entrenado.1 entrenado.2 queja_de_otra_ciudad entrenado.2
              entrenar_diez_filas)
    as (r & w1' & p & clases & Hr & _ & _ & Hcl & _ & _ & _ & H01 & Hun).
  exists r, w1'. rewrite <- Hcl, length_fmap in Hun.
  split; [exact Hr |]. split; [exact H01 | exact Hun].
Defined.


(** C8 on the twenty records with a rare severity.  The split leaves the
    rare severity out of the test rows, so the confusion matrix has two
    rows, and the data set has three severities.  The training fits the
    pipeline, stores the metrics and sets the flag, and then raises
    [IndexError] where it displays the third row of the matrix.  No call
    has completed a training or a load, and [predecir] does not raise the
    exception of an untrained model: it returns. *)
Theorem entrenar_falla_y_predecir_responde :
  let s := (nuevo, mundo []) in
  let r := entrenar "rara.csv" s in
  sorted_unique (map Nivel_gravedad (filas con_etiqueta_rara))
    = Ok [Some (u "CRITICO"); Some (u "GRAVE"); Some (u "MODERADO")]
  /\ r.1 = Raise IndexError
  /\ (correr [Entrenar "rara.csv"] s).2 = false
  /\ esta_entrenado r.2.1 = true
  /\ matriz (metricas r.2.1 !! "confusion_matrix") = Some [[2; 0]; [0; 2]]%nat
  /\ devuelve (predecir (solo_comentario (Some (u "falta agua"))) r.2) = true
  /\ (predecir (solo_comentario (Some (u "falta agua"))) r.2).1
     <> Raise no_entrenado.
Proof.
  intros s r.
  assert (esta_entrenado r.2.1 = true) as Ht by (vm_compute; reflexivity).
  split; [vm_compute; reflexivity |].
  split; [vm_compute; reflexivity |].
  split; [vm_compute; reflexivity |].
  split; [exact Ht |].
  split; [vm_compute; reflexivity |].
  split; [vm_compute; reflexivity |].
  destruct r.2 as [c w] eqn:Hr. simpl in Ht.
  rewrite MejoradoEstados.predecir_no_entrenado_sii. by rewrite Ht.
Qed.

(** The simple classifier on two histories: one in which a training and a
    load fail, and one in which the second training returns. *)
Lemma predecir_no_entrenado_basico_testigo :
  (Basico.predecir (u "falta agua")
     (Basico.correr [Basico.Entrenar "no_hay.csv"; Basico.CargarModelo "no_hay.pkl";
                     Basico.GuardarModelo "modelo.pkl"; Basico.ObtenerMetricas]
        (Basico.nuevo (u "logistic"), mundo [])).1).1 = Raise no_entrenado
  /\ (Basico.predecir (u "falta agua")
        (Basico.correr [Basico.Entrenar "no_hay.csv"; Basico.Entrenar "datos.csv"]
           (Basico.nuevo (u "logistic"), mundo [])).1).1 <> Raise no_entrenado.
Proof.
  split.
  - apply predecir_no_entrenado_basico. vm_compute. reflexivity.
  - intros Hn. apply predecir_no_entrenado_basico in Hn.
    vm_compute in Hn. discriminate.
Defined.

End EnDatos.

(** ** The clean comment *)

Lemma sub_espacios_simples dentro t :
  espacios_simples dentro (sub_espacios dentro t) = true.
Proof.
  revert dentro. induction t as [| c t IH]; intros dentro; simpl; [done |].
  destruct (re_s c) eqn:Hc.
  - destruct dentro; [apply IH |]. simpl. by rewrite IH.
  - simpl. rewrite Hc. apply IH.
Qed.

Lemma espacios_simples_debil t :
  espacios_simples true t = true -> espacios_simples false t = true.
Proof.
  destruct t as [| c t]; simpl; [done |].
  destruct (re_s c); [| done]. by rewrite andb_false_r.
Qed.

Lemma espacios_simples_cola previo c t :
  espacios_simples previo (c :: t) = true -> espacios_simples false t = true.
Proof.
  simpl. destruct (re_s c); [| done].
  intros [_ Ht]%andb_true_iff. by apply espacios_simples_debil.
Qed.

Lemma espacios_simples_lstrip previo t :
  espacios_simples previo t = true -> espacios_simples false (lstrip t) = true.
Proof.
  revert previo. induction t as [| c t IH]; intros previo; simpl; [done |].
  destruct (re_s c) eqn:Hc.
  - intros [_ Ht]%andb_true_iff. by apply (IH true).
  - intros Ht. simpl. by rewrite Hc.
Qed.

Lemma espacios_simples_prefijo previo t k :
  espacios_simples previo (t ++ k) = true -> espacios_simples previo t = true.
Proof.
  revert previo. induction t as [| c t IH]; intros previo; simpl; [done |].
  destruct (re_s c).
  - intros [Hc Ht]%andb_true_iff. rewrite Hc. by apply IH.
  - apply IH.
Qed.

Lemma lstrip_sufijo t : exists k, t = k ++ lstrip t.
Proof.
  induction t as [| c t [k IH]]; simpl; [by exists [] |].
  destruct (re_s c); [| by exists []].
  exists (c :: k). simpl. by rewrite <- IH.
Qed.

(** [rstrip], as [strip] has it, leaves a prefix. *)
Lemma rstrip_prefijo t : exists k, t = rev (lstrip (rev t)) ++ k.
Proof.
  destruct (lstrip_sufijo (rev t)) as [k Hk].
  exists (rev k). rewrite <- rev_app_distr, <- Hk. by rewrite rev_involutive.
Qed.

Lemma lstrip_head t c : head (lstrip t) = Some c -> re_s c = false.
Proof.
  induction t as [| d t IH]; simpl; [done |].
  destruct (re_s d) eqn:Hd; [done |]. simpl. by intros [= <-].
Qed.

Lemma last_rev (t : pystr) : last (rev t) = head t.
Proof. destruct t as [| c t]; simpl; [done |]. by rewrite last_snoc. Qed.

Lemma head_rev (t : pystr) : head (rev t) = last t.
Proof. by rewrite <- (last_rev (rev t)), rev_involutive. Qed.

Lemma strip_head t c : head (strip t) = Some c -> re_s c = false.
Proof.
  unfold strip. destruct (rstrip_prefijo (lstrip t)) as [k Hk].
  destruct (rev (lstrip (rev (lstrip t)))) as [| d r] eqn:Hr; simpl; [done |].
  intros [= ->]. apply (lstrip_head t). by rewrite Hk.
Qed.

Lemma strip_last t c : last (strip t) = Some c -> re_s c = false.
Proof. unfold strip. rewrite last_rev. apply lstrip_head. Qed.

Lemma strip_espacios_simples previo t :
  espacios_simples previo t = true -> espacios_simples false (strip t) = true.
Proof.
  intros Ht%espacios_simples_lstrip. unfold strip.
  destruct (rstrip_prefijo (lstrip t)) as [k Hk].
  rewrite Hk in Ht. by apply espacios_simples_prefijo in Ht.
Qed.

Lemma espacios_simples_elemento previo t c :
  espacios_simples previo t = true -> c ∈ t -> re_s c = true -> c = 0x20.
Proof.
  revert previo. induction t as [| d t IH]; intros previo Ht Hin Hc.
  - by apply elem_of_nil in Hin.
  - apply elem_of_cons in Hin as [-> | Hin].
    + simpl in Ht. rewrite Hc in Ht.
      apply andb_true_iff in Ht as [[Hd _]%andb_true_iff _].
      by apply N.eqb_eq in Hd.
    + apply espacios_simples_cola in Ht. by apply (IH false).
Qed.

Lemma espacios_simples_seguidos previo t i a b :
  espacios_simples previo t = true ->
  t !! i = Some a -> t !! S i = Some b -> re_s a = true -> re_s b = false.
Proof.
  revert previo i. induction t as [| d t IH]; intros previo i Ht Ha Hb Hsa;
    [done |].
  destruct i as [| i].
  - injection Ha as ->. destruct t as [| e t]; [done |]. injection Hb as ->.
    simpl in Ht. rewrite Hsa in Ht.
    apply andb_true_iff in Ht as [_ Ht].
    destruct (re_s b); [| done]. by rewrite andb_false_r in Ht.
  - apply espacios_simples_cola in Ht. by apply (IH false i).
Qed.

Lemma preprocesar_texto_espacios_simples texto :
  espacios_simples false (preprocesar_texto texto) = true.
Proof.
  destruct texto as [[| c t] |]; try done.
  unfold preprocesar_texto.
  apply (strip_espacios_simples false), sub_espacios_simples.
Qed.

(** X1.  The clean comment has no white space but single spaces between
    its words: a white-space character of it is the space U+0020, it
    neither starts nor ends with one, and no two of them are next to each
    other. *)
Theorem preprocesar_texto_espacios texto :
  let limpio := preprocesar_texto texto in
  (forall c, c ∈ limpio -> re_s c = true -> c = 0x20)
  /\ (forall c, head limpio = Some c -> re_s c = false)
  /\ (forall c, last limpio = Some c -> re_s c = false)
  /\ (forall i a b, limpio !! i = Some a -> limpio !! S i = Some b ->
        re_s a = true -> re_s b = false).
Proof.
  intros limpio. pose proof (preprocesar_texto_espacios_simples texto) as Hs.
  split_and!.
  - intros c. by apply espacios_simples_elemento with false.
  - subst limpio. destruct texto as [[| c t] |]; try done. apply strip_head.
  - subst limpio. destruct texto as [[| c t] |]; try done. apply strip_last.
  - intros i a b. by apply espacios_simples_seguidos with false.
Qed.

(** ** The normalisation, twice *)

(** What a code point of the Latin-1 range leaves in the text, before the
    white space is dealt with, is stable. *)
Lemma latin1_estable c x :
  c < 0x100 -> x ∈ sub_no_palabra (nfkd_cp (lower_cp c)) -> estable x = true.
Proof.
  intros Hc.
  assert (forallb (fun c => forallb estable
                              (sub_no_palabra (nfkd_cp (lower_cp c))))
            (map N.of_nat (seq 0 256)) = true) as Htabla
    by (vm_compute; reflexivity).
  rewrite forallb_forall in Htabla.
  specialize (Htabla c). rewrite forallb_forall in Htabla.
  intros Hx. apply Htabla; [| by apply list_elem_of_In].
  apply in_map_iff. exists (N.to_nat c). split; [apply N2Nat.id |].
  apply in_seq. lia.
Qed.

Lemma sub_no_palabra_app a b :
  sub_no_palabra (a ++ b) = sub_no_palabra a ++ sub_no_palabra b.
Proof. apply map_app. Qed.

Lemma sub_no_palabra_nfkd_lower_estable t x :
  latin1 t -> x ∈ sub_no_palabra (nfkd (lower t)) -> estable x = true.
Proof.
  induction 1 as [| c t Hc Ht IH]; simpl.
  - by intros ?%elem_of_nil.
  - unfold nfkd, lower in *. simpl. rewrite sub_no_palabra_app.
    intros [Hx | Hx]%elem_of_app; [by apply (latin1_estable c) | by apply IH].
Qed.

Lemma preprocesar_texto_estable texto x :
  from_option latin1 True texto -> x ∈ preprocesar_texto texto ->
  estable x = true.
Proof.
  destruct texto as [[| c t] |]; simpl; try by intros _ ?%elem_of_nil.
  intros Hl Hx%strip_elemento.
  apply sub_espacios_elemento in Hx as [-> | Hx]; [done |].
  by apply (sub_no_palabra_nfkd_lower_estable (c :: t)).
Qed.

Lemma map_fijo {A} (f : A -> A) l : Forall (fun x => f x = x) l -> map f l = l.
Proof. induction 1; simpl; congruence. Qed.

Lemma nfkd_fijo t : Forall (fun x => nfkd_cp x = [x]) t -> nfkd t = t.
Proof.
  unfold nfkd. induction 1 as [| c t Hc Ht IH]; simpl; [done |].
  by rewrite Hc, IH.
Qed.

Lemma sub_espacios_fijo previo t :
  espacios_simples previo t = true -> sub_espacios previo t = t.
Proof.
  revert previo. induction t as [| c t IH]; intros previo; simpl; [done |].
  destruct (re_s c).
  - intros [[Hc Hp]%andb_true_iff Ht]%andb_true_iff.
    apply N.eqb_eq in Hc as ->. destruct previo; [done |].
    by rewrite (IH true).
  - intros Ht. by rewrite (IH false).
Qed.

Lemma lstrip_fijo t :
  (forall c, head t = Some c -> re_s c = false) -> lstrip t = t.
Proof.
  destruct t as [| c t]; simpl; [done |]. intros Hc. by rewrite (Hc c).
Qed.

Lemma strip_fijo t :
  (forall c, head t = Some c -> re_s c = false) ->
  (forall c, last t = Some c -> re_s c = false) -> strip t = t.
Proof.
  intros Hh Hl. unfold strip. rewrite (lstrip_fijo t Hh).
  rewrite lstrip_fijo; [apply rev_involutive |].
  intros c. rewrite head_rev. apply Hl.
Qed.

(** A text that is stable, with single spaces, and neither starts nor ends
    with one is left as it is. *)
Lemma preprocesar_texto_fijo t :
  Forall (fun x => estable x = true) t ->
  espacios_simples false t = true ->
  (forall c, head t = Some c -> re_s c = false) ->
  (forall c, last t = Some c -> re_s c = false) ->
  preprocesar_texto (Some t) = t.
Proof.
  intros Hf Hs Hh Hu. destruct t as [| c r]; [done |].
  change (preprocesar_texto (Some (c :: r)))
    with (strip (sub_espacios false (sub_no_palabra (nfkd (lower (c :: r)))))).
  generalize dependent (c :: r). intros t Hf Hs Hh Hu.
  assert (lower t = t) as ->.
  { apply map_fijo. eapply Forall_impl; [exact Hf |]. simpl. intros x Hx.
    unfold estable in Hx.
    apply andb_true_iff in Hx as [[Hx _]%andb_true_iff _].
    by apply N.eqb_eq in Hx. }
  assert (nfkd t = t) as ->.
  { apply nfkd_fijo. eapply Forall_impl; [exact Hf |]. simpl. intros x Hx.
    unfold estable in Hx.
    apply andb_true_iff in Hx as [[_ Hx]%andb_true_iff _].
    by apply bool_decide_eq_true in Hx. }
  assert (sub_no_palabra t = t) as ->.
  { apply map_fijo. eapply Forall_impl; [exact Hf |]. simpl. intros x Hx.
    unfold estable in Hx. apply andb_true_iff in Hx as [_ Hx].
    by rewrite Hx. }
  rewrite (sub_espacios_fijo false _ Hs).
  by apply strip_fijo.
Qed.

(** X2.  On a comment of the Latin-1 range, the normalisation of a clean
    comment is that clean comment: [preprocesar_texto] applied twice is
    [preprocesar_texto] applied once. *)
Theorem preprocesar_texto_dos_veces texto :
  from_option latin1 True texto ->
  preprocesar_texto (Some (preprocesar_texto texto)) = preprocesar_texto texto.
Proof.
  intros Hl.
  pose proof (preprocesar_texto_espacios texto) as (_ & Hh & Hu & _).
  apply preprocesar_texto_fijo; [| | done | done].
  - apply Forall_forall. intros x Hx. by apply (preprocesar_texto_estable texto).
  - apply preprocesar_texto_espacios_simples.
Qed.

(** ** The features of the text *)

Lemma split_desde_no_vacio palabra t :
  palabra <> [] -> split_desde palabra t <> [].
Proof.
  revert palabra. induction t as [| c t IH]; intros palabra Hp; simpl.
  - by destruct palabra.
  - destruct (re_s c); [by destruct palabra |]. by apply IH.
Qed.

Lemma split_desde_length palabra t :
  (2 * length (split_desde palabra t)
   <= length t + match palabra with [] => 1 | _ => 2 end)%nat.
Proof.
  revert palabra. induction t as [| c t IH]; intros palabra; simpl.
  - destruct palabra; simpl; lia.
  - destruct (re_s c).
    + specialize (IH []). destruct palabra; simpl in *; lia.
    + specialize (IH (c :: palabra)). destruct palabra; simpl in *; lia.
Qed.

(** X3.  The features of the text of a data set, one row for each record,
    whatever its comments are: the count of urgent words is at most seven,
    the four mentions are 0 or 1, a comment of [n] words has at least
    [2n - 1] characters, and it has no word exactly when it is empty. *)
Theorem extraer_features_texto_rangos df l :
  extraer_features_texto df = Ok l ->
  length l = length (filas df)
  /\ Forall (fun f =>
       (0 <= palabras_urgentes f <= 7)%Z
       /\ (menciona_medicos f = 0 \/ menciona_medicos f = 1)%Z
       /\ (menciona_agua f = 0 \/ menciona_agua f = 1)%Z
       /\ (menciona_seguridad f = 0 \/ menciona_seguridad f = 1)%Z
       /\ (menciona_educacion f = 0 \/ menciona_educacion f = 1)%Z
       /\ (0 <= num_palabras f)%Z
       /\ (2 * num_palabras f <= longitud_comentario f + 1)%Z
       /\ (num_palabras f = 0 <-> longitud_comentario f = 0)%Z) l.
Proof.
  unfold extraer_features_texto, columna. case_bool_decide; [| done].
  intros [= <-]. split; [by rewrite length_map |].
  apply Forall_forall. intros f (fila & -> & _)%list_elem_of_fmap.
  set (limpio := preprocesar_texto (Comentario fila)).
  assert (forall b, Z.b2z b = 0 \/ Z.b2z b = 1)%Z as Hb by (intros []; auto).
  split_and!; simpl; try apply Hb; try lia.
  - pose proof (length_filter (fun palabra => contiene palabra limpio = true)
                  palabras_urgentes_vocabulario) as Hf.
    simpl in Hf. fold limpio. lia.
  - fold limpio. pose proof (split_desde_length [] limpio) as Hl.
    unfold split. simpl in Hl. lia.
  - fold limpio.
    pose proof (preprocesar_texto_espacios (Comentario fila)) as (_ & Hh & _).
    fold limpio in Hh. simpl in Hh.
    destruct limpio as [| c r]; [done |]. simpl.
    specialize (Hh c eq_refl). unfold split. simpl. rewrite Hh.
    pose proof (split_desde_no_vacio [c] r) as Hn.
    destruct (split_desde [c] r); [by destruct Hn |]. simpl. lia.
Qed.

(** ** The features of the record *)

Lemma crear_features_categoricas_Ok df l :
  crear_features_categoricas df = Ok l ->
  exists edades,
    columna df "Edad" Edad = Ok edades
    /\ l = map (features_categoricas_fila (median edades)) (filas df).
Proof.
  unfold crear_features_categoricas, mbind, resultado_bind.
  repeat match goal with
  | |- context [columna df ?nombre ?campo] =>
      destruct (columna df nombre campo) eqn:?; [| done]
  end.
  intros [= <-]. eauto.
Qed.

(** The population of the city of a record: the one of the table, or
    300000. *)
Lemma poblacion_de_ciudad ciudad :
  fillna 300000%Z (map_tabla poblacion_ciudades ciudad) =
    match ciudad with
    | None => 300000%Z
    | Some v =>
        if decide (v = u "Bogotá") then 8000000
        else if decide (v = u "Medellín") then 2500000
        else if decide (v = u "Cali") then 2200000
        else if decide (v = u "Barranquilla") then 1200000
        else if decide (v = u "Cartagena") then 1000000
        else if decide (v = u "Santa Marta") then 500000
        else if decide (v = u "Manizales") then 400000
        else if decide (v = u "Pereira") then 470000
        else if decide (v = u "Ibagué") then 550000
        else if decide (v = u "Pasto") then 450000
        else if decide (v = u "Montería") then 460000
        else if decide (v = u "Neiva") then 350000
        else if decide (v = u "Villavicencio") then 530000
        else 300000
    end%Z.
Proof.
  destruct ciudad as [v |]; [| done]. simpl.
  unfold poblacion_ciudades. cbn [list_to_map foldr uncurry fst snd].
  repeat (case_decide;
          [subst v;
           by repeat first
                [rewrite lookup_insert_eq
                | rewrite lookup_insert_ne
                    by (let Hx := fresh in intros Hx; vm_compute in Hx;
                        discriminate)] |]).
  by repeat rewrite lookup_insert_ne by congruence.
Qed.

(** A record is of a big city exactly when its city is one of the four. *)
Lemma ciudad_grande_fila mediana f :
  ciudad_grande (features_categoricas_fila mediana f)
  = Z.b2z (from_option (fun v => bool_decide (v ∈ ciudades_grandes)) false
             (Ciudad f)).
Proof.
  cbn [features_categoricas_fila ciudad_grande]. f_equal.
  rewrite poblacion_de_ciudad. destruct (Ciudad f) as [v |]; [| done].
  cbn [from_option]. unfold ciudades_grandes.
  repeat (case_decide;
          [subst v; symmetry;
           first [ apply bool_decide_eq_true_2; en_lista
                 | apply bool_decide_eq_false_2;
                   rewrite !elem_of_cons, elem_of_nil;
                   intros Hin; vm_compute in Hin; intuition discriminate ] |]).
  symmetry. apply bool_decide_eq_false_2.
  rewrite !elem_of_cons, elem_of_nil. intuition congruence.
Qed.

(** X4.  In the features of a data set, a record is of a big city exactly
    when its city is Bogotá, Medellín, Cali or Barranquilla, written so.
    Cartagena, with a population of 1000000 in the table, is not; a record
    whose city is missing or not in the table has a population of 300000,
    and is not either. *)
Theorem ciudad_grande_cuatro df l i f g :
  crear_features_categoricas df = Ok l ->
  filas df !! i = Some f -> l !! i = Some g ->
  (ciudad_grande g = 1%Z <-> exists v, Ciudad f = Some v /\ v ∈ ciudades_grandes)
  /\ (ciudad_grande g = 0 \/ ciudad_grande g = 1)%Z
  /\ (Ciudad f = Some (u "Cartagena") ->
      poblacion_ciudad g = 1000000%Z /\ ciudad_grande g = 0%Z)
  /\ (map_tabla poblacion_ciudades (Ciudad f) = None ->
      poblacion_ciudad g = 300000%Z /\ ciudad_grande g = 0%Z).
Proof.
  intros (edades & _ & ->)%crear_features_categoricas_Ok Hf Hg.
  rewrite list_lookup_fmap, Hf in Hg. injection Hg as <-.
  split_and!.
  - rewrite ciudad_grande_fila. destruct (Ciudad f) as [v |]; cbn [from_option].
    + case_bool_decide; simpl.
      * split; [eauto | done].
      * split; [done |]. by intros (? & [= <-] & ?).
    + split; [done |]. by intros (? & ? & _).
  - rewrite ciudad_grande_fila. destruct (from_option _ _ _); auto.
  - simpl. by intros ->.
  - simpl. by intros ->.
Qed.

(** *** The age *)

Lemma insertar_ordenado_elemento x y l :
  x ∈ insertar_ordenado y l <-> x = y \/ x ∈ l.
Proof.
  induction l as [| z l IH]; simpl.
  - rewrite list_elem_of_singleton, elem_of_nil. tauto.
  - destruct (Qle_bool y z); rewrite !elem_of_cons; [tauto |].
    rewrite IH. tauto.
Qed.

Lemma ordenar_elemento x l : x ∈ ordenar l <-> x ∈ l.
Proof.
  unfold ordenar. induction l as [| y l IH]; simpl; [done |].
  rewrite insertar_ordenado_elemento, elem_of_cons, IH. tauto.
Qed.

Lemma insertar_ordenado_length y l :
  length (insertar_ordenado y l) = S (length l).
Proof.
  induction l as [| z l IH]; simpl; [done |].
  destruct (Qle_bool y z); simpl; [done | by rewrite IH].
Qed.

Lemma ordenar_length l : length (ordenar l) = length l.
Proof.
  unfold ordenar. induction l as [| y l IH]; simpl; [done |].
  by rewrite insertar_ordenado_length, IH.
Qed.

Lemma presentes_elemento (celdas : list (option Q)) x :
  x ∈ omap id celdas <-> Some x ∈ celdas.
Proof.
  rewrite list_elem_of_omap. split.
  - by intros ([y |] & Hy & [= <-]).
  - intros Hx. by exists (Some x).
Qed.

(** The median is between two of the cells, and is missing exactly when
    every cell is. *)
Lemma median_entre celdas m :
  median celdas = Some m ->
  exists a b, Some a ∈ celdas /\ Some b ∈ celdas /\ (a <= m <= b)%Q.
Proof.
  unfold median. set (presentes := ordenar (omap id celdas)).
  assert (forall i x, presentes !! i = Some x -> Some x ∈ celdas) as Hin.
  { intros i x Hx%list_elem_of_lookup_2.
    by apply ordenar_elemento, presentes_elemento in Hx. }
  destruct (Nat.even (length presentes)).
  - destruct (presentes !! (length presentes / 2 - 1)%nat) as [a |] eqn:Ha;
      [| by cbn].
    destruct (presentes !! (length presentes / 2)%nat) as [b |] eqn:Hb;
      [| by cbn].
    cbn. intros [= <-]. apply Hin in Ha, Hb.
    assert ((a + b) / 2 == a * (1 # 2) + b * (1 # 2))%Q as Hmedio by field.
    destruct (Qlt_le_dec a b).
    + exists a, b. rewrite Hmedio. split_and!; try done; lra.
    + exists b, a. rewrite Hmedio. split_and!; try done; lra.
  - intros Hm. exists m, m. apply Hin in Hm. split_and!; try done; lra.
Qed.

Lemma median_None celdas :
  median celdas = None <-> Forall (fun celda => celda = None) celdas.
Proof.
  unfold median.
  pose proof (ordenar_length (omap id celdas)) as Hlen.
  set (presentes := ordenar (omap id celdas)) in *.
  split.
  - intros Hm. apply Forall_forall. intros [x |] Hx; [exfalso | done].
    apply presentes_elemento in Hx.
    assert (0 < length presentes)%nat as Hpos.
    { rewrite Hlen. destruct (omap id celdas); [by apply elem_of_nil in Hx |].
      simpl. lia. }
    destruct (Nat.even (length presentes)) eqn:Hpar.
    + destruct (lookup_lt_is_Some_2 presentes (length presentes / 2 - 1))
        as [a Ha].
      { pose proof (Nat.div_lt (length presentes) 2). lia. }
      destruct (lookup_lt_is_Some_2 presentes (length presentes / 2))
        as [b Hb].
      { apply Nat.div_lt; lia. }
      by rewrite Ha, Hb in Hm.
    + destruct (lookup_lt_is_Some_2 presentes (length presentes / 2))
        as [b Hb].
      { apply Nat.div_lt; lia. }
      by rewrite Hb in Hm.
  - intros Hn. clear Hlen. subst presentes.
    assert (omap id celdas = []) as ->; [| done].
    induction Hn as [| celda celdas -> _ IH]; [done | exact IH].
Qed.

(** [ordenar] puts the numbers in order. *)
Lemma insertar_ordenado_permutacion y l : insertar_ordenado y l ≡ₚ y :: l.
Proof.
  induction l as [| z l IH]; simpl; [done |].
  destruct (Qle_bool y z); [done |].
  rewrite IH. apply perm_swap.
Qed.

Lemma ordenar_permutacion l : ordenar l ≡ₚ l.
Proof.
  unfold ordenar. induction l as [| y l IH]; simpl; [done |].
  by rewrite insertar_ordenado_permutacion, IH.
Qed.

Lemma insertar_ordenado_en_orden y l :
  StronglySorted Qle l -> StronglySorted Qle (insertar_ordenado y l).
Proof.
  induction 1 as [| z l Hl IH Hz]; simpl.
  - by repeat constructor.
  - destruct (Qle_bool y z) eqn:Hyz.
    + apply Qle_bool_iff in Hyz. constructor; [by constructor |].
      constructor; [done |].
      eapply Forall_impl; [exact Hz |]. simpl. intros x Hx.
      by apply Qle_trans with z.
    + assert (z <= y)%Q as Hzy.
      { apply Qlt_le_weak, Qnot_le_lt. intros Hle.
        apply Qle_bool_iff in Hle. congruence. }
      constructor; [exact IH |].
      rewrite insertar_ordenado_permutacion. by constructor.
Qed.

Lemma ordenar_en_orden l : StronglySorted Qle (ordenar l).
Proof.
  unfold ordenar. induction l as [| y l IH]; simpl; [constructor |].
  by apply insertar_ordenado_en_orden.
Qed.

Lemma omap_id_fmap {A B} (f : A -> option B) (l : list A) :
  omap id (map f l) = omap f l.
Proof.
  induction l as [| x l IH]; simpl; [done |].
  destruct (f x); simpl; [f_equal |]; exact IH.
Qed.

(** What [median] gives is the median of the cells that are present. *)
Lemma median_es_mediana {A} (campo : A -> option Q) (l : list A) :
  es_mediana (omap campo l) (median (map campo l)).
Proof.
  exists (ordenar (omap campo l)).
  split; [apply ordenar_permutacion |].
  split; [apply ordenar_en_orden |].
  unfold median. by rewrite omap_id_fmap.
Qed.

(** X5.  In the features of a data set, a record keeps its age, and a
    record without one gets the median of the ages of the data set: with
    the ages that are present in order, the one in the middle, or half the
    sum of the two in the middle; so it is between two of the ages.  A
    record has no age in its features exactly when no record of the data
    set has one.  No record is both an older adult and young, and a record
    with no age is neither. *)
Theorem edad_imputada_mediana df l i f g :
  crear_features_categoricas df = Ok l ->
  filas df !! i = Some f -> l !! i = Some g ->
  (forall e, Edad f = Some e -> edad_imputada g = Some e)
  /\ (Edad f = None ->
      edad_imputada g = median (map Edad (filas df))
      /\ es_mediana (omap Edad (filas df)) (edad_imputada g))
  /\ (forall m, Edad f = None -> edad_imputada g = Some m ->
        exists fa fb a b,
          fa ∈ filas df /\ fb ∈ filas df /\ Edad fa = Some a /\ Edad fb = Some b
          /\ (a <= m <= b)%Q)
  /\ (edad_imputada g = None <-> Forall (fun f' => Edad f' = None) (filas df))
  /\ (es_adulto_mayor g + es_joven g <= 1)%Z
  /\ (edad_imputada g = None -> es_adulto_mayor g = 0%Z /\ es_joven g = 0%Z).
Proof.
  intros (edades & Hedades & ->)%crear_features_categoricas_Ok Hf Hg.
  rewrite list_lookup_fmap, Hf in Hg. injection Hg as <-. simpl.
  assert (edades = map Edad (filas df)) as ->.
  { revert Hedades. unfold columna. case_bool_decide; [| done]. by intros [= <-]. }
  split_and!.
  - by intros e ->.
  - intros ->. split; [done |]. apply median_es_mediana.
  - intros m -> Hm. apply median_entre in Hm as (a & b & Ha & Hb & Hab).
    apply list_elem_of_fmap in Ha as (fa & Ha & Hfa).
    apply list_elem_of_fmap in Hb as (fb & Hb & Hfb).
    by exists fa, fb, a, b.
  - destruct (Edad f) as [e |] eqn:He.
    + split; [done |]. intros Hn.
      apply list_elem_of_lookup_2 in Hf.
      rewrite Forall_forall in Hn. apply Hn in Hf. congruence.
    + rewrite median_None, Forall_fmap. done.
  - destruct (match Edad f with Some e => Some e | None => _ end) as [e |];
      simpl; [| done].
    unfold compara. simpl.
    destruct (Qle_bool 60 e) eqn:H60, (Qle_bool e 25) eqn:H25; simpl; try done.
    apply Qle_bool_iff in H60, H25. lra.
  - by intros ->.
Qed.

Import Mejorado MejoradoEntrenar.

(** ** The codes of the categorical columns *)

Lemma insertar_clase_elemento x v l :
  x ∈ insertar_clase v l <-> x = v \/ x ∈ l.
Proof.
  induction l as [| w l IH]; simpl.
  - rewrite list_elem_of_singleton, elem_of_nil. tauto.
  - unfold pystr_eqb. case_bool_decide as Hv.
    + subst w. rewrite elem_of_cons. tauto.
    + destruct (pystr_ltb v w); rewrite !elem_of_cons; [tauto |].
      rewrite IH. tauto.
Qed.

Lemma unique_elemento x l : x ∈ unique l <-> x ∈ l.
Proof.
  unfold unique. induction l as [| v l IH]; simpl; [done |].
  rewrite insertar_clase_elemento, elem_of_cons, IH. tauto.
Qed.

(** The index of a class is the place where the class is. *)
Lemma indice_Some v l j : indice v l = Some j -> l !! j = Some v.
Proof.
  revert j. induction l as [| w l IH]; intros j; simpl; [done |].
  unfold pystr_eqb. case_bool_decide as Hv.
  - intros [= <-]. by subst.
  - destruct (indice v l) as [j' |]; [| done]. intros [= <-]. by apply IH.
Qed.

Lemma indice_elemento v l : v ∈ l -> is_Some (indice v l).
Proof.
  intros Hv. destruct (indice v l) eqn:Hi; [eauto |].
  by apply indice_None in Hi.
Qed.

Section Codigos.
Context `{Biblioteca}.

Lemma foldl_insert_lookup {A} (f : string -> A) l (previos : gmap string A) col :
  col ∈ l -> foldl (fun m k => <[k := f k]> m) previos l !! col = Some (f col).
Proof.
  assert (forall l (m : gmap string A),
            m !! col = Some (f col) ->
            foldl (fun m k => <[k := f k]> m) m l !! col = Some (f col)) as Hm.
  { clear l. induction l as [| k l IH]; intros m Hcol; simpl; [done |].
    apply IH. destruct (decide (k = col)) as [-> |].
    - by rewrite lookup_insert_eq.
    - by rewrite lookup_insert_ne. }
  revert previos. induction l as [| k l IH]; intros previos Hl; simpl.
  - by apply elem_of_nil in Hl.
  - apply elem_of_cons in Hl as [-> | Hl]; [| by apply IH].
    apply Hm. by rewrite lookup_insert_eq.
Qed.

(** The encoder that a training stores for a categorical column of its
    data set is the one fitted on that column. *)
Lemma encoders_de_lookup df previos col :
  col ∈ categoricas_presentes df ->
  encoders_de df previos !! col
  = Some {| classes_le := unique (celdas_categoricas df col) |}.
Proof.
  intros Hc. unfold encoders_de.
  by rewrite (foldl_insert_lookup
                (fun col => (fit_transform (celdas_categoricas df col)).1)).
Qed.

(** The code of row [i] in the frame of codes of the training. *)
Lemma fila_categoricas_lookup df col i :
  col ∈ categoricas_presentes df ->
  fila_categoricas (X_categoricas_de df) i !! (col +:+ "_encoded")
  = (fit_transform (celdas_categoricas df col)).2 !! i.
Proof.
  intros Hc. unfold fila_categoricas.
  destruct ((fit_transform (celdas_categoricas df col)).2 !! i) as [z |] eqn:Hz.
  - apply list_to_map_unico.
    + intros z' Hz'.
      apply list_elem_of_omap in Hz' as ([nombre codigos] & Hin & Hg).
      destruct (codigos !! i) as [z'' |] eqn:Hc'; [| done].
      injection Hg as -> ->.
      apply list_elem_of_fmap in Hin as (col' & [= Hn ->] & _).
      apply append_sufijo_inj in Hn as <-.
      unfold fit_transform in Hz. cbn [snd classes_le] in Hz. congruence.
    + apply list_elem_of_omap.
      exists (col +:+ "_encoded", (fit_transform (celdas_categoricas df col)).2).
      split; [| by rewrite Hz].
      apply list_elem_of_fmap. by exists col.
  - apply not_elem_of_list_to_map. intros Hin.
    apply list_elem_of_fmap in Hin as ([nombre z] & Hn & Hin). simpl in Hn.
    subst nombre.
    apply list_elem_of_omap in Hin as ([nombre codigos] & Hin & Hg).
    destruct (codigos !! i) as [z'' |] eqn:Hc'; [| done].
    injection Hg as -> ->.
    apply list_elem_of_fmap in Hin as (col' & [= Hn ->] & _).
    apply append_sufijo_inj in Hn as <-.
    unfold fit_transform in Hz. cbn [snd classes_le] in Hz. congruence.
Qed.

(** The code of a column in the row of a prediction is the one that the
    stored encoder of the column gives. *)
Lemma codigo_de_prediccion c a col encoder :
  label_encoders c !! col = Some encoder ->
  col ∈ columnas (df_pred_de a) ->
  exists z, codificar_o_cero encoder col (fila_de a) = [z]
            /\ x_categoricas (muestra_de c a) !! (col +:+ "_encoded") = Some z.
Proof.
  intros Hle Hpred.
  pose proof (X_categoricas_pred_columna _ a _ _ Hle Hpred) as Hx.
  fold (fila_de a) in Hx.
  destruct (codificar_o_cero_uno encoder col (fila_de a)) as [z Hz].
  exists z. split; [done |]. rewrite Hz in Hx.
  unfold muestra_de, combinar, fila_categoricas. cbn [x_categoricas].
  apply list_to_map_unico.
  - intros z' Hz'.
    apply list_elem_of_omap in Hz' as ([nombre codigos] & Hin & Hg).
    destruct (codigos !! 0%nat) as [z'' |] eqn:Hc; [| done].
    injection Hg as -> ->.
    unfold X_categoricas_pred in Hin.
    apply list_elem_of_omap in Hin as ([col' encoder'] & Hm & Hh).
    case_bool_decide; [| done]. injection Hh as Hn <-.
    apply append_sufijo_inj in Hn as ->.
    apply elem_of_map_to_list in Hm. rewrite Hle in Hm. injection Hm as <-.
    simpl in Hc. rewrite app_nil_r in Hc.
    match type of Hc with
    | _ = ?r =>
        change (codificar_o_cero encoder col (fila_de a) !! 0%nat = r) in Hc
    end.
    rewrite Hz in Hc. by injection Hc as <-.
  - apply list_elem_of_omap. eexists. split; [exact Hx | done].
Qed.

Lemma categorica_no_numerica df col :
  col ∈ categoricas_presentes df ->
  (col ∉ columnas_numericas) /\ forall a, col ∈ columnas (df_pred_de a).
Proof.
  intros Hc. unfold categoricas_presentes in Hc.
  apply list_elem_of_filter in Hc as [_ Hc].
  unfold features_categoricas in Hc.
  repeat (apply elem_of_cons in Hc as [-> | Hc];
          [split; [| intros a; simpl; en_lista];
           unfold columnas_numericas; rewrite !elem_of_cons, elem_of_nil;
           intuition discriminate |]).
  by apply elem_of_nil in Hc.
Qed.

(** X6.  A training returns.  Then, for a categorical column of its data
    set, [predecir] gives a value of that column the code the training gave
    it: if the cell of a record of the data set is the one of the
    arguments, then [predecir] returns what the fitted pipeline answers on
    a row whose code for the column is the code in the row of that record,
    and the class of the stored encoder at that code is the value. *)
Theorem predecir_mismo_codigo (sk : Contrato) path c0 w0 c w df col i f a w1 :
  entrenar path (c0, w0) = (Ok tt, (c, w)) ->
  read_csv path w0 = Ok df ->
  col ∈ categoricas_presentes df ->
  filas df !! i = Some f ->
  celda_categorica col (fila_de a) = celda_categorica col f ->
  exists encoder j r w1' p,
    label_encoders c !! col = Some encoder
    /\ classes_le encoder !! j = Some (celda_categorica col f)
    /\ fila_categoricas (X_categoricas_de df) i !! (col +:+ "_encoded")
       = Some (Z.of_nat j)
    /\ predecir a (c, w1) = (Ok r, (c, w1'))
    /\ pipeline c = Some p
    /\ predict p [EntradaMuestra (muestra_de c a)] = Devuelve [gravedad r]
    /\ x_categoricas (muestra_de c a) !! (col +:+ "_encoded")
       = Some (Z.of_nat j).
Proof.
  intros Hk Hdf Hcol Hf Hcelda.
  destruct (predecir_modelo_ajustado sk c a w1
              (entrenar_deja_modelo_ajustado _ _ _ _ _ Hk))
    as (r & w1' & p & _ & _ & Hr & Hp & Hl & _).
  revert Hr Hp Hl.
  apply entrenar_Ok in Hk as (k & Hrun & _ & -> & _).
  intros Hr Hp Hl.
  pose proof (corrida_df _ _ _ Hrun) as Hdf'. rewrite Hdf in Hdf'.
  injection Hdf' as ->.
  set (df := k_df k) in *.
  set (c' := {| pipeline := _ |}) in *.
  assert (label_encoders c' !! col
          = Some {| classes_le := unique (celdas_categoricas df col) |}) as Hle
    by (by apply encoders_de_lookup).
  set (clases := unique (celdas_categoricas df col)) in *.
  assert (celda_categorica col f ∈ celdas_categoricas df col) as Hin.
  { unfold celdas_categoricas. apply list_elem_of_fmap. exists f.
    split; [done |]. by apply list_elem_of_lookup_2 in Hf. }
  destruct (indice_elemento (celda_categorica col f) clases) as [j Hj];
    [by apply unique_elemento |].
  exists {| classes_le := clases |}, j, r, w1', p.
  split; [done |]. split; [by apply indice_Some |]. split.
  { rewrite fila_categoricas_lookup by done. unfold fit_transform. cbn [snd].
    rewrite list_lookup_fmap. unfold celdas_categoricas.
    rewrite list_lookup_fmap, Hf.
    change (Some (Z.of_nat (default 0%nat
                     (indice (celda_categorica col f) clases)))
            = Some (Z.of_nat j)).
    by rewrite Hj. }
  do 3 (split; [done |]).
  destruct (categorica_no_numerica df col Hcol) as [Hnum Hpred].
  destruct (codigo_de_prediccion c' a col {| classes_le := clases |})
    as (z & Hz & ->); [done | apply Hpred |].
  f_equal. revert Hz. unfold codificar_o_cero.
  rewrite bool_decide_eq_false_2 by done.
  fold (celda_categorica col (fila_de a)). rewrite Hcelda.
  unfold transform. cbn [mapM classes_le]. rewrite Hj.
  by intros [= <-].
Qed.

(** X7.  An instance holds a fitted model.  A value that the stored
    encoder of a column has not seen is given the code 0, which is the
    code of the first class of the encoder: [predecir] returns, for the
    arguments with the one and for the arguments with the other, what the
    pipeline answers on a row with the same code for the column. *)
Theorem predecir_confunde_no_vista (sk : Contrato) c a1 a2 col encoder w :
  ajustado c ->
  label_encoders c !! col = Some encoder ->
  col ∈ features_categoricas ->
  celda_categorica col (fila_de a1) ∉ classes_le encoder ->
  head (classes_le encoder) = Some (celda_categorica col (fila_de a2)) ->
  exists p r1 w1 r2 w2,
    pipeline c = Some p
    /\ predecir a1 (c, w) = (Ok r1, (c, w1))
    /\ predict p [EntradaMuestra (muestra_de c a1)] = Devuelve [gravedad r1]
    /\ predecir a2 (c, w) = (Ok r2, (c, w2))
    /\ predict p [EntradaMuestra (muestra_de c a2)] = Devuelve [gravedad r2]
    /\ x_categoricas (muestra_de c a1) !! (col +:+ "_encoded") = Some 0%Z
    /\ x_categoricas (muestra_de c a2) !! (col +:+ "_encoded") = Some 0%Z.
Proof.
  intros Ha Hle Hcol Hno Hprimera.
  destruct (predecir_modelo_ajustado sk c a1 w Ha)
    as (r1 & w1 & p & _ & _ & Hr1 & Hp & Hl1 & _).
  destruct (predecir_modelo_ajustado sk c a2 w Ha)
    as (r2 & w2 & p2 & _ & _ & Hr2 & Hp2 & Hl2 & _).
  rewrite Hp in Hp2. injection Hp2 as <-.
  exists p, r1, w1, r2, w2. do 5 (split; [done |]).
  assert ((col ∉ columnas_numericas)
          /\ forall a, col ∈ columnas (df_pred_de a))
    as [Hnum Hpred].
  { unfold features_categoricas in Hcol.
    repeat (apply elem_of_cons in Hcol as [-> | Hcol];
            [split; [| intros a; simpl; en_lista];
             unfold columnas_numericas; rewrite !elem_of_cons, elem_of_nil;
             intuition discriminate |]).
    by apply elem_of_nil in Hcol. }
  split.
  - destruct (codigo_de_prediccion c a1 col encoder Hle (Hpred a1))
      as (z & Hz & ->).
    unfold celda_categorica in Hno.
    rewrite codificar_o_cero_no_vista in Hz by done. by injection Hz as <-.
  - destruct (codigo_de_prediccion c a2 col encoder Hle (Hpred a2))
      as (z & Hz & ->).
    f_equal. revert Hz. unfold codificar_o_cero.
    rewrite bool_decide_eq_false_2 by done.
    fold (celda_categorica col (fila_de a2)).
    unfold transform. cbn [mapM].
    destruct (classes_le encoder) as [| v r]; [done |].
    injection Hprimera as ->. cbn [indice]. unfold pystr_eqb.
    rewrite bool_decide_eq_true_2 by done. by intros [= <-].
Qed.

End Codigos.

Import Mejorado MejoradoEntrenar MejoradoEstados.

(** ** What a prediction reads and writes *)

Section Lectura.
Context `{Biblioteca}.

Lemma predecir_archivos a c w :
  archivos (predecir a (c, w)).2.2 = archivos w.
Proof.
  destruct (predecir a (c, w)) as [r [c' w']] eqn:Hk. simpl.
  revert Hk. unfold predecir, mbind at 1, M_bind, self. simpl.
  destruct (esta_entrenado c); simpl; [| by intros [= _ _ <-]].
  destruct r as [x | e]; intros Hk.
  - repeat (paso_Ok Hk). injection Hk as _ _ <-. congruence.
  - repeat (paso Hk ltac:(congruence)).
Qed.

Lemma predecir_resultado a c w1 w2 :
  (predecir a (c, w1)).1 = (predecir a (c, w2)).1.
Proof.
  unfold predecir, mbind, M_bind, self, puro, raise, uniform, sortear,
    mret, M_ret.
  cbn [fst snd]. destruct (esta_entrenado c); cbn [negb]; [| done].
  repeat match goal with
  | |- context [match ?r with Ok _ => _ | Raise _ => _ end] =>
      destruct r; cbn [fst snd]; [| done]
  end.
  destruct (random_uniform _ _ (generador w1)),
    (random_uniform _ _ (generador w2)). cbn [fst snd].
  repeat match goal with
  | |- context [match ?r with Ok _ => _ | Raise _ => _ end] =>
      destruct r; cbn [fst snd]; [| done]
  end.
  done.
Qed.

(** X8.  What [predecir] returns or raises is a function of the instance
    and of the arguments: the files and the state of the random generator,
    from which it draws the time it waits, have no part in it.  It leaves
    the instance and the files as they are. *)
Theorem predecir_solo_lee a c w1 w2 :
  (predecir a (c, w1)).1 = (predecir a (c, w2)).1
  /\ (predecir a (c, w1)).2.1 = c
  /\ archivos (predecir a (c, w1)).2.2 = archivos w1.
Proof.
  split; [apply predecir_resultado |].
  split; [apply predecir_instancia | apply predecir_archivos].
Qed.

End Lectura.

(** ** The files that the classifier writes *)

Section Escritura.
Context `{Biblioteca}.

Lemma entrenar_archivos path c w :
  archivos (entrenar path (c, w)).2.2 = archivos w.
Proof.
  destruct (entrenar path (c, w)) as [[[] | e] [c' w']] eqn:Hk; simpl.
  - by apply entrenar_Ok in Hk as (k & _ & _ & _ & ?).
  - by apply entrenar_Raise in Hk as (_ & ? & _).
Qed.

Lemma cargar_modelo_mundo path c w : (cargar_modelo path (c, w)).2.2 = w.
Proof.
  unfold cargar_modelo, try_except_FileNotFoundError.
  destruct (cargar_modelo_try path (c, w)) as [[[] | e] [c' w']] eqn:Hk.
  - by apply cargar_modelo_try_Ok in Hk as [_ ->].
  - apply cargar_modelo_try_Raise in Hk as (_ & -> & _). by destruct e.
Qed.

Lemma guardar_modelo_archivos path c w ruta :
  ruta <> path ->
  archivos (guardar_modelo path (c, w)).2.2 !! ruta = archivos w !! ruta.
Proof.
  intros Hr. unfold guardar_modelo, mbind, M_bind, self. simpl.
  destruct (esta_entrenado c); simpl; [| done].
  by rewrite lookup_insert_ne.
Qed.

Lemma ejecutar_archivos l s ruta :
  ruta ∉ rutas_guardadas [l] ->
  archivos (ejecutar l s).2 !! ruta = archivos s.2 !! ruta.
Proof.
  destruct s as [c w], l as [path | a | | path | path]; simpl; intros Hr.
  - by rewrite entrenar_archivos.
  - by rewrite predecir_archivos.
  - done.
  - apply guardar_modelo_archivos. intros ->. apply Hr. en_lista.
  - by rewrite cargar_modelo_mundo.
Qed.

(** X9.  The improved classifier is called any number of times, from any
    instance and in any world.  A path that is given to no call of
    [guardar_modelo] has, after the calls, the file it had before, or
    none as before: a training, a prediction and a load write no file.
    And [guardar_modelo] on an instance that is not trained raises, and
    writes nothing. *)
Theorem solo_guardar_modelo_escribe ls s ruta :
  (ruta ∉ rutas_guardadas ls ->
   archivos (correr ls s).1.2 !! ruta = archivos s.2 !! ruta)
  /\ (esta_entrenado s.1 = false ->
      guardar_modelo ruta s = (Raise no_entrenado, s)).
Proof.
  split.
  - revert s. induction ls as [| l ls IH]; intros s Hr; simpl; [done |].
    specialize (IH (ejecutar l s)).
    destruct (correr ls (ejecutar l s)) as [s' b]. simpl in *.
    assert ((ruta ∉ rutas_guardadas [l]) /\ ruta ∉ rutas_guardadas ls)
      as [Hl Hls].
    { unfold rutas_guardadas in *. simpl in *.
      destruct l; simpl in *; try (split; [apply not_elem_of_nil | done]).
      apply not_elem_of_cons in Hr as [? ?].
      split; [| done]. rewrite not_elem_of_cons. split; [done |].
      apply not_elem_of_nil. }
    rewrite IH by done. by apply ejecutar_archivos.
  - destruct s as [c w]. simpl. intros Ht.
    unfold guardar_modelo, mbind, M_bind, self. simpl. by rewrite Ht.
Qed.

End Escritura.

(** ** The simple classifier: saving, loading and predicting in lots *)

Module BasicoPersistencia.
Import Basico BasicoEstados.
Section Clase.
Context `{Biblioteca}.

(** What [predecir] returns is a function of the flag, of the stored
    pipeline and of the comment. *)
Lemma predecir_resultado_basico t c1 w1 c2 w2 :
  esta_entrenado c1 = esta_entrenado c2 -> pipeline c1 = pipeline c2 ->
  (predecir t (c1, w1)).1 = (predecir t (c2, w2)).1.
Proof.
  intros Ht Hp.
  unfold predecir, mbind, M_bind, self, puro, raise, mret, M_ret, el_pipeline.
  cbn [fst snd]. rewrite Ht, Hp. destruct (esta_entrenado c2); cbn [negb]; [| done].
  repeat match goal with
  | |- context [match ?r with Ok _ => _ | Raise _ => _ end] =>
      destruct r; cbn [fst snd]; [| done]
  | |- context [match ?o with OPipeline _ => _ | _ => _ end] =>
      destruct o; cbn [fst snd]; try done
  end.
  done.
Qed.

Lemma cargar_modelo_objeto path c w o :
  pickle_load path w = Ok o ->
  cargar_modelo path (c, w) =
    (Ok tt, ({| modelo_tipo := modelo_tipo c; pipeline := o;
                metricas := metricas c; esta_entrenado := true |}, w)).
Proof.
  intros Hl.
  unfold cargar_modelo, try_except_FileNotFoundError, cargar_modelo_try,
    mbind, M_bind, en_mundo. simpl. by rewrite Hl.
Qed.

(** X10.  A trained instance of the simple classifier is saved, and a new
    instance loads the file.  The new instance is trained and has the
    pipeline of the first, so [predecir] gives the same result for both on
    every comment; but it has none of the metrics of the first: its
    dictionary of metrics is the empty one of a new instance, and that is
    what [obtener_metricas] returns. *)
Theorem guardar_y_cargar_basico path c w tipo :
  esta_entrenado c = true ->
  exists w' c',
    guardar_modelo path (c, w) = (Ok tt, (c, w'))
    /\ archivos w' !! path = Some (ArchivoPickle (pipeline c))
    /\ cargar_modelo path (nuevo tipo, w') = (Ok tt, (c', w'))
    /\ pipeline c' = pipeline c /\ esta_entrenado c' = true
    /\ metricas c' = ∅
    /\ obtener_metricas c' = RetornaDict ∅
    /\ forall t w1 w2, (predecir t (c', w1)).1 = (predecir t (c, w2)).1.
Proof.
  intros Ht.
  exists (pickle_dump (pipeline c) path w),
    {| modelo_tipo := tipo; pipeline := pipeline c; metricas := ∅;
       esta_entrenado := true |}.
  split_and!; try done.
  - unfold guardar_modelo, mbind, M_bind, self. simpl. by rewrite Ht.
  - simpl. apply lookup_insert_eq.
  - apply (cargar_modelo_objeto path (nuevo tipo)).
    unfold pickle_load. simpl. by rewrite lookup_insert_eq.
  - intros t w1 w2. by apply predecir_resultado_basico.
Qed.

(** X11.  [cargar_modelo] of the simple classifier takes whatever object
    the pickle holds: the method returns and the instance is marked
    trained.  If the object is no pipeline, every later [predecir] raises
    [AttributeError], and [guardar_modelo] writes that object again. *)
Theorem cargar_modelo_cualquier_objeto path c w o :
  pickle_load path w = Ok o ->
  exists c',
    cargar_modelo path (c, w) = (Ok tt, (c', w))
    /\ esta_entrenado c' = true /\ pipeline c' = o
    /\ ((forall p, o <> OPipeline p) ->
        forall t w1, (predecir t (c', w1)).1 = Raise AttributeError)
    /\ forall ruta w1,
         archivos (guardar_modelo ruta (c', w1)).2.2 !! ruta
         = Some (ArchivoPickle o).
Proof.
  intros Hl. eexists. split; [by apply cargar_modelo_objeto |].
  split_and!; try done.
  - intros Hno t w1.
    unfold predecir, mbind, M_bind, self, puro, el_pipeline. simpl.
    destruct o as [| p | d |]; try done. by destruct (Hno p).
  - intros ruta w1. unfold guardar_modelo, mbind, M_bind, self. simpl.
    apply lookup_insert_eq.
Qed.

(** *** [predecir_lote] *)

Lemma mapM_resultado_Ok {A B} (f : A -> resultado B) l rs :
  mapM (M := resultado) f l = Ok rs -> Forall2 (fun x r => f x = Ok r) l rs.
Proof.
  revert rs. induction l as [| x l IH]; intros rs; simpl.
  - intros [= <-]. constructor.
  - destruct (f x) as [r |] eqn:Hx; simpl; [| done].
    destruct (mapM f l) as [rs' |]; simpl; [| done].
    intros [= <-]. constructor; [done | by apply IH].
Qed.

Lemma elemento_Ok {A} (l : list A) i x : elemento l i = Ok x -> l !! i = Some x.
Proof. unfold elemento. destruct (l !! i); by intros [= <-]. Qed.

(** X12.  [predecir_lote] on an instance that is not trained raises the
    exception of an untrained model.  When it returns, on a pipeline that
    answers row by row, it returns one dictionary for each comment, in
    their order: the comment, and the label, the confidence and the
    probabilities that [predecir] returns for that comment.  It leaves the
    instance and the world as they are. *)
Theorem predecir_lote_por_filas comentarios c w :
  (esta_entrenado c = false ->
   predecir_lote comentarios (c, w) = (Raise no_entrenado, (c, w)))
  /\ forall p rs s',
       pipeline c = OPipeline p -> por_filas p ->
       predecir_lote comentarios (c, w) = (Ok rs, s') ->
       s' = (c, w)
       /\ Forall2 (fun t r => exists r1, (predecir t (c, w)).1 = Ok r1
                                         /\ r = en_lote t r1) comentarios rs.
Proof.
  split.
  { intros Ht. unfold predecir_lote, mbind, M_bind, self. simpl. by rewrite Ht. }
  intros p rs s' Hp Hfilas.
  unfold predecir_lote, mbind at 1, M_bind, self. cbn [fst snd].
  destruct (esta_entrenado c) eqn:Ht; cbn [negb]; [| done].
  unfold el_pipeline. rewrite Hp.
  unfold mbind, M_bind, puro. cbn [fst snd].
  destruct (llamar (predict p _)) as [ys |] eqn:Hys; [| done].
  destruct (llamar (predict_proba p _)) as [ds |] eqn:Hds; [| done].
  destruct (mapM _ _) as [rs' |] eqn:Hrs; [| done].
  intros [= <- <-]. split; [done |].
  apply llamar_Ok in Hys, Hds.
  destruct (Hfilas (map EntradaTexto comentarios)) as [Hy Hd].
  specialize (Hy _ Hys). specialize (Hd _ Hds).
  apply mapM_resultado_Ok in Hrs.
  apply Forall2_same_length_lookup. split.
  - apply Forall2_length in Hrs. by rewrite length_imap in Hrs.
  - intros i t r Hi Hr.
    rewrite Forall2_lookup in Hrs. specialize (Hrs i).
    rewrite list_lookup_imap, Hi, Hr in Hrs. simpl in Hrs.
    inversion Hrs as [? ? Hlote |]; subst.
    unfold resultado_lote in Hlote.
    destruct (llamar (classes_ p)) as [clases |] eqn:Hcl; [| done].
    simpl in Hlote.
    destruct (elemento ds i) as [d |] eqn:Hdi; [| done]. simpl in Hlote.
    destruct (elemento ys i) as [y |] eqn:Hyi; [| done]. simpl in Hlote.
    destruct (max d) as [m |] eqn:Hm; [| done]. simpl in Hlote.
    injection Hlote as <-.
    apply elemento_Ok in Hdi, Hyi.
    rewrite Forall2_lookup in Hy. rewrite Forall2_lookup in Hd.
    specialize (Hy i). specialize (Hd i).
    rewrite list_lookup_fmap, Hi in Hy. rewrite list_lookup_fmap, Hi in Hd.
    simpl in Hy, Hd.
    rewrite Hyi in Hy. rewrite Hdi in Hd.
    inversion Hy as [? ? Hy1 |]; inversion Hd as [? ? Hd1 |]; subst.
    exists {| gravedad := y; confianza := m; probabilidades := zip clases d |}.
    split; [| done].
    unfold predecir, mbind, M_bind, self, puro, el_pipeline. cbn [fst snd].
    rewrite Ht, Hp. cbn [negb]. rewrite Hy1, Hd1. simpl.
    rewrite Hcl, Hm. done.
Qed.

End Clase.
End BasicoPersistencia.

(** ** The labels of a training *)

Section Etiquetas.
Context `{Biblioteca}.
Import Mejorado MejoradoEntrenar.

Lemma iloc_elemento {A} (l : list A) idx r x :
  iloc l idx = Ok r -> x ∈ r -> x ∈ l.
Proof.
  unfold iloc. destruct (mapM _ idx) as [r' |] eqn:Hm; [| done].
  intros [= <-] Hx. apply mapM_Some_1 in Hm.
  apply list_elem_of_lookup in Hx as [i Hx].
  destruct (Forall2_lookup_r _ _ _ _ _ Hm Hx) as (j & _ & Hj).
  by apply list_elem_of_lookup_2 in Hj.
Qed.

Lemma replace_LEVE_no_LEVE e : replace_LEVE e <> LEVE.
Proof.
  destruct e as [v |]; simpl; [| done]. unfold pystr_eqb, LEVE.
  case_bool_decide; [| congruence].
  intros Hx. vm_compute in Hx. discriminate.
Qed.

Lemma replace_LEVE_binaria e :
  e ∈ [GRAVE; MODERADO; LEVE] -> replace_LEVE e ∈ [GRAVE; MODERADO].
Proof.
  assert (replace_LEVE GRAVE = GRAVE) as Hg by (vm_compute; reflexivity).
  assert (replace_LEVE MODERADO = MODERADO) as Hm by (vm_compute; reflexivity).
  assert (replace_LEVE LEVE = MODERADO) as Hl by (vm_compute; reflexivity).
  rewrite !elem_of_cons, elem_of_nil.
  intros [-> | [-> | [-> | []]]]; rewrite ?Hg, ?Hm, ?Hl; auto.
Qed.

(** X13.  A training returns.  The pipeline it stores was fitted on labels
    none of which is LEVE, and it was evaluated on none either: a record
    labelled LEVE is fitted as MODERADO.  If every label of the data set
    is GRAVE, MODERADO or LEVE, the labels the pipeline was fitted on are
    GRAVE and MODERADO only. *)
Theorem entrenar_sin_LEVE path c w c' w' :
  entrenar path (c, w) = (Ok tt, (c', w')) ->
  exists k,
    es_corrida path w k /\ pipeline c' = Some (k_ajustada k)
    /\ fit (Pipeline_mejorado (k_columnas k)) (k_X_train k) (k_y_train k)
       = Devuelve (k_ajustada k)
    /\ (LEVE ∉ k_y_train k) /\ (LEVE ∉ k_y_test k)
    /\ (forall i f, filas (k_df k) !! i = Some f -> Nivel_gravedad f = LEVE ->
          k_y k !! i = Some MODERADO)
    /\ (Forall (fun f => Nivel_gravedad f ∈ [GRAVE; MODERADO; LEVE])
          (filas (k_df k)) ->
        Forall (fun e => e ∈ [GRAVE; MODERADO]) (k_y_train k)).
Proof.
  intros Hk. apply entrenar_Ok in Hk as (k & Hrun & _ & -> & _).
  exists k. split; [done |]. split; [done |].
  split; [by destruct Hrun |].
  assert (k_y k = map (fun f => replace_LEVE (Nivel_gravedad f))
                    (filas (k_df k))) as Hy.
  { pose proof (corrida_y _ _ _ Hrun) as Hy. revert Hy. unfold columna.
    case_bool_decide; [| done]. by intros [= <-]. }
  assert (forall l idx, iloc (k_y k) idx = Ok l -> LEVE ∉ l) as Hno.
  { intros l idx Hl Hin. apply (iloc_elemento _ _ _ _ Hl) in Hin.
    rewrite Hy in Hin. apply list_elem_of_fmap in Hin as (f & Hf & _).
    symmetry in Hf. by apply replace_LEVE_no_LEVE in Hf. }
  split_and!.
  - apply (Hno _ _ (corrida_y_train _ _ _ Hrun)).
  - apply (Hno _ _ (corrida_y_test _ _ _ Hrun)).
  - intros i f Hf Hl. rewrite Hy, list_lookup_fmap, Hf. simpl. rewrite Hl.
    vm_compute. reflexivity.
  - intros Hall. apply Forall_forall. intros e He.
    apply (iloc_elemento _ _ _ _ (corrida_y_train _ _ _ Hrun)) in He.
    rewrite Hy in He. apply list_elem_of_fmap in He as (f & -> & Hf).
    apply replace_LEVE_binaria. rewrite Forall_forall in Hall. by apply Hall.
Qed.

End Etiquetas.

(** ** The web application *)

Module WebSimpleEstados.
Import WebSimple.
Section Clase.
Context `{Biblioteca}.

(** What the training of the application leaves: the classifier and the
    world after [entrenar], and the flag of the application, set if
    [entrenar] returned. *)
Lemma entrenar_modelo_casos a w :
  entrenar_modelo (a, w) =
    if modelo_entrenado a then
      (Ok (jsonify [("status", JStr "already_trained")]), (a, w))
    else
      match Mejorado.entrenar "dataset_comunidades_senasoft.csv"
              (clasificador a, w) with
      | (Ok _, (c', w')) =>
          (Ok (jsonify [("status", JStr "success");
                        ("message", JStr "Modelo entrenado")]),
           ({| clasificador := c'; modelo_entrenado := true |}, w'))
      | (Raise e, (c', w')) =>
          (Ok (jsonify [("status", JStr "error"); ("message", JStrDe e)]),
           ({| clasificador := c'; modelo_entrenado := false |}, w'))
      end.
Proof.
  unfold entrenar_modelo, mbind at 1, M_bind, self. cbn [fst snd].
  destruct (modelo_entrenado a) eqn:Hm; cbn [negb]; [done |].
  unfold try_except_Exception, mbind, M_bind, en_clasificador. cbn [fst snd].
  destruct (Mejorado.entrenar _ _) as [[[] | e] [c' w']]; cbn; by rewrite ?Hm.
Qed.

(** The exception of a classification, if the training does not raise
    before: the one of [datos.get] when the request has no JSON object, the
    one of [int] when it rejects the value under ['edad'], and else the
    [TypeError] of the call of [predecir]. *)
Lemma procesar_clasificacion_casos datos a w :
  procesar_clasificacion datos (a, w) =
    let falla :=
      match datos with
      | None => AttributeError
      | Some d =>
          match int (default (EdadNumero 30) (j_edad d)) with
          | Raise e => e
          | Ok _ => TypeError
          end
      end in
    if modelo_entrenado a then
      (Ok (jsonify_con [("error", JErrorEnClasificacion falla)] 500), (a, w))
    else
      match Mejorado.entrenar "dataset_comunidades_senasoft.csv"
              (clasificador a, w) with
      | (Ok _, (c', w')) =>
          (Ok (jsonify_con [("error", JErrorEnClasificacion falla)] 500),
           ({| clasificador := c'; modelo_entrenado := true |}, w'))
      | (Raise e, (c', w')) =>
          (Ok (jsonify_con [("error", JErrorEnClasificacion e)] 500),
           ({| clasificador := c'; modelo_entrenado := false |}, w'))
      end.
Proof.
  unfold procesar_clasificacion, try_except_Exception.
  unfold mbind at 1, M_bind, self. cbn [fst snd].
  destruct (modelo_entrenado a) eqn:Hm; cbn [negb].
  - destruct a as [c m]. simpl in Hm. subst m.
    destruct datos as [d |]; [| done].
    unfold get. by destruct (j_edad d) as [[x | z | e] |].
  - unfold mbind at 1, M_bind. unfold mbind at 1, M_bind, en_clasificador.
    cbn [fst snd].
    destruct (Mejorado.entrenar _ _) as [[[] | e] [c' w']]; cbn [fst snd].
    + destruct datos as [d |]; [| done].
      unfold get. by destruct (j_edad d) as [[x | z | e] |].
    + by rewrite Hm.
Qed.

(** X14.  [procesar_clasificacion] never answers with a classification.
    Whatever the request and the state of the application, it returns the
    answer of an error, with the code 500: [predecir] is called with the
    keyword [urgencia_percibida], which is none of its parameters, so the
    call raises [TypeError] before [predecir] runs, if nothing has raised
    before it.  With a trained application nothing changes, and the error
    is the first of: the [AttributeError] of [datos.get], for a request
    without a JSON object; the exception of [int], for a value under
    ['edad'] that [int] rejects, such as the [ValueError] of a text that is
    no number; the [TypeError] of the call. *)
Theorem procesar_clasificacion_siempre_falla datos s :
  ("urgencia_percibida" ∉ parametros_predecir)
  /\ exists e s',
       procesar_clasificacion datos s
       = (Ok (jsonify_con [("error", JErrorEnClasificacion e)] 500), s')
       /\ (modelo_entrenado s.1 = true ->
           s' = s
           /\ e = match datos with
                  | None => AttributeError
                  | Some d =>
                      match int (default (EdadNumero 30) (j_edad d)) with
                      | Raise al_convertir => al_convertir
                      | Ok _ => TypeError
                      end
                  end).
Proof.
  split.
  { unfold parametros_predecir. rewrite !elem_of_cons, elem_of_nil.
    intuition discriminate. }
  destruct s as [a w]. rewrite procesar_clasificacion_casos. cbn zeta.
  destruct (modelo_entrenado a) eqn:Hm; cbn [fst snd].
  - eexists _, _. split; [reflexivity |]. done.
  - destruct (Mejorado.entrenar _ _) as [[[] | e] [c' w']];
      eexists _, _; (split; [reflexivity |]); by rewrite Hm.
Qed.

(** After a request, the flag of the application is set only if the
    classifier is trained. *)
Lemma atender_invariante p s :
  (modelo_entrenado s.1 = true ->
   Mejorado.esta_entrenado (clasificador s.1) = true) ->
  modelo_entrenado (atender p s).1 = true ->
  Mejorado.esta_entrenado (clasificador (atender p s).1) = true.
Proof.
  destruct s as [a w]. intros Hinv. destruct p as [| datos]; simpl.
  - rewrite entrenar_modelo_casos.
    destruct (modelo_entrenado a) eqn:Hm; [by auto |].
    destruct (Mejorado.entrenar _ _) as [[[] | e] [c' w']] eqn:Hk; simpl;
      [| done].
    intros _. by apply MejoradoEntrenar.entrenar_Ok in Hk as (k & _ & _ & -> & _).
  - rewrite procesar_clasificacion_casos. cbn zeta.
    destruct (modelo_entrenado a) eqn:Hm; [by auto |].
    destruct (Mejorado.entrenar _ _) as [[[] | e] [c' w']] eqn:Hk; simpl;
      [| done].
    intros _. by apply MejoradoEntrenar.entrenar_Ok in Hk as (k & _ & _ & -> & _).
Qed.

(** X15.  [entrenar_modelo] of the application never raises: it answers
    [already_trained], without a call to the classifier, when the flag of
    the application is set, and else [success] or [error] as [entrenar]
    returns or raises, setting the flag in the first case only.  And after
    any requests to a new application, in any world, the flag of the
    application is set only if the classifier is trained. *)
Theorem entrenar_modelo_responde ps a w :
  (exists r s', entrenar_modelo (a, w) = (Ok r, s') /\ codigo r = 200%nat
     /\ (modelo_entrenado a = true ->
         s' = (a, w) /\ cuerpo r !! "status" = Some (JStr "already_trained"))
     /\ (modelo_entrenado a = false ->
         s'.2 = (Mejorado.entrenar "dataset_comunidades_senasoft.csv"
                   (clasificador a, w)).2.2
         /\ clasificador s'.1
            = (Mejorado.entrenar "dataset_comunidades_senasoft.csv"
                 (clasificador a, w)).2.1
         /\ match (Mejorado.entrenar "dataset_comunidades_senasoft.csv"
                     (clasificador a, w)).1 with
            | Ok _ => modelo_entrenado s'.1 = true
                      /\ cuerpo r !! "status" = Some (JStr "success")
            | Raise e => modelo_entrenado s'.1 = false
                         /\ cuerpo r !! "status" = Some (JStr "error")
                         /\ cuerpo r !! "message" = Some (JStrDe e)
            end))
  /\ (modelo_entrenado (foldl (fun s p => atender p s) (nuevo, w) ps).1 = true ->
      Mejorado.esta_entrenado
        (clasificador (foldl (fun s p => atender p s) (nuevo, w) ps).1) = true).
Proof.
  split.
  - rewrite entrenar_modelo_casos.
    destruct (modelo_entrenado a) eqn:Hm.
    + eexists _, _. split; [reflexivity |]. split; [done |]. by split.
    + destruct (Mejorado.entrenar _ _) as [[[] | e] [c' w']];
        (eexists _, _; split; [reflexivity |]); (split; [done |]); by split.
  - assert (forall s,
              (modelo_entrenado s.1 = true ->
               Mejorado.esta_entrenado (clasificador s.1) = true) ->
              modelo_entrenado (foldl (fun s p => atender p s) s ps).1 = true ->
              Mejorado.esta_entrenado
                (clasificador (foldl (fun s p => atender p s) s ps).1) = true)
      as Hps.
    { induction ps as [| p ps IH]; intros s Hinv; simpl; [done |].
      apply IH. by apply atender_invariante. }
    by apply Hps.
Qed.

End Clase.
End WebSimpleEstados.

(** ** The demonstration *)

Module DemoPresentacionEstados.
Import DemoPresentacion.
Section Clase.
Context `{Biblioteca}.

(** X16.  [entrenar_modelo] of the demonstration never raises, and trains
    once at most: the first call stores a classifier, whether or not the
    data set is there and the training returns, and a call on a
    demonstration that has a classifier returns [None] and does nothing;
    so a training that failed is not tried again.  The first call returns
    [True] only if the data set is there and [entrenar] returns. *)
Theorem entrenar_modelo_una_vez d w :
  exists v s1,
    entrenar_modelo (d, w) = (Ok v, s1)
    /\ is_Some (clasificador s1.1)
    /\ entrenar_modelo s1 = (Ok None, s1)
    /\ (is_Some (clasificador d) -> v = None /\ s1 = (d, w))
    /\ (v = Some true ->
        clasificador d = None
        /\ is_Some (archivos w !! "dataset_comunidades_senasoft.csv")
        /\ (Mejorado.entrenar "dataset_comunidades_senasoft.csv"
              (Mejorado.nuevo, w)).1 = Ok tt).
Proof.
  assert (forall d' w', is_Some (clasificador d') ->
            entrenar_modelo (d', w') = (Ok None, (d', w'))) as Hsegunda.
  { intros d' w' [c Hc]. unfold entrenar_modelo, mbind, M_bind, self.
    cbn [fst snd]. by rewrite Hc. }
  destruct (clasificador d) as [c |] eqn:Hd.
  - exists None, (d, w). rewrite Hsegunda by (rewrite Hd; eauto).
    split_and!; try done; rewrite ?Hd; eauto.
  - unfold entrenar_modelo at 1, mbind at 1, M_bind, self. cbn [fst snd].
    rewrite Hd. unfold mbind at 1, M_bind, asignar. cbn [fst snd].
    unfold mbind at 1, M_bind, en_mundo. cbn [fst snd].
    unfold os_path_exists. case_bool_decide as Hex.
    + unfold try_except_Exception, mbind, M_bind, en_clasificador.
      cbn [fst snd clasificador].
      destruct (Mejorado.entrenar _ _) as [[[] | e] [c' w']] eqn:Hk;
        cbn [fst snd].
      * eexists _, _. split; [reflexivity |]. cbn [fst snd clasificador].
        split; [eauto |]. split; [apply Hsegunda; simpl; eauto |].
        split; [by intros [? ?] |]. done.
      * eexists _, _. split; [reflexivity |]. cbn [fst snd clasificador].
        split; [eauto |]. split; [apply Hsegunda; simpl; eauto |].
        split; [by intros [? ?] |]. done.
    + eexists _, _. split; [reflexivity |]. cbn [fst snd clasificador].
      split; [eauto |]. split; [apply Hsegunda; simpl; eauto |].
      split; [by intros [? ?] |]. done.
Qed.

End Clase.
End DemoPresentacionEstados.

(** ** The further properties on the data *)

Module EnDatosMas.
Import Ejemplo Datos EjemploContrato.

(** X2 on a comment with capitals, accents, punctuation and a tab. *)
Lemma preprocesar_texto_dos_veces_testigo :
  from_option latin1 True (Some (u "  ¡Faltan	MÉDICOS, ya!  "))
  /\ preprocesar_texto (Some (u "  ¡Faltan	MÉDICOS, ya!  "))
     = u "faltan me dicos ya"
  /\ preprocesar_texto
       (Some (preprocesar_texto (Some (u "  ¡Faltan	MÉDICOS, ya!  "))))
     = preprocesar_texto (Some (u "  ¡Faltan	MÉDICOS, ya!  ")).
Proof.
  assert (from_option latin1 True (Some (u "  ¡Faltan	MÉDICOS, ya!  "))) as Hl.
  { simpl. unfold latin1. vm_compute. repeat constructor. }
  split; [exact Hl |]. split; [vm_compute; reflexivity |].
  exact (preprocesar_texto_dos_veces _ Hl).
Defined.

(** X3 on the ten records. *)
Lemma extraer_features_texto_rangos_testigo :
  exists l,
    extraer_features_texto diez_filas = Ok l
    /\ length l = 10%nat
    /\ Forall (fun f => (2 * num_palabras f <= longitud_comentario f + 1)%Z) l.
Proof.
  destruct (extraer_features_texto diez_filas) as [l |] eqn:Hl;
    [| vm_compute in Hl; discriminate].
  destruct (extraer_features_texto_rangos diez_filas l Hl) as [Hlen Hall].
  exists l. split; [reflexivity |]. split; [exact Hlen |].
  eapply Forall_impl; [exact Hall |]. simpl. tauto.
Defined.

(** X4 on the first of the ten records, of Bogotá. *)
Lemma ciudad_grande_cuatro_testigo :
  exists l g,
    crear_features_categoricas diez_filas = Ok l
    /\ filas diez_filas !! 0%nat = Some fila_grave /\ l !! 0%nat = Some g
    /\ (ciudad_grande g = 1%Z <->
        exists v, Ciudad fila_grave = Some v /\ v ∈ ciudades_grandes).
Proof.
  destruct (crear_features_categoricas diez_filas) as [l |] eqn:Hl;
    [| vm_compute in Hl; discriminate].
  assert (filas diez_filas !! 0%nat = Some fila_grave) as Hf by reflexivity.
  destruct (l !! 0%nat) as [g |] eqn:Hg.
  - destruct (ciudad_grande_cuatro diez_filas l 0 fila_grave g Hl Hf Hg)
      as (Hgrande & _).
    exists l, g. split; [reflexivity |]. split; [exact Hf |].
    split; [exact Hg | exact Hgrande].
  - exfalso. apply crear_features_categoricas_Ok in Hl as (edades & _ & ->).
    discriminate Hg.
Defined.

(** X5 on the five records, for the third, which has no age: the ages
    that are present are 65, 30, 40 and 20, and the record gets 35. *)
Lemma edad_imputada_mediana_testigo :
  exists l g,
    crear_features_categoricas con_edad_faltante = Ok l
    /\ filas con_edad_faltante !! 2%nat = Some fila_sin_edad
    /\ l !! 2%nat = Some g
    /\ Edad fila_sin_edad = None
    /\ omap Edad (filas con_edad_faltante) = [65; 30; 40; 20]%Q
    /\ es_mediana (omap Edad (filas con_edad_faltante)) (edad_imputada g)
    /\ (exists m, edad_imputada g = Some m /\ (m == 35)%Q)
    /\ (es_adulto_mayor g + es_joven g <= 1)%Z.
Proof.
  destruct (crear_features_categoricas con_edad_faltante) as [l |] eqn:Hl;
    [| vm_compute in Hl; discriminate].
  assert (filas con_edad_faltante !! 2%nat = Some fila_sin_edad) as Hf
    by reflexivity.
  assert (Edad fila_sin_edad = None) as He by reflexivity.
  assert (median (map Edad (filas con_edad_faltante)) = Some (70 # 2)%Q) as Hm
    by (vm_compute; reflexivity).
  destruct (l !! 2%nat) as [g |] eqn:Hg.
  - destruct (edad_imputada_mediana con_edad_faltante l 2 fila_sin_edad g
                Hl Hf Hg) as (_ & Hmediana & _ & _ & Huno & _).
    destruct (Hmediana He) as [Higual Hes].
    exists l, g. split; [reflexivity |]. split; [exact Hf |].
    split; [exact Hg |]. split; [exact He |].
    split; [vm_compute; reflexivity |]. split; [exact Hes |].
    split; [| exact Huno].
    exists (70 # 2)%Q. split; [by rewrite Higual | reflexivity].
  - exfalso. apply crear_features_categoricas_Ok in Hl as (edades & _ & ->).
    discriminate Hg.
Defined.

(** X6 on the training on the ten records: the city of the first record,
    Bogotá, is the city of a call that leaves the defaults. *)
Lemma predecir_mismo_codigo_testigo :
  Mejorado.entrenar "datos.csv" (Mejorado.nuevo, mundo [])
    = (Ok tt, (entrenado.1, entrenado.2))
  /\ read_csv "datos.csv" (mundo []) = Ok diez_filas
  /\ ("Ciudad" ∈ Mejorado.categoricas_presentes diez_filas)
  /\ filas diez_filas !! 0%nat = Some fila_grave
  /\ celda_categorica "Ciudad"
       (fila_de (Mejorado.solo_comentario (Some (u "falta agua"))))
     = celda_categorica "Ciudad" fila_grave
  /\ exists encoder j r w1' p,
       Mejorado.label_encoders entrenado.1 !! "Ciudad" = Some encoder
       /\ classes_le encoder !! j = Some (u "Bogotá")
       /\ Mejorado.predecir (Mejorado.solo_comentario (Some (u "falta agua")))
            (entrenado.1, entrenado.2)
          = (Ok r, (entrenado.1, w1'))
       /\ Mejorado.pipeline entrenado.1 = Some p
       /\ predict p
            [EntradaMuestra
               (muestra_de entrenado.1
                  (Mejorado.solo_comentario (Some (u "falta agua"))))]
          = Devuelve [Mejorado.gravedad r]
       /\ x_categoricas
            (muestra_de entrenado.1
               (Mejorado.solo_comentario (Some (u "falta agua"))))
            !! "Ciudad_encoded" = Some (Z.of_nat j).
Proof.
  assert (read_csv "datos.csv" (mundo []) = Ok diez_filas) as Hdf
    by reflexivity.
  assert ("Ciudad" ∈ Mejorado.categoricas_presentes diez_filas) as Hcol
    by (vm_compute; en_lista).
  assert (filas diez_filas !! 0%nat = Some fila_grave) as Hf by reflexivity.
  assert (celda_categorica "Ciudad"
            (fila_de (Mejorado.solo_comentario (Some (u "falta agua"))))
          = celda_categorica "Ciudad" fila_grave) as Hcelda by reflexivity.
  destruct (predecir_mismo_codigo contrato "datos.csv" Mejorado.nuevo (mundo [])
              entrenado.1 entrenado.2 diez_filas "Ciudad" 0 fila_grave
              (Mejorado.solo_comentario (Some (u "falta agua"))) entrenado.2
              EnDatos.entrenar_diez_filas Hdf Hcol Hf Hcelda)
    as (encoder & j & r & w1' & p & Hle & Hclase & _ & Hr & Hp & Hl & Hpred).
  split; [exact EnDatos.entrenar_diez_filas |].
  split; [exact Hdf |]. split; [exact Hcol |]. split; [exact Hf |].
  split; [exact Hcelda |].
  exists encoder, j, r, w1', p. split; [exact Hle |]. split; [exact Hclase |].
  split; [exact Hr |]. split; [exact Hp |]. split; [exact Hl | exact Hpred].
Defined.

(** X7 on the instance trained on the ten records: Leticia, which the
    encoder has not seen, and Bogotá, its first class. *)
Lemma predecir_confunde_no_vista_testigo :
  ajustado entrenado.1
  /\ Mejorado.label_encoders entrenado.1 !! "Ciudad"
     = Some {| classes_le := [u "Bogotá"; u "Manizales"] |}
  /\ exists p r1 w1 r2 w2,
       Mejorado.pipeline entrenado.1 = Some p
       /\ Mejorado.predecir queja_de_otra_ciudad (entrenado.1, entrenado.2)
          = (Ok r1, (entrenado.1, w1))
       /\ predict p [EntradaMuestra (muestra_de entrenado.1 queja_de_otra_ciudad)]
          = Devuelve [Mejorado.gravedad r1]
       /\ Mejorado.predecir (Mejorado.solo_comentario (Some (u "falta agua")))
            (entrenado.1, entrenado.2)
          = (Ok r2, (entrenado.1, w2))
       /\ x_categoricas (muestra_de entrenado.1 queja_de_otra_ciudad)
            !! "Ciudad_encoded" = Some 0%Z
       /\ x_categoricas
            (muestra_de entrenado.1
               (Mejorado.solo_comentario (Some (u "falta agua"))))
            !! "Ciudad_encoded" = Some 0%Z.
Proof.
  assert (ajustado entrenado.1) as Ha
    by exact (entrenar_deja_modelo_ajustado _ _ _ _ _ EnDatos.entrenar_diez_filas).
  assert (Mejorado.label_encoders entrenado.1 !! "Ciudad"
          = Some {| classes_le := [u "Bogotá"; u "Manizales"] |}) as Hle
    by (vm_compute; reflexivity).
  assert ("Ciudad" ∈ features_categoricas) as Hcol by en_lista.
  assert (celda_categorica "Ciudad" (fila_de queja_de_otra_ciudad)
          ∉ classes_le {| classes_le := [u "Bogotá"; u "Manizales"] |}) as Hno.
  { vm_compute. intros Hin.
    repeat (apply elem_of_cons in Hin as [Hin | Hin]; [discriminate |]).
    by apply elem_of_nil in Hin. }
  assert (head (classes_le {| classes_le := [u "Bogotá"; u "Manizales"] |})
          = Some (celda_categorica "Ciudad"
                    (fila_de (Mejorado.solo_comentario (Some (u "falta agua"))))))
    as Hprimera by reflexivity.
  destruct (predecir_confunde_no_vista contrato entrenado.1 queja_de_otra_ciudad
              (Mejorado.solo_comentario (Some (u "falta agua"))) "Ciudad" _
              entrenado.2 Ha Hle Hcol Hno Hprimera)
    as (p & r1 & w1 & r2 & w2 & Hp & Hr1 & Hl1 & Hr2 & _ & H1 & H2).
  split; [exact Ha |]. split; [exact Hle |].
  exists p, r1, w1, r2, w2. split; [exact Hp |]. split; [exact Hr1 |].
  split; [exact Hl1 |]. split; [exact Hr2 |]. split; [exact H1 | exact H2].
Defined.

(** X13 on the training on the ten records of which five are labelled
    LEVE: the second record is one of them, and it is fitted as
    MODERADO. *)
Lemma entrenar_sin_LEVE_testigo :
  let r := Mejorado.entrenar "leve.csv" (Mejorado.nuevo, mundo []) in
  r = (Ok tt, (r.2.1, r.2.2))
  /\ Nivel_gravedad fila_leve = LEVE
  /\ exists k,
       es_corrida "leve.csv" (mundo []) k
       /\ Mejorado.pipeline r.2.1 = Some (k_ajustada k)
       /\ filas (k_df k) !! 1%nat = Some fila_leve
       /\ k_y k !! 1%nat = Some MODERADO
       /\ (LEVE ∉ k_y_train k).
Proof.
  intros r.
  assert (r = (Ok tt, (r.2.1, r.2.2))) as Hk.
  { apply (resultado_Ok r). vm_compute. reflexivity. }
  assert (Nivel_gravedad fila_leve = LEVE) as Hleve by reflexivity.
  split; [exact Hk |]. split; [exact Hleve |].
  destruct (entrenar_sin_LEVE _ _ _ _ _ Hk)
    as (k & Hrun & Hp & _ & Hno & _ & Hmod & _).
  assert (filas (k_df k) !! 1%nat = Some fila_leve) as Hf.
  { pose proof (corrida_df _ _ _ Hrun) as Hdf.
    change (Ok con_leve = Ok (k_df k)) in Hdf. injection Hdf as <-.
    reflexivity. }
  exists k. split; [exact Hrun |]. split; [exact Hp |]. split; [exact Hf |].
  split; [exact (Hmod 1%nat fila_leve Hf Hleve) | exact Hno].
Defined.

End EnDatosMas.

(** The pipeline of the example library answers row by row. *)
Module EjemploPorFilas.
Import Ejemplo.

Lemma listo_uno p X x : listo p X = None -> x ∈ X -> listo p [x] = None.
Proof.
  unfold listo. destruct (e_ajustado p); simpl; [| done].
  destruct (forallb (tiene_columnas p) X) eqn:HX; [| done].
  intros _ Hx. rewrite forallb_forall in HX.
  rewrite (HX x) by (by apply list_elem_of_In). done.
Qed.

Lemma ejemplo_por_filas (p : PipelineEjemplo) : por_filas p.
Proof.
  intros X. split.
  - intros ys. simpl. unfold e_predict.
    destruct (listo p X) eqn:Hl; [done |]. intros [= <-].
    apply Forall2_fmap_r, Forall_Forall2_diag, Forall_forall.
    intros x Hx. by rewrite (listo_uno p X x Hl Hx).
  - intros ds. simpl. unfold e_predict_proba.
    destruct (listo p X) eqn:Hl; [done |]. intros [= <-].
    apply Forall2_fmap_r, Forall_Forall2_diag, Forall_forall.
    intros x Hx. by rewrite (listo_uno p X x Hl Hx).
Qed.

End EjemploPorFilas.

Section BasicoEntrenado.
Context `{Biblioteca}.

(** A training of the simple classifier that returns leaves a pipeline. *)
Lemma entrenar_Ok_basico_pipeline path c w c' w' :
  Basico.entrenar path (c, w) = (Ok tt, (c', w')) ->
  exists p, Basico.pipeline c' = OPipeline p.
Proof.
  unfold Basico.entrenar. intros Hk.
  repeat (paso_Ok Hk). injection Hk as <- <-. simpl. eauto.
Qed.

End BasicoEntrenado.

Module EnDatosBasico.
Import Ejemplo Datos DatosBasico EjemploContrato EjemploPorFilas.

Lemma entrenar_diez_filas_basico :
  Basico.entrenar "datos.csv" (Basico.nuevo (u "logistic"), mundo [])
  = (Ok tt, (basico_entrenado.1, basico_entrenado.2)).
Proof.
  apply (resultado_Ok
           (Basico.entrenar "datos.csv" (Basico.nuevo (u "logistic"), mundo []))).
  vm_compute. reflexivity.
Qed.

(** X10 on it: the accuracy is in its metrics, and in none of the instance
    that loads what it saves. *)
Lemma guardar_y_cargar_basico_testigo :
  Basico.esta_entrenado basico_entrenado.1 = true
  /\ is_Some (numero (Basico.metricas basico_entrenado.1 !! "accuracy"))
  /\ exists w' c',
       Basico.guardar_modelo "modelo.pkl" (basico_entrenado.1, mundo [])
       = (Ok tt, (basico_entrenado.1, w'))
       /\ Basico.cargar_modelo "modelo.pkl" (Basico.nuevo (u "logistic"), w')
          = (Ok tt, (c', w'))
       /\ Basico.metricas c' = ∅
       /\ forall t w1 w2,
            (Basico.predecir t (c', w1)).1
            = (Basico.predecir t (basico_entrenado.1, w2)).1.
Proof.
  assert (Basico.esta_entrenado basico_entrenado.1 = true) as Ht
    by (vm_compute; reflexivity).
  split; [exact Ht |].
  split; [vm_compute; eauto |].
  destruct (BasicoPersistencia.guardar_y_cargar_basico "modelo.pkl"
              basico_entrenado.1 (mundo []) (u "logistic") Ht)
    as (w' & c' & Hg & _ & Hc & _ & _ & Hm & _ & Hp).
  exists w', c'. split; [exact Hg |]. split; [exact Hc |].
  split; [exact Hm | exact Hp].
Defined.

(** X11 on the file that the improved classifier saves: the simple
    classifier loads it, is marked trained, and cannot predict. *)
Lemma cargar_modelo_cualquier_objeto_testigo :
  exists w d c',
    Mejorado.guardar_modelo "modelo.pkl" (entrenado.1, entrenado.2)
    = (Ok tt, (entrenado.1, w))
    /\ pickle_load "modelo.pkl" w = Ok (ODatos d)
    /\ Basico.cargar_modelo "modelo.pkl" (Basico.nuevo (u "logistic"), w)
       = (Ok tt, (c', w))
    /\ Basico.esta_entrenado c' = true
    /\ forall t w1, (Basico.predecir t (c', w1)).1 = Raise AttributeError.
Proof.
  assert (Mejorado.esta_entrenado entrenado.1 = true) as Ht
    by (vm_compute; reflexivity).
  pose proof (guardar_modelo_Ok "modelo.pkl" entrenado.1 entrenado.2 Ht) as Hg.
  eexists _, _.
  assert (pickle_load "modelo.pkl"
            (pickle_dump
               (ODatos {| d_pipeline := Some (Mejorado.pipeline entrenado.1);
                          d_label_encoders :=
                            Some (Mejorado.label_encoders entrenado.1);
                          d_metricas := Some (Mejorado.metricas entrenado.1);
                          d_feature_names :=
                            Some (Mejorado.feature_names entrenado.1) |})
               "modelo.pkl" entrenado.2)
          = Ok (ODatos {| d_pipeline := Some (Mejorado.pipeline entrenado.1);
                          d_label_encoders :=
                            Some (Mejorado.label_encoders entrenado.1);
                          d_metricas := Some (Mejorado.metricas entrenado.1);
                          d_feature_names :=
                            Some (Mejorado.feature_names entrenado.1) |}))
    as Hl.
  { unfold pickle_load, pickle_dump. cbn [archivos].
    by rewrite lookup_insert_eq. }
  destruct (BasicoPersistencia.cargar_modelo_cualquier_objeto "modelo.pkl"
              (Basico.nuevo (u "logistic")) _ _ Hl)
    as (c' & Hc & Hflag & _ & Hpred & _).
  exists c'. split; [exact Hg |]. split; [exact Hl |]. split; [exact Hc |].
  split; [exact Hflag |]. apply Hpred. intros p Hp. discriminate Hp.
Defined.

(** X12 on it, for a comment of the ten records and another. *)
Lemma predecir_lote_por_filas_testigo :
  exists p rs r1,
    Basico.pipeline basico_entrenado.1 = OPipeline p /\ por_filas p
    /\ Basico.predecir_lote [u "faltan médicos urgente"; u "hay ruido"]
         (basico_entrenado.1, basico_entrenado.2)
       = (Ok rs, (basico_entrenado.1, basico_entrenado.2))
    /\ length rs = 2%nat
    /\ (Basico.predecir (u "faltan médicos urgente")
          (basico_entrenado.1, basico_entrenado.2)).1 = Ok r1
    /\ rs !! 0%nat = Some (en_lote (u "faltan médicos urgente") r1).
Proof.
  destruct (entrenar_Ok_basico_pipeline _ _ _ _ _ entrenar_diez_filas_basico)
    as [p Hp].
  destruct (Basico.predecir_lote [u "faltan médicos urgente"; u "hay ruido"]
              (basico_entrenado.1, basico_entrenado.2)) as [[rs | e] s'] eqn:Hk.
  - destruct (BasicoPersistencia.predecir_lote_por_filas
                [u "faltan médicos urgente"; u "hay ruido"]
                basico_entrenado.1 basico_entrenado.2)
      as [_ Hlote].
    destruct (Hlote p rs s' Hp (ejemplo_por_filas p) Hk) as [-> Hall].
    pose proof (Forall2_length _ _ _ Hall) as Hlen.
    destruct rs as [| r rs]; [discriminate Hlen |].
    apply Forall2_cons_1 in Hall as [(r1 & Hr1 & ->) _].
    exists p, (en_lote (u "faltan médicos urgente") r1 :: rs), r1.
    split; [exact Hp |]. split; [apply ejemplo_por_filas |].
    split; [reflexivity |]. split; [by rewrite <- Hlen |].
    split; [exact Hr1 | reflexivity].
  - exfalso.
    assert (Basico.devuelve
              (Basico.predecir_lote
                 [u "faltan médicos urgente"; u "hay ruido"]
                 (basico_entrenado.1, basico_entrenado.2)) = true) as Hd
      by (vm_compute; reflexivity).
    rewrite Hk in Hd. discriminate Hd.
Defined.

End EnDatosBasico.

(** ** Loading, and saving again *)

Section CargarYGuardar.
Context `{Biblioteca}.
Import Mejorado.

(** X17.  The improved classifier loads a dictionary that has the
    pipeline, the encoders and the metrics, and is saved again: the file it
    writes holds the pipeline, the encoders and the metrics of the file it
    read, and its feature names, or none if the file read had none,
    whatever the instance had before the load. *)
Theorem cargar_y_guardar path ruta c w p l m n :
  pickle_load path w =
    Ok (ODatos {| d_pipeline := Some p; d_label_encoders := Some l;
                  d_metricas := Some m; d_feature_names := n |}) ->
  exists c' w',
    cargar_modelo path (c, w) = (Ok tt, (c', w))
    /\ guardar_modelo ruta (c', w) = (Ok tt, (c', w'))
    /\ archivos w' !! ruta =
         Some (ArchivoPickle
                 (ODatos {| d_pipeline := Some p; d_label_encoders := Some l;
                            d_metricas := Some m;
                            d_feature_names := Some (default [] n) |}))
    /\ forall ruta', ruta' <> ruta -> archivos w' !! ruta' = archivos w !! ruta'.
Proof.
  intros Hl. eexists _, _. split.
  { unfold cargar_modelo, try_except_FileNotFoundError.
    by rewrite (cargar_modelo_try_completo _ _ _ _ _ _ _ Hl). }
  split; [by apply guardar_modelo_Ok |]. simpl. split.
  - apply lookup_insert_eq.
  - intros ruta' Hr. by rewrite lookup_insert_ne.
Qed.

End CargarYGuardar.

Module EnDatosPersistencia.
Import Ejemplo Datos EjemploContrato.
Import Mejorado.

(** X17 on the file that the instance trained on the ten records saves. *)
Lemma cargar_y_guardar_testigo :
  exists w c' w',
    guardar_modelo "modelo.pkl" (entrenado.1, entrenado.2)
    = (Ok tt, (entrenado.1, w))
    /\ cargar_modelo "modelo.pkl" (nuevo, w) = (Ok tt, (c', w))
    /\ guardar_modelo "copia.pkl" (c', w) = (Ok tt, (c', w'))
    /\ archivos w' !! "copia.pkl" = archivos w !! "modelo.pkl".
Proof.
  assert (esta_entrenado entrenado.1 = true) as Ht by (vm_compute; reflexivity).
  pose proof (guardar_modelo_Ok "modelo.pkl" entrenado.1 entrenado.2 Ht) as Hg.
  set (d := {| d_pipeline := Some (pipeline entrenado.1);
               d_label_encoders := Some (label_encoders entrenado.1);
               d_metricas := Some (metricas entrenado.1);
               d_feature_names := Some (feature_names entrenado.1) |}) in *.
  assert (archivos (pickle_dump (ODatos d) "modelo.pkl" entrenado.2)
            !! "modelo.pkl" = Some (ArchivoPickle (ODatos d))) as Hf
    by (cbn [pickle_dump archivos]; apply lookup_insert_eq).
  assert (pickle_load "modelo.pkl"
            (pickle_dump (ODatos d) "modelo.pkl" entrenado.2)
          = Ok (ODatos d)) as Hl
    by (unfold pickle_load; by rewrite Hf).
  destruct (cargar_y_guardar "modelo.pkl" "copia.pkl" nuevo _ _ _ _ _ Hl)
    as (c' & w' & Hc & Hg' & Hcopia & _).
  exists (pickle_dump (ODatos d) "modelo.pkl" entrenado.2), c', w'.
  split; [exact Hg |]. split; [exact Hc |]. split; [exact Hg' |].
  rewrite Hcopia, Hf. reflexivity.
Defined.

(** X19 on a history in which the second training returns. *)
Lemma predecir_tras_completar_testigo :
  (correr [Entrenar "no_hay.csv"; Entrenar "datos.csv"] (nuevo, mundo [])).2
    = true
  /\ (predecir (solo_comentario (Some (u "falta agua")))
        (correr [Entrenar "no_hay.csv"; Entrenar "datos.csv"]
           (nuevo, mundo [])).1).1 <> Raise no_entrenado.
Proof.
  assert ((correr [Entrenar "no_hay.csv"; Entrenar "datos.csv"]
             (nuevo, mundo [])).2 = true) as Hb by (vm_compute; reflexivity).
  split; [exact Hb |].
  exact (MejoradoEstados.predecir_tras_completar
           [Entrenar "no_hay.csv"; Entrenar "datos.csv"] (mundo [])
           (solo_comentario (Some (u "falta agua"))) Hb).
Defined.

End EnDatosPersistencia.

(** ** The simple classifier: two trainings *)

Module BasicoEntrenar.
Import Basico.
Section Clase.
Context `{Biblioteca}.

(** What a training of the simple classifier returns or raises, and the
    pipeline, the metrics and the flag it leaves, as a function of the data
    set and of the type of model. *)
Lemma entrenar_basico_mismo path c1 w1 c2 w2 :
  archivos w1 !! path = archivos w2 !! path ->
  modelo_tipo c1 = modelo_tipo c2 ->
  (entrenar path (c1, w1)).1 = (entrenar path (c2, w2)).1
  /\ ((entrenar path (c1, w1)).1 = Ok tt ->
      pipeline (entrenar path (c1, w1)).2.1 = pipeline (entrenar path (c2, w2)).2.1
      /\ metricas (entrenar path (c1, w1)).2.1
         = metricas (entrenar path (c2, w2)).2.1
      /\ esta_entrenado (entrenar path (c1, w1)).2.1 = true).
Proof.
  intros Hf Hm.
  assert (read_csv path w1 = read_csv path w2) as Hr
    by (unfold read_csv; by rewrite Hf).
  unfold entrenar, mbind, M_bind, en_mundo, puro, self, asignar.
  cbn [fst snd]. rewrite Hr.
  repeat match goal with
  | |- context [match ?r with Ok _ => _ | Raise _ => _ end] =>
      destruct r; cbn [fst snd]; rewrite ?Hm; [| by split]
  | |- context [let '(_, _) := ?x in _] =>
      destruct x; cbn [fst snd]; rewrite ?Hm
  end.
  by split.
Qed.

Lemma entrenar_basico_mundo path c w : (entrenar path (c, w)).2.2 = w.
Proof.
  destruct (entrenar path (c, w)) as [[[] | e] [c' w']] eqn:Hk; simpl;
    revert Hk; unfold entrenar; intros Hk.
  - repeat (paso_Ok Hk). by injection Hk as _ <-.
  - repeat (paso Hk ltac:(done)).
Qed.

(** X20.  Two trainings of the simple classifier on the same data set, with
    the same type of model, from any two instances and in any two worlds:
    both return or both raise the same exception, and when they return
    they leave the same fitted pipeline and the same metrics, which no
    draw of the random generator has a part in.  A training leaves the
    world, the files and the generator, as it is. *)
Theorem entrenar_basico_dos_veces path c1 w1 c2 w2 :
  archivos w1 !! path = archivos w2 !! path ->
  modelo_tipo c1 = modelo_tipo c2 ->
  (entrenar path (c1, w1)).1 = (entrenar path (c2, w2)).1
  /\ ((entrenar path (c1, w1)).1 = Ok tt ->
      pipeline (entrenar path (c1, w1)).2.1 = pipeline (entrenar path (c2, w2)).2.1
      /\ metricas (entrenar path (c1, w1)).2.1
         = metricas (entrenar path (c2, w2)).2.1
      /\ esta_entrenado (entrenar path (c1, w1)).2.1 = true)
  /\ (entrenar path (c1, w1)).2.2 = w1.
Proof.
  intros Hf Hm. destruct (entrenar_basico_mismo path c1 w1 c2 w2 Hf Hm) as [? ?].
  split_and!; try done. apply entrenar_basico_mundo.
Qed.

End Clase.
End BasicoEntrenar.

Module EnDatosBasicoEntrenar.
Import Ejemplo Datos EjemploContrato.
Import Basico.

(** X20 on the ten records, in two worlds whose generators differ. *)
Lemma entrenar_basico_dos_veces_testigo :
  archivos (mundo []) !! "datos.csv" = archivos (mundo cinta) !! "datos.csv"
  /\ (entrenar "datos.csv" (nuevo (u "logistic"), mundo [])).1 = Ok tt
  /\ (entrenar "datos.csv" (nuevo (u "logistic"), mundo cinta)).1 = Ok tt
  /\ metricas (entrenar "datos.csv" (nuevo (u "logistic"), mundo [])).2.1
     = metricas (entrenar "datos.csv" (nuevo (u "logistic"), mundo cinta)).2.1.
Proof.
  assert (archivos (mundo []) !! "datos.csv"
          = archivos (mundo cinta) !! "datos.csv") as Hf by reflexivity.
  assert ((entrenar "datos.csv" (nuevo (u "logistic"), mundo [])).1 = Ok tt)
    as H1 by (vm_compute; reflexivity).
  destruct (BasicoEntrenar.entrenar_basico_dos_veces "datos.csv"
              (nuevo (u "logistic")) (mundo []) (nuevo (u "logistic"))
              (mundo cinta) Hf eq_refl) as (Hr & Hok & _).
  destruct (Hok H1) as (_ & Hm & _).
  split; [exact Hf |]. split; [exact H1 |].
  split; [rewrite <- Hr; exact H1 | exact Hm].
Defined.

End EnDatosBasicoEntrenar.

(** ** The features that a prediction reports *)

Section Detectadas.
Context `{Biblioteca}.
Import Mejorado MejoradoEntrenar.

Lemma median_uno e : median [Some e] = Some e.
Proof. reflexivity. Qed.

(** X21.  When [predecir] returns, the features it reports are those of
    its arguments: the length of the clean comment and its count of urgent
    words, whether the clean comment mentions a doctor, whether the city
    is one of the four big ones, whether the age is sixty or more, and
    whether the rural zone is not zero. *)
Theorem predecir_features_detectadas a c w r s' :
  predecir a (c, w) = (Ok r, s') ->
  features_detectadas r !! "longitud_texto"
    = Some (EInt (Z.of_nat (length (preprocesar_texto (p_comentario a)))))
  /\ features_detectadas r !! "palabras_urgentes"
     = Some (EInt (palabras_urgentes (features_texto (p_comentario a))))
  /\ features_detectadas r !! "menciona_medicos"
     = Some (EBool (contiene_alguna
                      [u "medico"; u "doctor"; u "hospital"; u "salud"]
                      (preprocesar_texto (p_comentario a))))
  /\ features_detectadas r !! "ciudad_grande"
     = Some (EBool (bool_decide (p_ciudad a ∈ ciudades_grandes)))
  /\ features_detectadas r !! "es_adulto_mayor"
     = Some (EBool (Qle_bool 60 (p_edad a)))
  /\ features_detectadas r !! "zona_rural"
     = Some (EBool (negb (p_zona_rural a =? 0)%Z)).
Proof.
  unfold predecir. rewrite bind_self. cbn [fst].
  destruct (esta_entrenado c); cbn [negb]; [| done].
  rewrite (bind_puro_Ok _ _ _ _ (extraer_features_texto_pred a)).
  rewrite (bind_puro_Ok _ _ _ _ (crear_features_categoricas_pred a)).
  intros Hk. repeat (paso_Ok Hk).
  injection Hk as <- _. cbn [features_detectadas].
  repeat match goal with
  | Hp : Ok _ = primero _ |- _ => injection Hp as ->
  end.
  split_and!.
  - by rewrite lookup_insert_eq.
  - rewrite lookup_insert_ne by done. by rewrite lookup_insert_eq.
  - do 2 rewrite lookup_insert_ne by done. rewrite lookup_insert_eq.
    cbn [features_texto menciona_medicos]. unfold bool_de.
    by destruct (contiene_alguna _ _).
  - do 3 rewrite lookup_insert_ne by done. rewrite lookup_insert_eq.
    rewrite ciudad_grande_fila. unfold bool_de. cbn [Ciudad from_option].
    by case_bool_decide.
  - do 4 rewrite lookup_insert_ne by done. rewrite lookup_insert_eq.
    cbn [features_categoricas_fila es_adulto_mayor Edad]. unfold bool_de, compara.
    cbn [from_option]. by destruct (Qle_bool 60 (p_edad a)).
  - do 5 rewrite lookup_insert_ne by done. rewrite lookup_insert_eq.
    cbn [features_categoricas_fila zona_rural Zona_rural fillna default].
    done.
Qed.

End Detectadas.

Module EnDatosDetectadas.
Import Ejemplo Datos EjemploContrato.
Import Mejorado.

(** X21 on the instance trained on the ten records, for the complaint from
    Leticia, a rural zone. *)
Lemma predecir_features_detectadas_testigo :
  exists r s',
    predecir queja_de_otra_ciudad (entrenado.1, entrenado.2) = (Ok r, s')
    /\ features_detectadas r !! "ciudad_grande"
       = Some (EBool (bool_decide (u "Leticia" ∈ ciudades_grandes)))
    /\ features_detectadas r !! "zona_rural" = Some (EBool true).
Proof.
  destruct (predecir queja_de_otra_ciudad (entrenado.1, entrenado.2))
    as [[r | e] s'] eqn:Hk.
  - destruct (predecir_features_detectadas _ _ _ _ _ Hk)
      as (_ & _ & _ & Hciudad & _ & Hzona).
    exists r, s'. split; [reflexivity |]. split; [exact Hciudad | exact Hzona].
  - exfalso.
    assert (devuelve (predecir queja_de_otra_ciudad (entrenado.1, entrenado.2))
            = true) as Hd by (vm_compute; reflexivity).
    rewrite Hk in Hd. discriminate Hd.
Defined.

End EnDatosDetectadas.
